(** * The layered attestation APB: dispatcher, sign-send pipeline, entry point

    A shallow embedding of [src/apbs/layered_att_apb.c].  The C functions of
    that file are written as programs of a small state-and-exit monad; the
    collaborators that live in other translation units (graph core, ASP
    runner, contract verifier, place directory, the measurement-spec
    evaluation engine, the allocator) are fields of the record [Externals]
    and are quantified over in every theorem. *)

From Stdlib Require Import ZArith String List Lia.
From stdpp Require Import base strings list gmap.
From stdpp Require Import pretty.

Open Scope string_scope.
Open Scope list_scope.
Open Scope Z_scope.

(** ** Data model *)

(** Values of [<errno.h>] used by the file. *)
Definition ENOENT : Z := 2.
Definition EIO    : Z := 5.
Definition EINVAL : Z := 22.

(** [#define TIMEOUT 1000] *)
Definition TIMEOUT : Z := 1000.

(** [STDIN_FILENO] of [<unistd.h>]. *)
Definition STDIN_FILENO : Z := 0.

(** A pointer to a byte buffer, kept as its machine word; [NULL] is 0. *)
Definition ptr := Z.
Definition NULL : ptr := 0.

Definition node_id_t := Z.
Definition uuid_t := string.

(** [struct asp]: only the name is read by this file. *)
Record asp := mk_asp { asp_name : string }.

(** [struct apb]: only the ASP registry is read by this file. *)
Record apb := mk_apb { asps : list asp }.

(** Measurement types are compared by address with
    [&kernel_measurement_type]; [&blob_measurement_type] is the type of the
    data the remote path allocates. *)
Inductive measurement_type :=
| kernel_measurement_type
| blob_measurement_type
| user_measurement_type (magic : Z).

Definition is_kernel_measurement_type (m : measurement_type) : bool :=
  match m with kernel_measurement_type => true | _ => false end.

Inductive address_space :=
| dynamic_measurement_request_address_space
| foreign_address_space (name : string).

(** [dynamic_measurement_request_address]: the two fields read here. *)
Record dynamic_measurement_request_address := mk_dmra {
  attester : string;
  resource : string
}.

(** An [address] carries a pointer to its address space.  An address whose
    space is [&dynamic_measurement_request_address_space] is the member [a]
    of a [dynamic_measurement_request_address], which [container_of]
    recovers; any other address is opaque to this file. *)
Inductive address :=
| request_address (va : dynamic_measurement_request_address)
| foreign_address (space_name : string).

Definition space (a : address) : address_space :=
  match a with
  | request_address _ => dynamic_measurement_request_address_space
  | foreign_address n => foreign_address_space n
  end.

Definition container_of (a : address) : option dynamic_measurement_request_address :=
  match a with
  | request_address va => Some va
  | foreign_address _ => None
  end.

Record measurement_variable := mk_var {
  var_target_type : Z;
  var_address : address
}.

Record place_info := mk_place { addr : string; port : string }.

Record key_value := mk_kv { key : string; value : string }.

(** [struct scenario]: the fields this file reads or writes.  [contract] and
    [size] are the buffer pointer and its length. *)
Record scenario := mk_scenario {
  workdir      : option string;
  certfile     : option string;
  keyfile      : option string;
  keypass      : option string;
  nonce        : option string;
  tpmpass      : option string;
  akctx        : option string;
  sign_tpm     : Z;
  partner_cert : option string;
  contract     : ptr;
  size         : Z
}.

Definition set_contract (sc : scenario) (c : ptr) (n : Z) : scenario :=
  {| workdir := workdir sc; certfile := certfile sc; keyfile := keyfile sc;
     keypass := keypass sc; nonce := nonce sc; tpmpass := tpmpass sc;
     akctx := akctx sc; sign_tpm := sign_tpm sc;
     partner_cert := partner_cert sc; contract := c; size := n |}.

(** [blob_data]: buffer and size, filled by the contract verifier. *)
Record blob_data := mk_blob { buffer : ptr; blob_size : Z }.

(** [marshalled_data] and [struct meas_spec] are only passed on. *)
Record marshalled_data := mk_md { md_handle : Z }.
Record meas_spec := mk_mspec { mspec_handle : Z }.

(** The file-scope variables of the translation unit.  [g_scen] is either
    [NULL] ([false]) or the address of the run's scenario object, which lives
    in the state below. *)
Record globals := mk_globals {
  apb_asps     : list asp;
  mcount       : Z;
  g_certfile   : option string;
  g_keyfile    : option string;
  g_keypass    : option string;
  g_nonce      : option string;
  g_tpmpass    : option string;
  g_akctx      : option string;
  g_sign_tpm   : option string;
  g_scen       : bool;
  g_dom_z_info : option place_info;
  g_dom_t_info : option place_info
}.

(** The initial values of the file-scope variables. *)
Definition initial_globals : globals :=
  {| apb_asps := []; mcount := 0;
     g_certfile := None; g_keyfile := None; g_keypass := None;
     g_nonce := None; g_tpmpass := None; g_akctx := None; g_sign_tpm := None;
     g_scen := false; g_dom_z_info := None; g_dom_t_info := None |}.

(** ** Observable events

    What a run does to the outside world, in program order.  A log line is
    kept as its level and its format string, without the newline and the
    quotation marks of the C literal. *)
Inductive event :=
| EvLog (level : Z) (msg : string)
| EvRunAsp (name : string) (infd outfd : Z) (argc : Z) (argv : list (option string))
| EvRunAspBuffers (name : string) (argc : Z) (argv : list (option string))
| EvForkAsp (name : string) (argc : Z) (argv : list (option string)) (infd : Z)
| EvProcessContract (con : ptr) (len : Z)
| EvPlaceLookup (id : string)
| EvStore (array : string) (declared_len index : nat)
| EvFreeAddress (a : address)
| EvFree (what : string)
| EvClose (fd : Z).

(** Running a worker, in the blocking or in the piped form. *)
Definition is_worker_invocation (e : event) : bool :=
  match e with
  | EvRunAsp _ _ _ _ _ | EvRunAspBuffers _ _ _ | EvForkAsp _ _ _ _ => true
  | _ => false
  end.

Definition worker_invocations (tr : list event) : list event :=
  List.filter is_worker_invocation tr.

(** The remote channel client is the blocking run of the execute worker. *)
Definition is_channel_client_call (e : event) : bool :=
  match e with EvRunAspBuffers _ _ _ => true | _ => false end.

(** ** Program state and the monad of the embedding *)

Record state (G : Type) := mk_state {
  st_graph : option G;
  st_scen  : scenario;
  st_glob  : globals;
  st_trace : list event
}.
Arguments mk_state {G}.
Arguments st_graph {G}.
Arguments st_scen {G}.
Arguments st_glob {G}.
Arguments st_trace {G}.

(** How a C function ends: it returns a value, the process calls [exit], or
    it dereferences a null pointer. *)
Inductive result (A : Type) :=
| Val (a : A)
| Exit (code : Z)
| Fault.
Arguments Val {A}.
Arguments Exit {A}.
Arguments Fault {A}.

Definition M (G A : Type) : Type := state G -> result A * state G.

Definition ret {G A} (a : A) : M G A := fun s => (Val a, s).

Definition bind {G A B} (m : M G A) (f : A -> M G B) : M G B :=
  fun s =>
    match m s with
    | (Val a, s') => f a s'
    | (Exit c, s') => (Exit c, s')
    | (Fault, s') => (Fault, s')
    end.

Declare Scope prog_scope.
Delimit Scope prog_scope with prog.
Notation "x <- m1 ;; m2" := (bind m1 (fun x => m2))
  (at level 20, m1 at level 99, m2 at level 200, only parsing) : prog_scope.
Notation "' x <- m1 ;; m2" := (bind m1 (fun x => m2))
  (at level 20, x pattern, m1 at level 99, m2 at level 200, only parsing) : prog_scope.
Notation "m1 ;; m2" := (bind m1 (fun _ => m2))
  (at level 100, m2 at level 200, only parsing, right associativity) : prog_scope.
Open Scope prog_scope.

Definition exit {G A} (code : Z) : M G A := fun s => (Exit code, s).
Definition fault {G A} : M G A := fun s => (Fault, s).

(** The state after one more event, and after a write to one component. *)
Definition record {G} (e : event) (s : state G) : state G :=
  mk_state (st_graph s) (st_scen s) (st_glob s) (st_trace s ++ [e]).
Definition with_glob {G} (gl : globals) (s : state G) : state G :=
  mk_state (st_graph s) (st_scen s) gl (st_trace s).
Definition with_scen {G} (sc : scenario) (s : state G) : state G :=
  mk_state (st_graph s) sc (st_glob s) (st_trace s).
Definition with_graph {G} (g : option G) (s : state G) : state G :=
  mk_state g (st_scen s) (st_glob s) (st_trace s).

Definition emit {G} (e : event) : M G unit := fun s => (Val tt, record e s).

Definition dlog {G} (level : Z) (msg : string) : M G unit := emit (EvLog level msg).

Definition get_glob {G} : M G globals := fun s => (Val (st_glob s), s).
Definition put_glob {G} (gl : globals) : M G unit := fun s => (Val tt, with_glob gl s).

Definition get_scen {G} : M G scenario := fun s => (Val (st_scen s), s).
Definition put_scen {G} (sc : scenario) : M G unit := fun s => (Val tt, with_scen sc s).

Definition put_graph {G} (g : option G) : M G unit := fun s => (Val tt, with_graph g s).

(** Dereferencing the graph pointer. *)
Definition get_graph {G} : M G G :=
  fun s => match st_graph s with Some g => (Val g, s) | None => (Fault, s) end.

(** Dereferencing [g_scen]. *)
Definition deref_g_scen {G} : M G scenario :=
  fun s => if g_scen (st_glob s) then (Val (st_scen s), s) else (Fault, s).

Definition set_mcount (gl : globals) (mc : Z) : globals :=
  {| apb_asps := apb_asps gl; mcount := mc;
     g_certfile := g_certfile gl; g_keyfile := g_keyfile gl;
     g_keypass := g_keypass gl; g_nonce := g_nonce gl;
     g_tpmpass := g_tpmpass gl; g_akctx := g_akctx gl;
     g_sign_tpm := g_sign_tpm gl; g_scen := g_scen gl;
     g_dom_z_info := g_dom_z_info gl; g_dom_t_info := g_dom_t_info gl |}.

Definition set_apb_asps (gl : globals) (l : list asp) : globals :=
  {| apb_asps := l; mcount := mcount gl;
     g_certfile := g_certfile gl; g_keyfile := g_keyfile gl;
     g_keypass := g_keypass gl; g_nonce := g_nonce gl;
     g_tpmpass := g_tpmpass gl; g_akctx := g_akctx gl;
     g_sign_tpm := g_sign_tpm gl; g_scen := g_scen gl;
     g_dom_z_info := g_dom_z_info gl; g_dom_t_info := g_dom_t_info gl |}.

Definition set_g_dom_z_info (gl : globals) (i : option place_info) : globals :=
  {| apb_asps := apb_asps gl; mcount := mcount gl;
     g_certfile := g_certfile gl; g_keyfile := g_keyfile gl;
     g_keypass := g_keypass gl; g_nonce := g_nonce gl;
     g_tpmpass := g_tpmpass gl; g_akctx := g_akctx gl;
     g_sign_tpm := g_sign_tpm gl; g_scen := g_scen gl;
     g_dom_z_info := i; g_dom_t_info := g_dom_t_info gl |}.

Definition set_g_dom_t_info (gl : globals) (i : option place_info) : globals :=
  {| apb_asps := apb_asps gl; mcount := mcount gl;
     g_certfile := g_certfile gl; g_keyfile := g_keyfile gl;
     g_keypass := g_keypass gl; g_nonce := g_nonce gl;
     g_tpmpass := g_tpmpass gl; g_akctx := g_akctx gl;
     g_sign_tpm := g_sign_tpm gl; g_scen := g_scen gl;
     g_dom_z_info := g_dom_z_info gl; g_dom_t_info := i |}.

Definition set_g_scen (gl : globals) (b : bool) : globals :=
  {| apb_asps := apb_asps gl; mcount := mcount gl;
     g_certfile := g_certfile gl; g_keyfile := g_keyfile gl;
     g_keypass := g_keypass gl; g_nonce := g_nonce gl;
     g_tpmpass := g_tpmpass gl; g_akctx := g_akctx gl;
     g_sign_tpm := g_sign_tpm gl; g_scen := b;
     g_dom_z_info := g_dom_z_info gl; g_dom_t_info := g_dom_t_info gl |}.

(** The seven credential strings, in the order the entry point stages them. *)
Definition set_credentials (gl : globals)
    (cert keyf keyp non tpmp akc stpm : option string) : globals :=
  {| apb_asps := apb_asps gl; mcount := mcount gl;
     g_certfile := cert; g_keyfile := keyf; g_keypass := keyp;
     g_nonce := non; g_tpmpass := tpmp; g_akctx := akc; g_sign_tpm := stpm;
     g_scen := g_scen gl;
     g_dom_z_info := g_dom_z_info gl; g_dom_t_info := g_dom_t_info gl |}.

(** ** Collaborators outside the translation unit

    Each field stands for a function the file calls but does not define.  A
    function with out-parameters returns them next to its status.
    [alloc_ok] tells, per call site, whether the allocation made there
    succeeds. *)
Record Externals := mk_externals {
  graph : Type;
  alloc_ok : string -> bool;
  select_asp : graph -> measurement_type -> measurement_variable ->
               list asp -> Z -> option asp * Z;
  measurement_graph_add_node : graph -> measurement_variable -> Z * node_id_t * graph;
  measurement_node_has_data : graph -> node_id_t -> measurement_type -> bool;
  measurement_graph_get_path : graph -> option string;
  measurement_node_get_address : graph -> node_id_t -> option address;
  str_of_node_id : node_id_t -> string;
  run_asp : asp -> Z -> Z -> list (option string) -> option graph -> Z * option graph;
  run_asp_buffers : asp -> list (option string) -> Z -> Z * ptr * Z;
  process_contract : list asp -> scenario -> Z * blob_data * scenario;
  marshall_measurement_data : blob_data -> option marshalled_data;
  measurement_node_add_data : graph -> node_id_t -> marshalled_data -> Z * graph;
  measure_variable_internal : graph -> measurement_variable -> measurement_type ->
               option string -> option string -> Z -> list asp -> Z * graph * Z;
  fork_and_buffer_async_asp : asp -> list (option string) -> Z -> Z * Z;
  get_place_information : scenario -> string -> Z * option place_info;
  register_types : Z;
  get_target_meas_spec : uuid_t -> Z * option meas_spec;
  create_measurement_graph : option graph;
  evaluate_measurement_spec :
    option meas_spec -> (measurement_variable -> measurement_type -> M graph Z) ->
    M graph Z
}.

(** Modelled from the spec: [find_asp] is defined in the ASP library, not in
    this file; a worker is resolved by name from the registry supplied by the
    caller, and a missing worker gives [NULL]. *)
Definition find_asp (l : list asp) (name : string) : option asp :=
  List.find (fun a => String.eqb (asp_name a) name) l.

Section Program.

Context (E : Externals).

Local Abbreviation G := (graph E).
Local Abbreviation prog := (M (graph E)).

(** [strdup] at the call site [site]. *)
Definition strdup (site : string) (s : string) : option string :=
  if alloc_ok E site then Some s else None.

(** *** The address resolver *)

(** Returns the status and what was written through [vout]. *)
Definition get_measurement_request_addr_from_node (nid : node_id_t)
  : prog (Z * option dynamic_measurement_request_address) :=
  g <- get_graph;;
  match measurement_node_get_address E g nid with
  | None =>
      dlog 1 "Failed to get measurement request details: %s";;
      ret (- EIO, None)
  | Some address =>
      match space address with
      | dynamic_measurement_request_address_space =>
          ret (0, container_of address)
      | foreign_address_space _ =>
          dlog 1 "Measurement request has unexpected address type %s";;
          emit (EvFreeAddress address);;
          ret (- EINVAL, None)
      end
  end.

(** Returns the status and what was written through [addr] and [port]. *)
Definition get_target_channel_info (va : dynamic_measurement_request_address)
  : prog (Z * option (string * string)) :=
  dlog 4 "Get target channel information for place : %s";;
  gl <- get_glob;;
  let deref (info : option place_info) : prog (Z * option (string * string)) :=
    match info with
    | Some i => ret (0, Some (addr i, port i))
    | None => fault
    end in
  if String.eqb (attester va) "@_0" then deref (g_dom_z_info gl)
  else if String.eqb (attester va) "@_t" then deref (g_dom_t_info gl)
  else
    dlog 1 "Unhandled attester: %s specified in measurement contract";;
    ret (-1, None).

(** *** The remote measurement client *)

(** [msmt_con] and [con_len] come in with the caller's values and go out
    overwritten only when the worker returned 0. *)
Definition invoke_send_execute_tcp (execute_asp : asp)
    (addr port : string) (resource : string) (msmt_con : ptr) (con_len : Z)
  : prog (Z * ptr * Z) :=
  gl <- get_glob;;
  let send_execute_args :=
    [ Some addr; Some port; Some resource;
      g_certfile gl; g_keyfile gl; g_keypass gl; g_nonce gl;
      g_tpmpass gl; g_akctx gl; g_sign_tpm gl ] in
  emit (EvRunAspBuffers (asp_name execute_asp) 10 send_execute_args);;
  let '(rc, buf, buf_len) := run_asp_buffers E execute_asp send_execute_args TIMEOUT in
  if rc =? 0 then ret (rc, buf, buf_len) else ret (rc, msmt_con, con_len).

(** *** The ASP selector *)

Definition select_asp_shim (g : G) (mtype : measurement_type)
    (var : measurement_variable) (asps : list asp) : prog (option asp) :=
  if is_kernel_measurement_type mtype then
    ret (find_asp asps "kernel_msmt_asp")
  else
    gl <- get_glob;;
    let '(a, mc) := select_asp E g mtype var asps (mcount gl) in
    put_glob (set_mcount gl mc);;
    ret a.

(** *** The measurement dispatcher *)

(** The strategy the dispatcher takes for [var] and [mtype] in state [s]:
    the worker the selector returns there. *)
Definition selected_asp (s : state G) (var : measurement_variable)
    (mtype : measurement_type) : option asp :=
  match st_graph s with
  | Some g =>
      match fst (select_asp_shim g mtype var (apb_asps (st_glob s)) s) with
      | Val o => o
      | _ => None
      end
  | None => None
  end.

Definition kernel_direct (s : state G) (var : measurement_variable)
    (mtype : measurement_type) : Prop :=
  exists a, selected_asp s var mtype = Some a /\ asp_name a = "kernel_msmt_asp".

Definition remote_layered (s : state G) (var : measurement_variable)
    (mtype : measurement_type) : Prop :=
  exists a, selected_asp s var mtype = Some a /\
            asp_name a = "send_execute_tcp_asp".

(** [measurement_graph_add_node(g, var, NULL, &n)]: status and [n]. *)
Definition add_node (var : measurement_variable) : prog (Z * node_id_t) :=
  g <- get_graph;;
  let '(rc, n, g') := measurement_graph_add_node E g var in
  put_graph (Some g');;
  ret (rc, n).

(** [run_asp(asp, infd, outfd, false, argc, argv, -1)]. *)
Definition do_run_asp (a : asp) (infd outfd : Z) (argc : Z)
    (argv : list (option string)) : prog Z :=
  emit (EvRunAsp (asp_name a) infd outfd argc argv);;
  fun s =>
    let '(rc, g') := run_asp E a infd outfd argv (st_graph s) in
    (Val rc, with_graph g' s).

(** The branch taken when the selected worker is ["kernel_msmt_asp"]. *)
Definition measure_kernel_direct (asp : asp) (var : measurement_variable)
    (mtype : measurement_type) : prog Z :=
  '(rc, n) <- add_node var;;
  if (rc =? 0) || (rc =? 1) then
    dlog 6 "Added node";;
    g <- get_graph;;
    if measurement_node_has_data E g n mtype then
      ret 0
    else
      let graph_path := measurement_graph_get_path E g in
      let nstr := str_of_node_id E n in
      rc <- do_run_asp asp (-1) (-1) 2 [graph_path; Some nstr];;
      emit (EvFree "graph_path");;
      ret rc
  else
    dlog 1 "Error adding node";;
    ret (-1).

(** [alloc_measurement_data(&blob_measurement_type)] and the [container_of]
    that follows it.  The result is not tested: when the allocation fails,
    what follows writes through a null pointer. *)
Definition alloc_blob : prog unit :=
  if alloc_ok E "blob_data" then ret tt else fault.

(** The branch taken when the selected worker is ["send_execute_tcp_asp"]. *)
Definition measure_remote_layered (asp : asp) (var : measurement_variable)
    (mtype : measurement_type) : prog Z :=
  '(rc, n) <- add_node var;;
  if (rc =? 0) || (rc =? 1) then
    dlog 6 "Added node";;
    g <- get_graph;;
    if measurement_node_has_data E g n mtype then
      ret 0
    else
      '(rc, ova) <- get_measurement_request_addr_from_node n;;
      if rc <? 0 then
        dlog 1 "Unable to get measurement address from the address space";;
        ret (-1)
      else
      match ova with
      | None => fault
      | Some va =>
      '(rc, chan) <- get_target_channel_info va;;
      if rc <? 0 then
        dlog 2 "Unable to retrieve place information for the address space";;
        ret (-1)
      else
      match chan with
      | None => fault
      | Some (addr, port) =>
      dlog 4 "Invoking %s for attester %s";;
      '(rc, contract_buf, con_len) <-
         invoke_send_execute_tcp asp addr port (resource va) NULL 0;;
      if rc <? 0 then
        dlog 0 "Failed to invoke %s for attester %s";;
        emit (EvFree "contract");;
        ret (-1)
      else
        sc <- deref_g_scen;;
        let tmp_contract := contract sc in
        let tmp_con_len := size sc in
        put_scen (set_contract sc contract_buf con_len);;
        alloc_blob;;
        sc <- get_scen;;
        gl <- get_glob;;
        emit (EvProcessContract (contract sc) (size sc));;
        let '(rc, blob, sc') := process_contract E (apb_asps gl) sc in
        put_scen (set_contract sc' tmp_contract tmp_con_len);;
        emit (EvFree "contract");;
        if rc <? 0 then
          dlog 1 "Error processing contract from attester %s";;
          emit (EvFree "blob->buffer");;
          ret (-1)
        else
          match marshall_measurement_data E blob with
          | None =>
              emit (EvFree "md->meas_data");;
              dlog 1 "Failed to serialize blob data";;
              ret (-1)
          | Some md =>
              g <- get_graph;;
              let '(rc, g') := measurement_node_add_data E g n md in
              put_graph (Some g');;
              emit (EvFree "md->meas_data");;
              ret rc
          end
      end
      end
  else
    dlog 1 "Error adding node";;
    ret (-1).

(** The last branch: the standard userspace procedure. *)
Definition measure_userspace (var : measurement_variable)
    (mtype : measurement_type) : prog Z :=
  g <- get_graph;;
  gl <- get_glob;;
  let '(rc, g', mc) :=
    measure_variable_internal E g var mtype (g_certfile gl) (g_keyfile gl)
                              (mcount gl) (apb_asps gl) in
  put_graph (Some g');;
  put_glob (set_mcount gl mc);;
  ret rc.

(** The callback handed to the evaluation engine; its [ctxt] is the graph of
    the state. *)
Definition measure_variable_shim (var : measurement_variable)
    (mtype : measurement_type) : prog Z :=
  g <- get_graph;;
  gl <- get_glob;;
  oasp <- select_asp_shim g mtype var (apb_asps gl);;
  match oasp with
  | None =>
      dlog 0 "Failed to find satisfactory ASP";;
      ret (- ENOENT)
  | Some asp =>
      if String.eqb (asp_name asp) "kernel_msmt_asp" then
        measure_kernel_direct asp var mtype
      else if String.eqb (asp_name asp) "send_execute_tcp_asp" then
        measure_remote_layered asp var mtype
      else
        measure_userspace var mtype
  end.

(** *** The sign-send pipeline builder *)

(** A local array of [char *]: the slots written so far, by index from the
    array's base.  A store is recorded with the array's declared length; the
    slot it writes is the one the index names, whether or not that lies
    inside the declaration, and [array_read] hands the first [argc] slots to
    a worker as the callee reads them. *)
Definition array_store (name : string) (declared_len : nat) (i : nat)
    (v : option string) (slots : gmap nat (option string))
  : prog (gmap nat (option string)) :=
  emit (EvStore name declared_len i);;
  ret (<[i := v]> slots).

Definition array_read (slots : gmap nat (option string)) (argc : nat)
  : list (option string) :=
  List.map (fun i => default None (slots !! i)) (seq 0 argc).

(** Declared lengths of the argument arrays of the pipeline. *)
Definition serialize_args_len  : nat := 1.
Definition encrypt_args_len    : nat := 1.
Definition create_con_args_len : nat := 8.

(** [fork_and_buffer_async_asp(asp, argc, argv, infd, &fb_fd)]: the status
    and the descriptor left in [fb_fd]. *)
Definition fork_asp (a : asp) (argc : Z) (argv : list (option string))
    (infd : Z) : prog (Z * Z) :=
  emit (EvForkAsp (asp_name a) argc argv infd);;
  ret (fork_and_buffer_async_asp E a argv infd).

(** The block that runs in the child of the signing stage. *)
Definition send_stage (send : asp) (fb_fd peerchan : Z) : prog Z :=
  ret_val <- do_run_asp send fb_fd peerchan 0 [];;
  emit (EvClose fb_fd);;
  if ret_val <? 0 then
    dlog 1 "Error: Failure in the send ASP";;
    exit (-1)
  else
    exit ret_val.

(** From the nine stores into [create_con_args] that follow the encryption
    branch to the end of the signing stage. *)
Definition sign_stage (create_con send : asp) (workdir : string)
    (create_con_args : gmap nat (option string)) (fb_fd peerchan : Z) : prog Z :=
  gl <- get_glob;;
  a <- array_store "create_con_args" create_con_args_len 0 (Some workdir) create_con_args;;
  a <- array_store "create_con_args" create_con_args_len 1 (g_certfile gl) a;;
  a <- array_store "create_con_args" create_con_args_len 2 (g_keyfile gl) a;;
  a <- array_store "create_con_args" create_con_args_len 3 (g_keypass gl) a;;
  a <- array_store "create_con_args" create_con_args_len 4 (g_tpmpass gl) a;;
  a <- array_store "create_con_args" create_con_args_len 5 (g_akctx gl) a;;
  a <- array_store "create_con_args" create_con_args_len 6 (g_sign_tpm gl) a;;
  a <- array_store "create_con_args" create_con_args_len 7 (Some "1") a;;
  a <- array_store "create_con_args" create_con_args_len 8 (Some "1") a;;
  '(ret_val, fb_fd) <- fork_asp create_con 10 (array_read a 10) fb_fd;;
  if ret_val =? -2 then
    dlog 0 "Failed to execute fork and buffer for %s ASP";;
    exit (-1)
  else if ret_val =? -1 then
    dlog 0 "Failed to wait on %s ASP or child process";;
    exit (-1)
  else if ret_val >? 0 then
    exit 0
  else
    send_stage send fb_fd peerchan.

(** The condition of the encryption branch: the copy of the partner
    certificate path, [None] when the certificate is unset or the copy
    fails. *)
Definition partner_cert_copy (scen : scenario) : option string :=
  match partner_cert scen with
  | Some pc => strdup "partner_cert" pc
  | None => None
  end.

(** The block that runs in the child of the compress stage: the choice
    between the encrypting and the plain branch, then the signing stage. *)
Definition encrypt_stage (encrypt create_con send : asp) (workdir : string)
    (fb_fd peerchan : Z) : prog Z :=
  scen <- get_scen;;
  match partner_cert_copy scen with
  | Some partner_cert =>
      ea <- array_store "encrypt_args" encrypt_args_len 0 (Some partner_cert) ∅;;
      a <- array_store "create_con_args" create_con_args_len 9 (Some "1") ∅;;
      '(ret_val, fb_fd) <- fork_asp encrypt 1 (array_read ea 1) fb_fd;;
      if ret_val =? -2 then
        dlog 0 "Failed to execute fork and buffer for %s ASP";;
        exit (-1)
      else if ret_val =? -1 then
        dlog 0 "Failed to wait on %s ASP or child process";;
        exit (-1)
      else if ret_val >? 0 then
        exit 0
      else
        sign_stage create_con send workdir a fb_fd peerchan
  | None =>
      a <- array_store "create_con_args" create_con_args_len 9 (Some "0") ∅;;
      sign_stage create_con send workdir a fb_fd peerchan
  end.

(** The block that runs in the child of the serialize stage. *)
Definition compress_stage (compress encrypt create_con send : asp)
    (workdir : string) (fb_fd peerchan : Z) : prog Z :=
  '(ret_val, fb_fd) <- fork_asp compress 0 [] fb_fd;;
  if ret_val =? -2 then
    dlog 0 "Failed to execute fork and buffer for %s ASP";;
    exit (-1)
  else if ret_val =? -1 then
    dlog 0 "Failed to wait on %s ASP or child process";;
    exit (-1)
  else if ret_val >? 0 then
    exit 0
  else
    encrypt_stage encrypt create_con send workdir fb_fd peerchan.

(** The graph and the scenario the C function receives by pointer are the
    ones of the state. *)
Definition execute_sign_send_pipeline (peerchan : Z) : prog Z :=
  scen <- get_scen;;
  match
    match workdir scen with
    | Some w => strdup "workdir" w
    | None => None
    end
  with
  | None =>
      dlog 0 "Error: failed to copy workdir";;
      ret (-1)
  | Some workdir_copy =>
      gl <- get_glob;;
      let find_asp_err (msg : string) : prog Z :=
        dlog 1 msg;; emit (EvFree "workdir");; ret (-1) in
      match find_asp (apb_asps gl) "serialize_graph_asp" with
      | None => find_asp_err "Error: unable to retrieve serialize ASP"
      | Some serialize =>
      match find_asp (apb_asps gl) "compress_asp" with
      | None => find_asp_err "Error: unable to retrieve compress ASP"
      | Some compress =>
      match find_asp (apb_asps gl) "encrypt_asp" with
      | None => find_asp_err "Error: unable to retrieve encrypt ASP"
      | Some encrypt =>
      match find_asp (apb_asps gl) "create_measurement_contract_asp" with
      | None => find_asp_err "Error: unable to retrieve create measurement contract ASP"
      | Some create_con =>
      match find_asp (apb_asps gl) "send_asp" with
      | None => find_asp_err "Error: unable to retrieve send ASP"
      | Some send =>
          g <- get_graph;;
          match measurement_graph_get_path E g with
          | None =>
              dlog 0 "Error: unable to retrieve the graph path";;
              emit (EvFree "workdir");;
              ret (-1)
          | Some graph_path =>
              sa <- array_store "serialize_args" serialize_args_len 0 (Some graph_path) ∅;;
              '(ret_val, fb_fd) <- fork_asp serialize 1 (array_read sa 1) STDIN_FILENO;;
              ret_val <-
                (if ret_val =? -2 then
                   dlog 0 "Failed to execute fork and buffer for %s ASP";;
                   ret ret_val
                 else if ret_val =? -1 then
                   dlog 0 "Error in %s ASP or child process";;
                   ret ret_val
                 else if ret_val =? 0 then
                   compress_stage compress encrypt create_con send workdir_copy
                                  fb_fd peerchan
                 else ret ret_val);;
              emit (EvFree "graph_path");;
              emit (EvFree "workdir");;
              ret ret_val
          end
      end end end end end
  end.

(** *** The orchestrator entry point *)

(** [get_place_information(scen, id, &info)]: the status and what is left in
    [info]. *)
Definition lookup_place (id : string) : prog (Z * option place_info) :=
  emit (EvPlaceLookup id);;
  scen <- get_scen;;
  ret (get_place_information E scen id).

(** The loop over the invocation arguments.  The result is [ret_val] and
    whether the loop ran to its end ([false]: it left through
    [goto place_arg_err]). *)
Fixpoint parse_place_args (arg_list : list key_value) (ret_val : Z)
  : prog (Z * bool) :=
  match arg_list with
  | [] => ret (ret_val, true)
  | kv :: rest =>
      if String.eqb (key kv) "@_0" then
        gl <- get_glob;;
        match g_dom_z_info gl with
        | Some _ =>
            dlog 2 "Multiple copies of @_0 arg, ignoring second";;
            parse_place_args rest ret_val
        | None =>
            '(ret_val, info) <- lookup_place (value kv);;
            put_glob (set_g_dom_z_info gl info);;
            if ret_val <? 0 then
              dlog 1 "Unable to get place information for id: %s";;
              ret (ret_val, false)
            else parse_place_args rest ret_val
        end
      else if String.eqb (key kv) "@_t" then
        gl <- get_glob;;
        match g_dom_t_info gl with
        | Some _ =>
            dlog 2 "Multiple copies of @_t arg, ignoring second";;
            parse_place_args rest ret_val
        | None =>
            '(ret_val, info) <- lookup_place (value kv);;
            put_glob (set_g_dom_t_info gl info);;
            if ret_val <? 0 then
              dlog 1 "Unable to get place information for id: %s";;
              ret (ret_val, false)
            else parse_place_args rest ret_val
        end
      else
        dlog 2 "Received unknown argument with key %s";;
        parse_place_args rest ret_val
  end.

(** The code from the label [place_arg_err] (and [meas_spec_err]) on. *)
Definition place_arg_err (ret_val : Z) : prog Z :=
  emit (EvFree "g_dom_z_info");;
  emit (EvFree "g_dom_t_info");;
  ret ret_val.

(** The code from the label [graph_err] on. *)
Definition graph_err (ret_val : Z) : prog Z :=
  emit (EvFree "mspec");;
  place_arg_err ret_val.

(** The code from the label [str_alloc_err] on. *)
Definition str_alloc_err (ret_val : Z) : prog Z :=
  emit (EvFree "g_certfile");;
  emit (EvFree "g_keyfile");;
  emit (EvFree "g_keypass");;
  emit (EvFree "g_nonce");;
  emit (EvFree "g_tpmpass");;
  emit (EvFree "g_akctx");;
  emit (EvFree "g_sign_tpm");;
  emit (EvFree "graph");;
  put_graph None;;
  graph_err ret_val.

(** Copying the scenario's credentials into the file-scope variables. *)
Definition stage_credentials : prog unit :=
  scen <- get_scen;;
  gl <- get_glob;;
  put_glob (set_credentials gl
    (strdup "g_certfile" (default "" (certfile scen)))
    (strdup "g_keyfile"  (default "" (keyfile scen)))
    (strdup "g_keypass"  (default "" (keypass scen)))
    (strdup "g_nonce"    (default "" (nonce scen)))
    (strdup "g_tpmpass"  (default "" (tpmpass scen)))
    (strdup "g_akctx"    (default "" (akctx scen)))
    (strdup "g_sign_tpm" (if sign_tpm scen =? 0 then "0" else "1"))).

Definition is_null {A} (o : option A) : bool :=
  match o with None => true | Some _ => false end.

(** [argc] is the number of entries of [arg_list]; the scenario the C
    function receives by pointer is the one of the state. *)
Definition apb_execute (apb : apb) (meas_spec_uuid : uuid_t) (peerchan : Z)
    (arg_list : list key_value) : prog Z :=
  dlog 4 "Hello from the LAYERED_ATTESTATION_APB";;
  let argc := Z.of_nat (List.length arg_list) in
  if negb (argc =? 2) then
    dlog 1 "USAGE: APB_NAME <@_0> <@_T>";;
    ret (-1)
  else
  let ret_val := register_types E in
  if ret_val <? 0 then ret ret_val else
  gl <- get_glob;;
  put_glob (set_apb_asps gl (asps apb));;
  '(ret_val, finished) <- parse_place_args arg_list ret_val;;
  if negb finished then place_arg_err ret_val else
  gl <- get_glob;;
  if is_null (g_dom_z_info gl) || is_null (g_dom_t_info gl) then
    dlog 1 "APB not given complete set of place information";;
    place_arg_err ret_val
  else
  let '(ret_val, mspec) := get_target_meas_spec E meas_spec_uuid in
  if negb (ret_val =? 0) then place_arg_err ret_val else
  match create_measurement_graph E with
  | None =>
      dlog 0 "Failed to create measurement graph";;
      graph_err (- EIO)
  | Some g =>
      put_graph (Some g);;
      stage_credentials;;
      gl <- get_glob;;
      if is_null (g_certfile gl) || is_null (g_keyfile gl) ||
         is_null (g_keypass gl) || is_null (g_nonce gl) ||
         is_null (g_sign_tpm gl) || is_null (g_tpmpass gl) ||
         is_null (g_akctx gl) then
        dlog 0 "Unable to allocate buffer(s) for scenario information";;
        str_alloc_err ret_val
      else
        put_glob (set_g_scen gl true);;
        dlog 4 "Evaluating measurement spec";;
        evaluate_measurement_spec E mspec measure_variable_shim;;
        dlog 4 "Entering execute_measurement_and_asp_pipeline";;
        ret_val <- execute_sign_send_pipeline peerchan;;
        str_alloc_err ret_val
  end.

End Program.

(** ** Reading a trace *)

(** The argument vectors with which the worker [name] was spawned in the
    piped form, one per spawn. *)
Definition spawn_args (name : string) (tr : list event)
  : list (list (option string)) :=
  flat_map (fun e => match e with
                     | EvForkAsp n _ argv _ =>
                         if String.eqb n name then [argv] else []
                     | _ => []
                     end) tr.

(** The last of the ten arguments of each spawn of the signing stage: the
    encryption flag. *)
Definition signing_flags (tr : list event) : list (option string) :=
  flat_map (fun e => match e with
                     | EvForkAsp n _ argv _ =>
                         if String.eqb n "create_measurement_contract_asp"
                         then [List.nth 9 argv None] else []
                     | _ => []
                     end) tr.

(** The argument counts handed to the signing stage. *)
Definition signing_argcs (tr : list event) : list Z :=
  flat_map (fun e => match e with
                     | EvForkAsp n argc _ _ =>
                         if String.eqb n "create_measurement_contract_asp"
                         then [argc] else []
                     | _ => []
                     end) tr.

(** The stores that fall outside the declaration of their array. *)
Definition out_of_bounds (e : event) : bool :=
  match e with
  | EvStore _ declared_len i => (declared_len <=? i)%nat
  | _ => false
  end.

Definition out_of_bounds_stores (tr : list event) : list event :=
  List.filter out_of_bounds tr.

(** The identifiers looked up in the place directory. *)
Definition place_lookups (tr : list event) : list string :=
  flat_map (fun e => match e with EvPlaceLookup id => [id] | _ => [] end) tr.

(** The log line that opens the Measuring stage. *)
Definition measuring_log : event := EvLog 4 "Evaluating measurement spec".

(** ** A concrete world

    A small instance of [Externals] on which the program runs by
    computation: the graph is a list of nodes, a node's id is its position,
    and a node records the measurement types it holds data for. *)
Module Mock.

#[global] Instance measurement_type_eq_dec : EqDecision measurement_type.
Proof. solve_decision. Defined.
#[global] Instance dmra_eq_dec : EqDecision dynamic_measurement_request_address.
Proof. solve_decision. Defined.
#[global] Instance address_eq_dec : EqDecision address.
Proof. solve_decision. Defined.
#[global] Instance measurement_variable_eq_dec : EqDecision measurement_variable.
Proof. solve_decision. Defined.

Record node := mk_node {
  n_var  : measurement_variable;
  n_data : list measurement_type
}.

Abbreviation mgraph := (list node).

Fixpoint find_node (g : mgraph) (v : measurement_variable) (i : Z) : option Z :=
  match g with
  | [] => None
  | n :: rest => if decide (n_var n = v) then Some i else find_node rest v (i + 1)
  end.

(** Add or find: 1 when the variable already has a node, 0 when it is new. *)
Definition add_node (g : mgraph) (v : measurement_variable) : Z * node_id_t * mgraph :=
  match find_node g v 0 with
  | Some i => (1, i, g)
  | None => (0, Z.of_nat (List.length g), g ++ [mk_node v []])
  end.

Definition has_data (g : mgraph) (n : node_id_t) (t : measurement_type) : bool :=
  match g !! Z.to_nat n with
  | Some nd => bool_decide (t ∈ n_data nd)
  | None => false
  end.

Definition get_address (g : mgraph) (n : node_id_t) : option address :=
  (fun nd => var_address (n_var nd)) <$> g !! Z.to_nat n.

Definition add_data (g : mgraph) (n : node_id_t) (t : measurement_type) : Z * mgraph :=
  match g !! Z.to_nat n with
  | Some nd => (0, <[Z.to_nat n := mk_node (n_var nd) (t :: n_data nd)]> g)
  | None => (-1, g)
  end.

(** The place directory of the end-to-end scenario. *)
Definition places (id : string) : Z * option place_info :=
  if String.eqb id "dom0" then (0, Some (mk_place "127.0.0.1" "9000"))
  else if String.eqb id "target" then (0, Some (mk_place "127.0.0.1" "9001"))
  else if String.eqb id "dom0-alt" then (0, Some (mk_place "127.0.0.1" "9002"))
  else (-1, None).

(** Selection by target type: the execute worker for targets of type 1, a
    userspace worker otherwise. *)
Definition select (g : mgraph) (t : measurement_type) (v : measurement_variable)
    (l : list asp) (mc : Z) : option asp * Z :=
  if var_target_type v =? 1 then (find_asp l "send_execute_tcp_asp", mc + 1)
  else (find_asp l "procopenfiles", mc + 1).

(** The knobs: which allocations succeed, the status of the contract
    verifier, the status of the evaluation engine, the status of each piped
    spawn, and the variables the engine measures.  The verifier overwrites
    the scenario's contract fields, the engine calls the dispatcher on each
    variable and ignores its status. *)
Definition world (alloc : string -> bool) (verify_rc eval_rc : Z)
    (fork_rc : string -> Z) (vars : list (measurement_variable * measurement_type))
  : Externals :=
  {| graph := mgraph;
     alloc_ok := alloc;
     select_asp := select;
     measurement_graph_add_node := add_node;
     measurement_node_has_data := has_data;
     measurement_graph_get_path := fun _ => Some "/tmp/graph";
     measurement_node_get_address := get_address;
     str_of_node_id := fun _ => "node";
     run_asp := fun _ _ _ _ g => (0, g);
     run_asp_buffers := fun _ _ _ => (0, 4096, 3);
     process_contract := fun _ sc =>
       (verify_rc, mk_blob 8192 2, set_contract sc 57005 48879);
     marshall_measurement_data := fun b => Some (mk_md (buffer b));
     measurement_node_add_data := fun g n _ => add_data g n blob_measurement_type;
     measure_variable_internal := fun g _ _ _ _ mc _ => (0, g, mc);
     fork_and_buffer_async_asp := fun a _ infd => (fork_rc (asp_name a), infd + 1);
     get_place_information := fun _ id => places id;
     register_types := 0;
     get_target_meas_spec := fun _ => (0, Some (mk_mspec 1));
     create_measurement_graph := Some [];
     evaluate_measurement_spec := fun _ cb =>
       (fix go (l : list (measurement_variable * measurement_type)) : M mgraph Z :=
          match l with
          | [] => ret eval_rc
          | (v, t) :: rest => fun s => go rest (snd (cb v t s))
          end) vars
  |}.

Definition all_asps : list asp :=
  [ mk_asp "kernel_msmt_asp"; mk_asp "send_execute_tcp_asp";
    mk_asp "procopenfiles"; mk_asp "serialize_graph_asp";
    mk_asp "compress_asp"; mk_asp "encrypt_asp";
    mk_asp "create_measurement_contract_asp"; mk_asp "send_asp" ].

Definition the_apb : apb := mk_apb all_asps.

Definition scen0 (pc : option string) : scenario :=
  {| workdir := Some "/tmp/work"; certfile := Some "cert.pem";
     keyfile := Some "key.pem"; keypass := None; nonce := Some "n0";
     tpmpass := None; akctx := None; sign_tpm := 0;
     partner_cert := pc; contract := 1000; size := 64 |}.

(** The state at process start. *)
Definition start (pc : option string) : state mgraph :=
  mk_state None (scen0 pc) initial_globals [].

(** A state in the middle of the Measuring stage: places resolved,
    credentials staged, [g_scen] set, the graph [g]. *)
Definition measuring_globals : globals :=
  {| apb_asps := all_asps; mcount := 0;
     g_certfile := Some "cert.pem"; g_keyfile := Some "key.pem";
     g_keypass := Some ""; g_nonce := Some "n0"; g_tpmpass := Some "";
     g_akctx := Some ""; g_sign_tpm := Some "0";
     g_scen := true;
     g_dom_z_info := Some (mk_place "127.0.0.1" "9000");
     g_dom_t_info := Some (mk_place "127.0.0.1" "9001") |}.

Definition measuring (pc : option string) (g : mgraph) : state mgraph :=
  mk_state (Some g) (scen0 pc) measuring_globals [].

Definition always (b : bool) : string -> bool := fun _ => b.
Definition all_but (site : string) : string -> bool :=
  fun s => negb (String.eqb s site).
Definition child : string -> Z := fun _ => 0.

(** Variables of the scenarios. *)
Definition remote_var (att : string) : measurement_variable :=
  mk_var 1 (request_address (mk_dmra att "app-list")).
Definition kernel_var : measurement_variable :=
  mk_var 2 (foreign_address "kernel").
Definition file_var : measurement_variable :=
  mk_var 3 (foreign_address "file").

End Mock.

(** The worlds and the argument list of the concrete runs. *)
Definition W_ok : Externals :=
  Mock.world (Mock.always true) 0 0 Mock.child [].
Definition W_verify_fails : Externals :=
  Mock.world (Mock.always true) (-1) 0 Mock.child [].
Definition W_engine_fails : Externals :=
  Mock.world (Mock.always true) 0 (-1) Mock.child
    [(Mock.remote_var "@_t", user_measurement_type 7)].
Definition W_no_workdir_copy : Externals :=
  Mock.world (Mock.all_but "workdir") 0 0 Mock.child [].
Definition W_no_cert_copy : Externals :=
  Mock.world (Mock.all_but "partner_cert") 0 0 Mock.child [].

Definition two_places : list key_value :=
  [mk_kv "@_0" "dom0"; mk_kv "@_t" "target"].

(** ** Vocabulary of the further properties *)

(** The ten arguments the execute worker receives for the place [info] and
    the resource [res]. *)
Definition send_execute_argv (gl : globals) (info : place_info) (res : string)
  : list (option string) :=
  [ Some (addr info); Some (port info); Some res;
    g_certfile gl; g_keyfile gl; g_keypass gl; g_nonce gl;
    g_tpmpass gl; g_akctx gl; g_sign_tpm gl ].

(** The place a request names, among the two that are configured. *)
Definition place_of (gl : globals) (name : string) : option place_info :=
  if String.eqb name "@_0" then g_dom_z_info gl
  else if String.eqb name "@_t" then g_dom_t_info gl
  else None.

(** Did the send worker run? *)
Definition ran_send (tr : list event) : bool :=
  existsb (fun e => match e with
                    | EvRunAsp n _ _ _ _ => String.eqb n "send_asp"
                    | _ => false
                    end) tr.

(** The ten arguments of the signing stage for the working directory [w]
    and the encryption flag [flag]. *)
Definition sign_argv (gl : globals) (w flag : string) : list (option string) :=
  [ Some w; g_certfile gl; g_keyfile gl; g_keypass gl; g_tpmpass gl;
    g_akctx gl; g_sign_tpm gl; Some "1"; Some "1"; Some flag ].

(** The events the argument loop can produce. *)
Definition is_parse_event (e : event) : bool :=
  match e with
  | EvPlaceLookup _ => true
  | EvLog 2 _ => true
  | EvLog 1 m => String.eqb m "Unable to get place information for id: %s"
  | _ => false
  end.

Definition incomplete_log : event :=
  EvLog 1 "APB not given complete set of place information".
Definition unable_log : event :=
  EvLog 1 "Unable to get place information for id: %s".
Definition alloc_log : event :=
  EvLog 0 "Unable to allocate buffer(s) for scenario information".

Section MoreDefinitions.
Context (E : Externals).
Local Abbreviation G := (graph E).

(** What a state needs for the dispatcher to run without a null
    dereference. *)
Definition ready_for_dispatch (s : state G) : Prop :=
  is_Some (st_graph s) /\ g_scen (st_glob s) = true /\
  is_Some (g_dom_z_info (st_glob s)) /\ is_Some (g_dom_t_info (st_glob s)).

(** Do the seven copies of the scenario's credentials all succeed? *)
Definition staging_ok : bool :=
  alloc_ok E "g_certfile" && alloc_ok E "g_keyfile" && alloc_ok E "g_keypass" &&
  alloc_ok E "g_nonce" && alloc_ok E "g_sign_tpm" && alloc_ok E "g_tpmpass" &&
  alloc_ok E "g_akctx".

(** The state once the graph [g] is created and the credentials are
    staged. *)
Definition staged (g : G) (s : state G) : state G :=
  snd (stage_credentials E (with_graph (Some g) s)).

End MoreDefinitions.

(** ** Further concrete runs *)

(** [W_ok] with the status of the node add-or-find step, of the channel
    client and of the verifier chosen; [None] keeps the add-or-find of the
    mock graph. *)
Definition W_variant (add_rc : option Z) (client_rc verify_rc : Z) : Externals :=
  let W := Mock.world (Mock.always true) verify_rc 0 Mock.child [] in
  {| graph := Mock.mgraph;
     alloc_ok := alloc_ok W;
     select_asp := select_asp W;
     measurement_graph_add_node := fun g v =>
       match add_rc with
       | Some rc => (rc, 0, g)
       | None => Mock.add_node g v
       end;
     measurement_node_has_data := measurement_node_has_data W;
     measurement_graph_get_path := measurement_graph_get_path W;
     measurement_node_get_address := measurement_node_get_address W;
     str_of_node_id := str_of_node_id W;
     run_asp := run_asp W;
     run_asp_buffers := fun _ _ _ => (client_rc, 4096, 3);
     process_contract := process_contract W;
     marshall_measurement_data := marshall_measurement_data W;
     measurement_node_add_data := measurement_node_add_data W;
     measure_variable_internal := measure_variable_internal W;
     fork_and_buffer_async_asp := fork_and_buffer_async_asp W;
     get_place_information := get_place_information W;
     register_types := register_types W;
     get_target_meas_spec := get_target_meas_spec W;
     create_measurement_graph := create_measurement_graph W;
     evaluate_measurement_spec := evaluate_measurement_spec W
  |}.

(** The world in which the copy of the nonce fails. *)
Definition W_no_nonce_copy : Externals :=
  Mock.world (Mock.all_but "g_nonce") 0 0 Mock.child [].

(** The Measuring-stage state with an empty worker registry. *)
Definition no_registry (g : Mock.mgraph) : state Mock.mgraph :=
  mk_state (Some g) (Mock.scen0 None) (set_apb_asps Mock.measuring_globals []) [].

(** The graph after the add-or-find of the remote variable, and after its
    blob is attached. *)
Definition remote_node : Mock.mgraph :=
  [Mock.mk_node (Mock.remote_var "@_t") []].
Definition remote_node_measured : Mock.mgraph :=
  [Mock.mk_node (Mock.remote_var "@_t") [blob_measurement_type]].
Definition kernel_node : Mock.mgraph :=
  [Mock.mk_node Mock.kernel_var []].
Definition target_place : place_info := mk_place "127.0.0.1" "9001".

(** The Measuring-stage state without the target's place. *)
Definition no_target_place (g : Mock.mgraph) : state Mock.mgraph :=
  mk_state (Some g) (Mock.scen0 None)
    (set_g_dom_t_info Mock.measuring_globals None) [].

(** ** Outcomes of a piped spawn *)

(** After [fork_and_buffer_async_asp] the stages from compress on go on as
    the child when the status is neither -2 nor -1 nor positive. *)
Definition child_of_spawn (rc : Z) : bool :=
  negb (rc =? -2) && negb (rc =? -1) && negb (rc >? 0).

(** The status with which the process ends when it does not go on as the
    child: -1 after a failed spawn, 0 as the parent. *)
Definition parent_exit (rc : Z) : Z :=
  if (rc =? -2) || (rc =? -1) then -1 else 0.

(** The status with which the child of the signing stage ends, for the
    status [st] of the send worker. *)
Definition send_exit (st : Z) : Z := if st <? 0 then -1 else st.

(** ** Worlds of the pipeline's statuses *)

(** [W_ok] with the serialize spawn returning [rc]. *)
Definition W_serialize_status (rc : Z) : Externals :=
  Mock.world (Mock.always true) 0 0
    (fun name => if String.eqb name "serialize_graph_asp" then rc else 0) [].

(** [W_ok] with the send worker returning [rc]; every other worker run
    returns 0. *)
Definition W_send_status (rc : Z) : Externals :=
  {| graph := Mock.mgraph;
     alloc_ok := alloc_ok W_ok;
     select_asp := select_asp W_ok;
     measurement_graph_add_node := measurement_graph_add_node W_ok;
     measurement_node_has_data := measurement_node_has_data W_ok;
     measurement_graph_get_path := measurement_graph_get_path W_ok;
     measurement_node_get_address := measurement_node_get_address W_ok;
     str_of_node_id := str_of_node_id W_ok;
     run_asp := fun a _ _ _ g =>
       (if String.eqb (asp_name a) "send_asp" then rc else 0, g);
     run_asp_buffers := run_asp_buffers W_ok;
     process_contract := process_contract W_ok;
     marshall_measurement_data := marshall_measurement_data W_ok;
     measurement_node_add_data := measurement_node_add_data W_ok;
     measure_variable_internal := measure_variable_internal W_ok;
     fork_and_buffer_async_asp := fork_and_buffer_async_asp W_ok;
     get_place_information := get_place_information W_ok;
     register_types := register_types W_ok;
     get_target_meas_spec := get_target_meas_spec W_ok;
     create_measurement_graph := create_measurement_graph W_ok;
     evaluate_measurement_spec := evaluate_measurement_spec W_ok
  |}.

(** The world whose engine measures one variable at the place of key
    [@_0]. *)
Definition W_measures_dom0 : Externals :=
  Mock.world (Mock.always true) 0 0 Mock.child
    [(Mock.remote_var "@_0", user_measurement_type 7)].

(** * The raw6 netstat collector ([netstatraw6asp.c])

    The worker reads [/proc/net/raw6], cuts each line into its fields and
    attaches the list of lines to a node of the measurement graph. *)
Module Netstat.

(** ** Data *)

(** [netstat_raw6_line]; its declaration is in a header outside this file.
    The fields are those the file writes: two character arrays into which
    at most 52 bytes are printed, a character array whose seventeenth byte
    is set to zero, and two numbers. *)
Record netstat_raw6_line := mk_line {
  local_addr : string;
  rem_addr   : string;
  State      : string;
  uid        : Z;
  inode      : Z
}.

(** What [stat] leaves in [struct stat], as far as the file reads it. *)
Record stat_t := mk_stat { st_dev : Z; st_ino : Z; st_size : Z }.

(** [file_addr], as the file fills it. *)
Record file_addr := mk_file_addr {
  device_major : Z;
  device_minor : Z;
  file_size : Z;
  node : Z;
  fullpath_file_name : string
}.

(** What a run of the worker does, in program order.  A log line is kept as
    its format string without the newline. *)
Inductive aevent :=
| ALogError (msg : string)
| ADlog (level : Z) (msg : string)
| AMap (path : string)
| AUnmap
| AAllocAddress
| AFreeAddress
| ANewVariable (a : file_addr)
| AFreeVariable
| AFopen (path : string)
| AFclose
| AFreeLine
| AAddRawData (node_id : Z) (lines : option (list (option netstat_raw6_line)))
| AFreeData.

(** A statement with an effect, followed by the rest of the function. *)
Definition say {X} (e : aevent) (k : list aevent * result X)
  : list aevent * result X :=
  (e :: fst k, snd k).

Declare Scope asp_scope.
Delimit Scope asp_scope with asp.
Notation "e ;> k" := (say e k) (at level 100, k at level 200, right associativity)
  : asp_scope.

(** ** The C library's string functions *)

Definition is_delim (delims : string) (c : Ascii.ascii) : bool :=
  existsb (Ascii.eqb c) (list_ascii_of_string delims).

(** [strtok]: the bytes of [delims] at the start of the saved position are
    skipped ... *)
Fixpoint skip_delims (delims : string) (s : string) : string :=
  match s with
  | EmptyString => EmptyString
  | String c r => if is_delim delims c then skip_delims delims r else s
  end.

(** ... the token runs up to the next byte of [delims], which is
    overwritten with a terminator, and the position saved for the next call
    is the byte after it; a token that runs to the end of the string leaves
    the end of the string as the saved position. *)
Fixpoint take_token (delims : string) (s : string) : string * string :=
  match s with
  | EmptyString => (EmptyString, EmptyString)
  | String c r =>
      if is_delim delims c then (EmptyString, r)
      else let '(t, rest) := take_token delims r in (String c t, rest)
  end.

(** One call of [strtok] at the saved position [saved]: the token ([None]
    for a null pointer) and the new saved position. *)
Definition strtok (delims : string) (saved : string) : option string * string :=
  match skip_delims delims saved with
  | EmptyString => (None, EmptyString)
  | s => let '(t, rest) := take_token delims s in (Some t, rest)
  end.

(** The first [n] bytes of a string: what [strncpy] copies, and what
    [snprintf] with the size [n + 1] keeps. *)
Fixpoint string_take (n : nat) (s : string) : string :=
  match n, s with
  | S n', String c r => String c (string_take n' r)
  | _, _ => EmptyString
  end.

(** The conversion [(short) port] of a [long]: the compilers the project
    builds with reduce the value modulo 2^16 into the range of [short]. *)
Definition to_short (z : Z) : Z := (z + 32768) mod 65536 - 32768.

(** ** Collaborators *)

(** The functions the file calls but does not define.  [alloc_ok] tells,
    per call site, whether the allocation made there succeeds.  [sscanf_hex]
    gives the words the conversion [%08X%08X%08X%08X] stores, in order (less
    than four when the input runs out); [inet_ntop] prints the four words of
    an address, a word no call has written being [None]; [fopen] gives the
    lines the successive calls of [getline] return. *)
Record World := mk_world {
  alloc_ok : string -> bool;
  strtol16 : string -> Z;
  atoi : string -> Z;
  sscanf_hex : string -> list Z;
  inet_ntop : list (option Z) -> string;
  node_id_of_str : string -> option Z;
  map_measurement_graph : string -> Z;
  alloc_address : bool;
  stat : string -> option stat_t;
  SIZE_MAX : Z;
  major : Z -> Z;
  minor : Z -> Z;
  new_measurement_variable : file_addr -> bool;
  fopen : string -> option (list string)
}.

Section Worker.
Context (W : World).

Definition zero_address : string := "00000000000000000000000000000000".

(** The words of [ip] after [sscanf] has stored [ws] at its start. *)
Fixpoint store_words (ws : list Z) (ip : list (option Z)) : list (option Z) :=
  match ws, ip with
  | w :: ws', _ :: ip' => Some w :: store_words ws' ip'
  | _, _ => ip
  end.

(** The text of one address field: the buffer [addr] and the words of [ip]
    afterwards, or [None] for a fault.  [ip] is [None] when its allocation
    failed; the conversion then writes through a null pointer. *)
Definition address_text (tmp : string) (ip : option (list (option Z)))
  : option (string * option (list (option Z))) :=
  if String.eqb tmp zero_address then Some ("::1", ip)
  else
    match ip with
    | None => None
    | Some words =>
        let words' := store_words (sscanf_hex W tmp) words in
        Some (inet_ntop W words', Some words')
    end.

(** [snprintf(dst, 52, "[%s]:%d", addr, (short) port)]. *)
Definition print_endpoint (addr : string) (port : Z) : string :=
  string_take 51 ("[" ++ addr ++ "]:" ++ pretty (to_short port)).

(** A token that is used: a null pointer faults. *)
Definition used {X} (tmp : option string) (k : string -> result X) : result X :=
  match tmp with
  | Some t => k t
  | None => Fault
  end.

Definition chunk_line_data (raw_line : string)
  : result (option netstat_raw6_line) :=
  if negb (alloc_ok W "ret") then Val None else
  let ip := if alloc_ok W "ip" then Some [None; None; None; None] else None in
  let '(_, sv) := strtok ":" raw_line in          (* sl *)
  let '(tmp, sv) := strtok " :" sv in             (* local_address *)
  used tmp (fun tmp =>
  match address_text tmp ip with
  | None => Fault
  | Some (addr, ip) =>
  let '(tmp, sv) := strtok " " sv in              (* local_address port *)
  used tmp (fun tmp =>
  let port := strtol16 W tmp in
  let local := print_endpoint addr port in
  let '(tmp, sv) := strtok " :" sv in             (* rem_address *)
  used tmp (fun tmp =>
  match address_text tmp ip with
  | None => Fault
  | Some (addr, ip) =>
  let '(tmp, sv) := strtok " " sv in              (* rem_address port *)
  used tmp (fun tmp =>
  let port := strtol16 W tmp in
  let rem := print_endpoint addr port in
  let '(tmp, sv) := strtok " " sv in              (* state *)
  used tmp (fun tmp =>
  let st := string_take 16 tmp in
  let '(_, sv) := strtok " :" sv in               (* tx_queue *)
  let '(_, sv) := strtok " " sv in                (* rx_queue *)
  let '(_, sv) := strtok " :" sv in               (* tr *)
  let '(_, sv) := strtok " " sv in                (* tm->when *)
  let '(_, sv) := strtok " " sv in                (* retrnsmt *)
  let '(tmp, sv) := strtok " " sv in              (* uid *)
  used tmp (fun tmp =>
  let u := atoi W tmp in
  let '(_, sv) := strtok " " sv in                (* timeout *)
  let '(tmp, sv) := strtok " " sv in              (* inode *)
  used tmp (fun tmp =>
  let i := atoi W tmp in
  Val (Some (mk_line local rem st u i))))))
  end))
  end).

(** The loop over the lines after the header: each line is cut, the result
    is put in front of [data->lines], and the line is freed.  [data] is not
    tested after its allocation: with [data_ok = false] the first store
    into [data->lines] goes through a null pointer. *)
Fixpoint read_lines (data_ok : bool) (lines : list string)
    (acc : list (option netstat_raw6_line))
  : list aevent * result (list (option netstat_raw6_line)) :=
  match lines with
  | [] => ([], Val acc)
  | line :: rest =>
      match chunk_line_data line with
      | Val nl =>
          if data_ok then
            (AFreeLine ;> read_lines data_ok rest (nl :: acc))%asp
          else ([], Fault)
      | Exit c => ([], Exit c)
      | Fault => ([], Fault)
      end
  end.

Definition proc_file : string := "/proc/net/raw6".

Definition asp_measure (argv : list string) : list aevent * result Z :=
  let argc := Z.of_nat (List.length argv) in
  let usage : list aevent * result Z :=
    (ALogError "Usage: netstatraw6 <graph path> <node id>" ;>
     ([], Val (- EINVAL)))%asp in
  match argv with
  | _ :: graph_path :: node_str :: _ =>
  match node_id_of_str W node_str with
  | None => usage
  | Some node_id =>
  (AMap graph_path ;>
  if negb (map_measurement_graph W graph_path =? 0) then usage else
  if negb (alloc_address W) then
    ALogError "Failed to allocate new file address for /proc/net/raw6" ;>
    AUnmap ;>
    ([], Val (-1))
  else
  AAllocAddress ;>
  match stat W proc_file with
  | None =>
      ALogError "Failed to stat() /proc/net/raw6" ;>
      AUnmap ;>
      ([], Val (-1))
  | Some file_stats =>
  if (st_size file_stats <? 0) || (SIZE_MAX W <? st_size file_stats) then
    ALogError "File stat size cannot be represented in measurement variable" ;>
    AUnmap ;>
    ([], Val (-1))
  else
  if negb (alloc_ok W "fullpath_file_name") then
    ALogError "Failed to allocate memory for file path" ;>
    AFreeAddress ;>
    AUnmap ;>
    ([], Val (-1))
  else
  let file_address :=
    {| device_major := major W (st_dev file_stats);
       device_minor := minor W (st_dev file_stats);
       file_size := st_size file_stats;
       node := st_ino file_stats;
       fullpath_file_name := proc_file |} in
  if negb (new_measurement_variable W file_address) then
    ALogError "Failed to allocate memory for new measurement variable." ;>
    AFreeAddress ;>
    AUnmap ;>
    ([], Val (-1))
  else
  ANewVariable file_address ;>
  match fopen W proc_file with
  | None =>
      ADlog 0 "Error when trying to read /proc/net/raw6" ;>
      AFreeVariable ;>
      AUnmap ;>
      ([], Val (-1))
  | Some lines =>
  AFopen proc_file ;>
  match lines with
  | [] =>
      ALogError "Failed to read column headers from proc file" ;>
      AFreeVariable ;>
      AFclose ;>
      AUnmap ;>
      ([], Val (-1))
  | _ :: lines =>
  let data_ok := alloc_ok W "data" in
  let '(tr, r) := read_lines data_ok lines [] in
  (tr ++
   match r with
   | Val l =>
       [ AAddRawData node_id (if data_ok then Some l else None);
         AFreeData; AFreeVariable; AFclose; AUnmap ]
   | _ => []
   end,
   match r with
   | Val _ => Val 0
   | Exit c => Exit c
   | Fault => Fault
   end)
  end
  end
  end)%asp
  end
  | _ => usage
  end.

End Worker.

(** ** Reading a run *)

Definition usage_log : aevent :=
  ALogError "Usage: netstatraw6 <graph path> <node id>".

Definition count_event (p : aevent -> bool) (tr : list aevent) : nat :=
  List.length (List.filter p tr).

Definition is_unmap (e : aevent) : bool :=
  match e with AUnmap => true | _ => false end.
Definition is_map (e : aevent) : bool :=
  match e with AMap _ => true | _ => false end.
Definition is_fopen (e : aevent) : bool :=
  match e with AFopen _ => true | _ => false end.
Definition is_fclose (e : aevent) : bool :=
  match e with AFclose => true | _ => false end.
Definition is_alloc_address (e : aevent) : bool :=
  match e with AAllocAddress => true | _ => false end.
(** The file address is released by [free_address], or with the variable
    that holds it. *)
Definition releases_address (e : aevent) : bool :=
  match e with AFreeAddress | AFreeVariable => true | _ => false end.

(** The lists of lines attached to the graph. *)
Definition attached (tr : list aevent)
  : list (Z * option (list (option netstat_raw6_line))) :=
  flat_map (fun e => match e with
                     | AAddRawData n l => [(n, l)]
                     | _ => []
                     end) tr.

(** ** Lines of the file *)

Definition no_delims (delims : string) (s : string) : bool :=
  forallb (fun c => negb (is_delim delims c)) (list_ascii_of_string s).
Definition only_delims (delims : string) (s : string) : bool :=
  forallb (is_delim delims) (list_ascii_of_string s).

(** A field: not empty, and without a space or a colon. *)
Definition is_field (s : string) : bool :=
  negb (String.eqb s "") && no_delims " :" s.

(** The fields of a line as the kernel prints it: the slot number (with its
    padding), the two endpoints as address and port, the state, the queues,
    the timer, the retransmit count, the padded uid and timeout, the inode,
    and the rest of the line. *)
Record raw6_fields := mk_fields {
  f_sl : string;
  f_local : string; f_lport : string;
  f_rem : string; f_rport : string;
  f_state : string;
  f_tx : string; f_rx : string;
  f_tr : string; f_when : string;
  f_retr : string;
  f_uid_pad : string; f_uid : string;
  f_timeout_pad : string; f_timeout : string;
  f_inode : string;
  f_rest : string
}.

Definition render (f : raw6_fields) : string :=
  f_sl f ++ ": " ++ f_local f ++ ":" ++ f_lport f ++ " " ++
  f_rem f ++ ":" ++ f_rport f ++ " " ++ f_state f ++ " " ++
  f_tx f ++ ":" ++ f_rx f ++ " " ++ f_tr f ++ ":" ++ f_when f ++ " " ++
  f_retr f ++ " " ++ f_uid_pad f ++ f_uid f ++ " " ++
  f_timeout_pad f ++ f_timeout f ++ " " ++ f_inode f ++ " " ++ f_rest f.

Definition well_formed (f : raw6_fields) : bool :=
  negb (String.eqb (f_sl f) "") && no_delims ":" (f_sl f) &&
  is_field (f_local f) && is_field (f_lport f) &&
  is_field (f_rem f) && is_field (f_rport f) && is_field (f_state f) &&
  is_field (f_tx f) && is_field (f_rx f) && is_field (f_tr f) &&
  is_field (f_when f) && is_field (f_retr f) &&
  only_delims " " (f_uid_pad f) && is_field (f_uid f) &&
  only_delims " " (f_timeout_pad f) && is_field (f_timeout f) &&
  is_field (f_inode f).

(** ** A concrete world *)

Definition hex_digit (c : Ascii.ascii) : option Z :=
  let n := Z.of_nat (Ascii.nat_of_ascii c) in
  if (48 <=? n) && (n <=? 57) then Some (n - 48)
  else if (65 <=? n) && (n <=? 70) then Some (n - 55)
  else if (97 <=? n) && (n <=? 102) then Some (n - 87)
  else None.

(** The value of the longest prefix of hexadecimal digits. *)
Fixpoint hex_value (acc : Z) (s : string) : Z :=
  match s with
  | EmptyString => acc
  | String c r =>
      match hex_digit c with
      | Some d => hex_value (16 * acc + d) r
      | None => acc
      end
  end.

Fixpoint dec_value (acc : Z) (s : string) : Z :=
  match s with
  | EmptyString => acc
  | String c r =>
      match hex_digit c with
      | Some d => if d <? 10 then dec_value (10 * acc + d) r else acc
      | None => acc
      end
  end.

Fixpoint hex_words (n : nat) (s : string) : list Z :=
  match n with
  | O => []
  | S n' =>
      if (String.length s <? 8)%nat then []
      else hex_value 0 (string_take 8 s) ::
           hex_words n' (String.substring 8 (String.length s - 8)%nat s)
  end.

Definition words_text (ws : list (option Z)) : string :=
  String.concat ":" (List.map (fun w => match w with
                                        | Some z => pretty z
                                        | None => "?"
                                        end) ws).

(** The knobs: which allocations succeed, whether the graph can be mapped,
    what [stat] returns, and the lines of the file. *)
Definition world (alloc : string -> bool) (map_rc : Z) (st : option stat_t)
    (file : option (list string)) : World :=
  {| alloc_ok := alloc;
     strtol16 := hex_value 0;
     atoi := dec_value 0;
     sscanf_hex := hex_words 4;
     inet_ntop := words_text;
     node_id_of_str := fun s => if String.eqb s "" then None else Some (dec_value 0 s);
     map_measurement_graph := fun _ => map_rc;
     alloc_address := alloc "file_address";
     stat := fun _ => st;
     SIZE_MAX := 18446744073709551615;
     major := fun d => d / 256;
     minor := fun d => d mod 256;
     new_measurement_variable := fun _ => alloc "var";
     fopen := fun _ => file
  |}.

Definition header : string :=
  "  sl  local_address                         remote_address                        st tx_queue rx_queue tr tm->when retrnsmt   uid  timeout inode ref pointer drops".

(** A socket bound to the unspecified address, protocol 58, and one bound
    to an address with port 0x8001. *)
Definition line_a : string :=
  "   58: 00000000000000000000000000000000:003A 00000000000000000000000000000000:0000 07 00000000:00000000 00:00000000 00000000     0        0 23456 2 0000000000000000 0".
Definition line_b : string :=
  "    1: 000080FE00000000FF005450FE123456:8001 00000000000000000000000000000000:0000 07 00000000:00000000 00:00000000 00000000  1000        0 34567 2 0000000000000000 0".

Definition fields_a : raw6_fields :=
  {| f_sl := "   58";
     f_local := "00000000000000000000000000000000"; f_lport := "003A";
     f_rem := "00000000000000000000000000000000"; f_rport := "0000";
     f_state := "07";
     f_tx := "00000000"; f_rx := "00000000";
     f_tr := "00"; f_when := "00000000";
     f_retr := "00000000";
     f_uid_pad := "    "; f_uid := "0";
     f_timeout_pad := "       "; f_timeout := "0";
     f_inode := "23456";
     f_rest := "2 0000000000000000 0" |}.

Definition the_stat : stat_t := mk_stat 5 4026532000 0.

Definition w_ok : World :=
  world (fun _ => true) 0 (Some the_stat) (Some [header; line_a; line_b]).
(** The world in which [stat] fails. *)
Definition w_no_stat : World :=
  world (fun _ => true) 0 None (Some [header; line_a; line_b]).

(** What the two lines are cut into. *)
Definition parsed_a : netstat_raw6_line :=
  {| local_addr := "[::1]:58"; rem_addr := "[::1]:0"; State := "07";
     uid := 0; inode := 23456 |}.
Definition parsed_b : netstat_raw6_line :=
  {| local_addr := "[33022:0:4278211664:4262605910]:-32767";
     rem_addr := "[::1]:0"; State := "07"; uid := 1000; inode := 34567 |}.

End Netstat.

(** * Properties *)

(** ** Running programs in proofs *)

Section Steps.
Context {G A B : Type}.
Implicit Types (s : state G) (k : A -> M G B).

Lemma bind_ret (a : A) k s : bind (ret a) k s = k a s.
Proof. reflexivity. Qed.

Lemma bind_emit e (k : unit -> M G B) s : bind (emit e) k s = k tt (record e s).
Proof. reflexivity. Qed.

Lemma bind_dlog l m (k : unit -> M G B) s :
  bind (dlog l m) k s = k tt (record (EvLog l m) s).
Proof. reflexivity. Qed.

Lemma bind_get_glob (k : globals -> M G B) s : bind get_glob k s = k (st_glob s) s.
Proof. reflexivity. Qed.

Lemma bind_put_glob gl (k : unit -> M G B) s :
  bind (put_glob gl) k s = k tt (with_glob gl s).
Proof. reflexivity. Qed.

Lemma bind_get_scen (k : scenario -> M G B) s : bind get_scen k s = k (st_scen s) s.
Proof. reflexivity. Qed.

Lemma bind_put_scen sc (k : unit -> M G B) s :
  bind (put_scen sc) k s = k tt (with_scen sc s).
Proof. reflexivity. Qed.

Lemma bind_put_graph g (k : unit -> M G B) s :
  bind (put_graph g) k s = k tt (with_graph g s).
Proof. reflexivity. Qed.

Lemma bind_exit c k s : bind (exit c) k s = (Exit c, s).
Proof. reflexivity. Qed.

Lemma bind_fault k s : bind fault k s = (Fault, s).
Proof. reflexivity. Qed.

Lemma bind_get_graph (k : G -> M G B) s g :
  st_graph s = Some g -> bind get_graph k s = k g s.
Proof. intros H. unfold bind, get_graph. by rewrite H. Qed.

Lemma bind_assoc {C} (m : M G C) (f : C -> M G A) k s :
  bind (bind m f) k s = bind m (fun x => bind (f x) k) s.
Proof. unfold bind. by destruct (m s) as [[]]. Qed.

End Steps.

Ltac prog_proj :=
  cbn [st_graph st_scen st_glob st_trace record with_glob with_scen with_graph
       apb_asps mcount g_certfile g_keyfile g_keypass g_nonce g_tpmpass g_akctx
       g_sign_tpm g_scen g_dom_z_info g_dom_t_info
       set_mcount set_apb_asps set_g_dom_z_info set_g_dom_t_info set_g_scen
       set_credentials negb orb andb is_null].
Ltac prog_proj_in H :=
  cbn [st_graph st_scen st_glob st_trace record with_glob with_scen with_graph
       apb_asps mcount g_certfile g_keyfile g_keypass g_nonce g_tpmpass g_akctx
       g_sign_tpm g_scen g_dom_z_info g_dom_t_info
       set_mcount set_apb_asps set_g_dom_z_info set_g_dom_t_info set_g_scen
       set_credentials negb orb andb is_null] in H.

(** One step of a program applied to a state. *)
Ltac prog_step :=
  first [ rewrite bind_assoc | rewrite bind_ret | rewrite bind_emit
        | rewrite bind_dlog | rewrite bind_get_glob | rewrite bind_put_glob
        | rewrite bind_get_scen | rewrite bind_put_scen | rewrite bind_put_graph
        | rewrite bind_exit | rewrite bind_fault
        | erewrite bind_get_graph by (prog_proj; eassumption || reflexivity) ].
Ltac prog_step_in H :=
  first [ rewrite bind_assoc in H | rewrite bind_ret in H | rewrite bind_emit in H
        | rewrite bind_dlog in H | rewrite bind_get_glob in H
        | rewrite bind_put_glob in H | rewrite bind_get_scen in H
        | rewrite bind_put_scen in H | rewrite bind_put_graph in H
        | rewrite bind_exit in H | rewrite bind_fault in H ].
Ltac prog_run := repeat prog_step.


Ltac head_of t :=
  lazymatch t with
  | ?f _ => head_of f
  | _ => t
  end.

(** Case split on the innermost thing the program in [H] is waiting for. *)
Ltac split_head H :=
  match type of H with
  | context [match ?x with _ => _ end] =>
      lazymatch x with
      | context [match _ with _ => _ end] => fail
      | _ => destruct x eqn:?
      end
  end.

(** Functions whose calls [run_in] leaves alone. *)
Ltac stays_folded h :=
  lazymatch h with
  | @parse_place_args => idtac
  | @evaluate_measurement_spec => idtac
  | @execute_sign_send_pipeline => idtac
  | @bind => idtac
  end.

(** Run the program on the left of [H : m s = (r, s')] one step further:
    a step of the monad, the body of a called function, or a case split. *)
Ltac run_step H :=
  first
    [ prog_step_in H
    | lazymatch type of H with
      | bind (fun _ => _) _ _ = _ => unfold bind at 1 in H
      | bind ?m _ _ = _ =>
          let h := head_of m in
          lazymatch h with
          | @get_graph => unfold bind at 1, get_graph at 1 in H
          | @deref_g_scen => unfold bind at 1, deref_g_scen at 1 in H
          | _ => tryif stays_folded h then fail else unfold h at 1 in H
          end
      | ?m _ = _ =>
          let h := head_of m in
          tryif stays_folded h then fail else unfold h at 1 in H
      end
    | split_head H ];
  prog_proj_in H.

Ltac run_in H := repeat (run_step H).

(** The same, using [rw] (rewriting in [H] with what is known of the
    collaborators) whenever it applies, and dropping the cases that
    contradict a hypothesis. *)
Ltac run_with H rw :=
  repeat (first [ progress rw; prog_proj_in H | run_step H ]; try congruence).

(** The events of a run, read off the final state of a leaf of the
    case analysis. *)
Ltac trace_delta :=
  first
    [ exists []; split; [ prog_proj; symmetry; apply app_nil_r | ]
    | eexists; split;
      [ prog_proj; rewrite <- ?app_assoc; cbn [app]; reflexivity | ] ].


(** ** The measurement dispatcher *)

Lemma worker_invocations_app tr1 tr2 :
  worker_invocations (tr1 ++ tr2) = worker_invocations tr1 ++ worker_invocations tr2.
Proof. unfold worker_invocations. apply List.filter_app. Qed.

Lemma set_mcount_same gl : set_mcount gl (mcount gl) = gl.
Proof. by destruct gl. Qed.

Section Dispatcher.
Context (E : Externals).
Local Abbreviation G := (graph E).

(** The selector changes nothing but [mcount]. *)
Lemma select_asp_shim_run g mtype var l (s : state G) :
  exists o mc,
    select_asp_shim E g mtype var l s =
      (Val o, with_glob (set_mcount (st_glob s) mc) s).
Proof.
  unfold select_asp_shim.
  destruct (is_kernel_measurement_type mtype).
  - exists (find_asp l "kernel_msmt_asp"), (mcount (st_glob s)).
    rewrite set_mcount_same. by destruct s.
  - rewrite bind_get_glob.
    destruct (select_asp E g mtype var l (mcount (st_glob s))) as [o mc].
    by exists o, mc.
Qed.

(** What [selected_asp] says about the first steps of the dispatcher. *)
Lemma selected_asp_run (s : state G) var mtype a :
  selected_asp E s var mtype = Some a ->
  exists g mc,
    st_graph s = Some g /\
    select_asp_shim E g mtype var (apb_asps (st_glob s)) s =
      (Val (Some a), with_glob (set_mcount (st_glob s) mc) s).
Proof.
  unfold selected_asp. destruct (st_graph s) as [g|] eqn:Hg; [|done].
  destruct (select_asp_shim_run g mtype var (apb_asps (st_glob s)) s) as [o [mc Hrun]].
  rewrite Hrun. simpl. intros ->. by exists g, mc.
Qed.

(** The dispatcher up to the choice of the strategy. *)
Lemma measure_variable_shim_kernel (s : state G) var mtype :
  kernel_direct E s var mtype ->
  exists a mc,
    asp_name a = "kernel_msmt_asp" /\
    measure_variable_shim E var mtype s =
      measure_kernel_direct E a var mtype (with_glob (set_mcount (st_glob s) mc) s).
Proof.
  intros [a [Hsel Hname]].
  destruct (selected_asp_run _ _ _ _ Hsel) as [g [mc [Hg Hs]]].
  exists a, mc. split; [done|].
  unfold measure_variable_shim.
  erewrite bind_get_graph by eassumption. rewrite bind_get_glob.
  unfold bind at 1. rewrite Hs.
  by rewrite Hname, String.eqb_refl.
Qed.

Lemma measure_variable_shim_remote (s : state G) var mtype :
  remote_layered E s var mtype ->
  exists a mc,
    asp_name a = "send_execute_tcp_asp" /\
    measure_variable_shim E var mtype s =
      measure_remote_layered E a var mtype (with_glob (set_mcount (st_glob s) mc) s).
Proof.
  intros [a [Hsel Hname]].
  destruct (selected_asp_run _ _ _ _ Hsel) as [g [mc [Hg Hs]]].
  exists a, mc. split; [done|].
  unfold measure_variable_shim.
  erewrite bind_get_graph by eassumption. rewrite bind_get_glob.
  unfold bind at 1. rewrite Hs.
  rewrite Hname.
  change (String.eqb "send_execute_tcp_asp" "kernel_msmt_asp") with false.
  by rewrite String.eqb_refl.
Qed.

(** Both graph strategies start by adding or finding the node. *)
Lemma add_node_run var (s : state G) g rc n g' {A} (k : Z * node_id_t -> M G A) :
  st_graph s = Some g ->
  measurement_graph_add_node E g var = (rc, n, g') ->
  bind (add_node E var) k s = k (rc, n) (with_graph (Some g') s).
Proof.
  intros Hg Hadd. unfold add_node.
  rewrite bind_assoc. erewrite bind_get_graph by eassumption.
  rewrite Hadd. by prog_run.
Qed.

(** C5: when the variable's node already holds data of the requested type,
    the dispatcher returns 0 and runs no worker, on the kernel-direct and on
    the remote-layered strategy alike; the graph is the one the add-or-find
    step returned. *)
Theorem dispatch_idempotent var mtype (s : state G) g rc n g' :
  kernel_direct E s var mtype \/ remote_layered E s var mtype ->
  st_graph s = Some g ->
  measurement_graph_add_node E g var = (rc, n, g') ->
  rc = 0 \/ rc = 1 ->
  measurement_node_has_data E g' n mtype = true ->
  exists s',
    measure_variable_shim E var mtype s = (Val 0, s') /\
    worker_invocations (st_trace s') = worker_invocations (st_trace s) /\
    st_graph s' = Some g'.
Proof.
  intros Hpath Hg Hadd Hrc Hdata.
  assert (Hrcb : (rc =? 0) || (rc =? 1) = true)
    by (destruct Hrc; subst; reflexivity).
  destruct Hpath as [Hk | Hr].
  - destruct (measure_variable_shim_kernel _ _ _ Hk) as (a & mc & _ & ->).
    unfold measure_kernel_direct.
    erewrite add_node_run by (prog_proj; eassumption).
    rewrite Hrcb. prog_run. prog_proj. rewrite Hdata.
    eexists. split; [reflexivity|]. prog_proj. split; [|done].
    rewrite worker_invocations_app. apply app_nil_r.
  - destruct (measure_variable_shim_remote _ _ _ Hr) as (a & mc & _ & ->).
    unfold measure_remote_layered.
    erewrite add_node_run by (prog_proj; eassumption).
    rewrite Hrcb. prog_run. prog_proj. rewrite Hdata.
    eexists. split; [reflexivity|]. prog_proj. split; [|done].
    rewrite worker_invocations_app. apply app_nil_r.
Qed.

(** C1: on the remote-layered strategy the scenario's contract pointer and
    size are, when the dispatcher returns, what they were when it was
    called: on every return, the early ones included, after a verification
    that succeeds and after one that fails, and whatever the verifier did to
    the scenario. *)
Theorem scenario_contract_restored var mtype (s : state G) rc s' :
  remote_layered E s var mtype ->
  measure_variable_shim E var mtype s = (Val rc, s') ->
  contract (st_scen s') = contract (st_scen s) /\
  size (st_scen s') = size (st_scen s).
Proof.
  intros Hr Hrun.
  destruct (measure_variable_shim_remote _ _ _ Hr) as (a & mc & _ & Heq).
  rewrite Heq in Hrun. clear Heq.
  unfold measure_remote_layered in Hrun.
  run_in Hrun; by inversion Hrun.
Qed.

(** The resolver on a node whose address is a request address: the typed
    descriptor comes back and nothing else happens. *)
Lemma resolver_request_address (s : state G) g n va :
  st_graph s = Some g ->
  measurement_node_get_address E g n = Some (request_address va) ->
  get_measurement_request_addr_from_node E n s = (Val (0, Some va), s).
Proof.
  intros Hg Ha. unfold get_measurement_request_addr_from_node.
  erewrite bind_get_graph by eassumption. by rewrite Ha.
Qed.


(** C6: a remote-layered dispatch whose request address names an attester
    other than ["@_0"] and ["@_t"] returns -1 after the place lookup has
    refused the name, and the channel client is not called. *)
Theorem unknown_attester_fails var mtype (s : state G) g rc n g' va :
  remote_layered E s var mtype ->
  st_graph s = Some g ->
  measurement_graph_add_node E g var = (rc, n, g') ->
  rc = 0 \/ rc = 1 ->
  measurement_node_has_data E g' n mtype = false ->
  measurement_node_get_address E g' n = Some (request_address va) ->
  attester va <> "@_0" ->
  attester va <> "@_t" ->
  exists s',
    measure_variable_shim E var mtype s = (Val (-1), s') /\
    st_trace s' = st_trace s ++
      [ EvLog 6 "Added node";
        EvLog 4 "Get target channel information for place : %s";
        EvLog 1 "Unhandled attester: %s specified in measurement contract";
        EvLog 2 "Unable to retrieve place information for the address space" ] /\
    List.filter is_channel_client_call (st_trace s') =
      List.filter is_channel_client_call (st_trace s).
Proof.
  intros Hr Hg Hadd Hrc Hdata Haddr Hz Ht.
  assert (Hrcb : (rc =? 0) || (rc =? 1) = true)
    by (destruct Hrc; subst; reflexivity).
  destruct (measure_variable_shim_remote _ _ _ Hr) as (a & mc & _ & ->).
  unfold measure_remote_layered.
  erewrite add_node_run by (prog_proj; eassumption).
  rewrite Hrcb. prog_run. prog_proj. rewrite Hdata.
  unfold bind at 1.
  erewrite resolver_request_address by (prog_proj; eauto).
  change (0 <? 0) with false. cbv iota.
  unfold get_target_channel_info.
  apply String.eqb_neq in Hz, Ht.
  prog_run. rewrite Hz, Ht. prog_run.
  eexists. split; [reflexivity|]. prog_proj.
  rewrite <- !app_assoc. split; [done|].
  rewrite List.filter_app. apply app_nil_r.
Qed.


End Dispatcher.

(** ** The sign-send pipeline *)

Lemma find_asp_name l name a : find_asp l name = Some a -> asp_name a = name.
Proof.
  unfold find_asp. intros H. apply List.find_some in H as [_ H].
  by apply String.eqb_eq.
Qed.

Ltac name_asps H :=
  repeat match goal with
         | Hf : find_asp _ _ = Some _ |- _ =>
             apply find_asp_name in Hf; rewrite ?Hf in H
         end.

Section Pipeline.
Context (E : Externals).
Local Abbreviation G := (graph E).

(** What the signing stage hands to its worker: the nine slots it stores,
    then the slot the encryption branch stored. *)
Lemma sign_stage_args (w : string) (c kf kp tp ak st : option string)
    (a0 : gmap nat (option string)) :
  array_read
    (<[8%nat := Some "1"]> (<[7%nat := Some "1"]> (<[6%nat := st]> (<[5%nat := ak]>
     (<[4%nat := tp]> (<[3%nat := kp]> (<[2%nat := kf]> (<[1%nat := c]>
     (<[0%nat := Some w]> a0))))))))) 10 =
  [Some w; c; kf; kp; tp; ak; st; Some "1"; Some "1"; default None (a0 !! 9%nat)].
Proof.
  unfold array_read. cbn [List.map seq].
  repeat (rewrite lookup_insert_eq || (rewrite lookup_insert_ne by lia)).
  reflexivity.
Qed.

Lemma flag_slot (v : option string) :
  default None ((<[9%nat := v]> (∅ : gmap nat (option string))) !! 9%nat) = v.
Proof. by rewrite lookup_insert_eq. Qed.

Lemma single_slot (v : option string) :
  array_read (<[0%nat := v]> ∅) 1 = [v].
Proof. unfold array_read. cbn [List.map seq]. by rewrite lookup_insert_eq. Qed.

(** Every run of the pipeline that spawns the signing stage has stored the
    ninth and tenth argument past the eight declared elements and passes ten
    arguments. *)
Lemma signing_stage_overflows peerchan (s : state G) r s' :
  execute_sign_send_pipeline E peerchan s = (r, s') ->
  exists tr,
    st_trace s' = st_trace s ++ tr /\
    (signing_argcs tr = [] \/
     signing_argcs tr = [10] /\
     out_of_bounds_stores tr =
       [ EvStore "create_con_args" create_con_args_len 9;
         EvStore "create_con_args" create_con_args_len 8 ]).
Proof.
  intros H. unfold execute_sign_send_pipeline in H.
  run_in H.
  all: name_asps H.
  all: rewrite ?sign_stage_args, ?flag_slot, ?single_slot in H.
  all: inversion H; subst r s'; clear H.
  all: trace_delta.
  all: vm_compute; auto.
Qed.

End Pipeline.

Section PipelineBranch.
Context (E : Externals).
Local Abbreviation G := (graph E).

Lemma child_of_spawn_true rc :
  rc <= 0 -> rc <> -1 -> rc <> -2 -> child_of_spawn rc = true.
Proof.
  intros. unfold child_of_spawn.
  assert ((rc =? -2) = false) as -> by lia.
  assert ((rc =? -1) = false) as -> by lia.
  assert ((rc >? 0) = false) as -> by lia. reflexivity.
Qed.

(** The pipeline from the encryption branch on, for a run that gets there:
    the serialize spawn returned 0 and the compress spawn left this process
    as the child. *)
Lemma pipeline_at_branch peerchan (s : state G) w ser comp enc cc snd g p
    fd1 cst fd2 r s' :
  workdir (st_scen s) = Some w ->
  alloc_ok E "workdir" = true ->
  find_asp (apb_asps (st_glob s)) "serialize_graph_asp" = Some ser ->
  find_asp (apb_asps (st_glob s)) "compress_asp" = Some comp ->
  find_asp (apb_asps (st_glob s)) "encrypt_asp" = Some enc ->
  find_asp (apb_asps (st_glob s)) "create_measurement_contract_asp" = Some cc ->
  find_asp (apb_asps (st_glob s)) "send_asp" = Some snd ->
  st_graph s = Some g ->
  measurement_graph_get_path E g = Some p ->
  fork_and_buffer_async_asp E ser [Some p] STDIN_FILENO = (0, fd1) ->
  fork_and_buffer_async_asp E comp [] fd1 = (cst, fd2) ->
  child_of_spawn cst = true ->
  execute_sign_send_pipeline E peerchan s = (r, s') ->
  exists tr,
    st_trace s' = st_trace s ++ tr /\
    match partner_cert_copy E (st_scen s) with
    | None =>
        forall sst fd3,
          fork_and_buffer_async_asp E cc (sign_argv (st_glob s) w "0") fd2 =
            (sst, fd3) ->
          worker_invocations tr =
            [ EvForkAsp "serialize_graph_asp" 1 [Some p] STDIN_FILENO;
              EvForkAsp "compress_asp" 0 [] fd1;
              EvForkAsp "create_measurement_contract_asp" 10
                (sign_argv (st_glob s) w "0") fd2 ] ++
            (if child_of_spawn sst
             then [EvRunAsp "send_asp" fd3 peerchan 0 []] else []) /\
          r = Exit (if child_of_spawn sst
                    then send_exit (fst (run_asp E snd fd3 peerchan [] (Some g)))
                    else parent_exit sst)
    | Some pc =>
        forall est fde,
          fork_and_buffer_async_asp E enc [Some pc] fd2 = (est, fde) ->
          if child_of_spawn est then
            forall sst fd3,
              fork_and_buffer_async_asp E cc (sign_argv (st_glob s) w "1") fde =
                (sst, fd3) ->
              worker_invocations tr =
                [ EvForkAsp "serialize_graph_asp" 1 [Some p] STDIN_FILENO;
                  EvForkAsp "compress_asp" 0 [] fd1;
                  EvForkAsp "encrypt_asp" 1 [Some pc] fd2;
                  EvForkAsp "create_measurement_contract_asp" 10
                    (sign_argv (st_glob s) w "1") fde ] ++
                (if child_of_spawn sst
                 then [EvRunAsp "send_asp" fd3 peerchan 0 []] else []) /\
              r = Exit (if child_of_spawn sst
                        then send_exit (fst (run_asp E snd fd3 peerchan [] (Some g)))
                        else parent_exit sst)
          else
            worker_invocations tr =
              [ EvForkAsp "serialize_graph_asp" 1 [Some p] STDIN_FILENO;
                EvForkAsp "compress_asp" 0 [] fd1;
                EvForkAsp "encrypt_asp" 1 [Some pc] fd2 ] /\
            r = Exit (parent_exit est)
    end.
Proof.
  intros Hw Ha Hser Hcomp Henc Hcc Hsnd Hg Hp Hf1 Hf2 Hchild H.
  pose proof (find_asp_name _ _ _ Hser) as Nser.
  pose proof (find_asp_name _ _ _ Hcomp) as Ncomp.
  pose proof (find_asp_name _ _ _ Henc) as Nenc.
  pose proof (find_asp_name _ _ _ Hcc) as Ncc.
  pose proof (find_asp_name _ _ _ Hsnd) as Nsnd.
  unfold child_of_spawn in Hchild.
  apply andb_true_iff in Hchild as [Hchild Hc3].
  apply andb_true_iff in Hchild as [Hc1 Hc2].
  apply negb_true_iff in Hc1, Hc2, Hc3.
  unfold execute_sign_send_pipeline in H.
  unfold sign_argv in *.
  destruct (partner_cert_copy E (st_scen s)) as [pc|] eqn:Hpc.
  all: run_with H ltac:(unfold strdup in H;
                   rewrite ?sign_stage_args, ?flag_slot, ?single_slot in H;
                   rewrite ?Hw, ?Ha, ?Hser, ?Hcomp, ?Henc, ?Hcc, ?Hsnd, ?Hg, ?Hp,
                     ?Hf1, ?Hf2, ?Hpc, ?Hc1, ?Hc2, ?Hc3 in H;
                   change (0 =? -2) with false in H;
                   change (0 =? -1) with false in H;
                   change (0 >? 0) with false in H;
                   rewrite ?Z.eqb_refl in H).
  all: inversion H; subst r s'; clear H.
  all: trace_delta.
  all: rewrite ?Nser, ?Ncomp, ?Nenc, ?Ncc, ?Nsnd.
  all: try (intros est fde Heq; inversion Heq; subst; clear Heq).
  all: unfold child_of_spawn, parent_exit, send_exit.
  all: repeat match goal with
              | Hb : (_ =? _) = _ |- _ => rewrite Hb
              | Hb : (_ >? _) = _ |- _ => rewrite Hb
              | Hb : (_ <? _) = _ |- _ => rewrite Hb
              end.
  all: cbn [negb andb orb].
  all: try (intros sst fd3 Heq;
            match type of Heq with
            | ?l = _ =>
                match goal with
                | Hf : l = _ |- _ =>
                    tryif constr_eq Hf Heq then fail else rewrite Hf in Heq
                end
            end;
            inversion Heq; subst; clear Heq).
  all: repeat match goal with
              | Hb : (_ =? _) = _ |- _ => rewrite Hb
              | Hb : (_ >? _) = _ |- _ => rewrite Hb
              | Hb : (_ <? _) = _ |- _ => rewrite Hb
              end.
  all: cbn [negb andb orb].
  all: try match goal with
           | Hr : run_asp _ _ _ _ _ _ = _ |- _ => rewrite Hr
           end.
  all: cbn [fst].
  all: repeat match goal with
              | Hb : (_ <? _) = _ |- _ => rewrite Hb
              end.
  all: try (split; reflexivity).
Qed.

Lemma signing_flags_workers tr :
  signing_flags tr = signing_flags (worker_invocations tr).
Proof.
  unfold signing_flags, worker_invocations.
  induction tr as [|e tr IH]; [done|].
  destruct e; cbn [flat_map List.filter is_worker_invocation app]; try exact IH.
  by rewrite IH.
Qed.

Lemma spawn_args_workers name tr :
  spawn_args name tr = spawn_args name (worker_invocations tr).
Proof.
  unfold spawn_args, worker_invocations.
  induction tr as [|e tr IH]; [done|].
  destruct e; cbn [flat_map List.filter is_worker_invocation app]; try exact IH.
  by rewrite IH.
Qed.

(** Every run of the pipeline: which branch can have left its mark. *)
Lemma encryption_branch_every_run peerchan (s : state G) r s' :
  execute_sign_send_pipeline E peerchan s = (r, s') ->
  exists tr,
    st_trace s' = st_trace s ++ tr /\
    match partner_cert_copy E (st_scen s) with
    | None =>
        spawn_args "encrypt_asp" tr = [] /\
        (signing_flags tr = [] \/ signing_flags tr = [Some "0"])
    | Some pc =>
        (spawn_args "encrypt_asp" tr = [] \/
         spawn_args "encrypt_asp" tr = [[Some pc]]) /\
        (signing_flags tr = [] \/ signing_flags tr = [Some "1"]) /\
        (signing_flags tr = [Some "1"] ->
         spawn_args "encrypt_asp" tr = [[Some pc]])
    end.
Proof.
  intros H. unfold execute_sign_send_pipeline in H.
  run_in H.
  all: name_asps H.
  all: rewrite ?sign_stage_args, ?flag_slot, ?single_slot in H.
  all: inversion H; subst r s'; clear H.
  all: trace_delta.
  all: destruct (partner_cert_copy E (st_scen s)); try discriminate.
  all: vm_compute.
  all: intuition (try discriminate; auto).
Qed.

(** C4, as the code has it: the branch is chosen by the copy of the partner
    certificate path.  When there is none (the certificate is unset, or its
    copy failed) no run spawns the encryption stage, and a signing stage
    that is spawned gets the flag ["0"]; when there is one, a signing stage
    that is spawned gets the flag ["1"], and only after the encryption
    stage was spawned on that path.  A run gets to the branch when the
    serialize spawn returned 0 and the compress spawn left this process as
    the child: without a copy it then spawns the signing stage with the
    flag ["0"]; with a copy it spawns the encryption stage on that path,
    and the signing stage with the flag ["1"] when the encryption spawn
    left this process as the child, and no signing stage otherwise. *)
Theorem encryption_flag_follows_branch peerchan (s : state G) r s' :
  execute_sign_send_pipeline E peerchan s = (r, s') ->
  exists tr,
    st_trace s' = st_trace s ++ tr /\
    match partner_cert_copy E (st_scen s) with
    | None =>
        spawn_args "encrypt_asp" tr = [] /\
        (signing_flags tr = [] \/ signing_flags tr = [Some "0"])
    | Some pc =>
        (spawn_args "encrypt_asp" tr = [] \/
         spawn_args "encrypt_asp" tr = [[Some pc]]) /\
        (signing_flags tr = [] \/ signing_flags tr = [Some "1"]) /\
        (signing_flags tr = [Some "1"] ->
         spawn_args "encrypt_asp" tr = [[Some pc]])
    end /\
    (forall w ser comp enc cc snd g p fd1 cst fd2,
        workdir (st_scen s) = Some w ->
        alloc_ok E "workdir" = true ->
        find_asp (apb_asps (st_glob s)) "serialize_graph_asp" = Some ser ->
        find_asp (apb_asps (st_glob s)) "compress_asp" = Some comp ->
        find_asp (apb_asps (st_glob s)) "encrypt_asp" = Some enc ->
        find_asp (apb_asps (st_glob s)) "create_measurement_contract_asp" =
          Some cc ->
        find_asp (apb_asps (st_glob s)) "send_asp" = Some snd ->
        st_graph s = Some g ->
        measurement_graph_get_path E g = Some p ->
        fork_and_buffer_async_asp E ser [Some p] STDIN_FILENO = (0, fd1) ->
        fork_and_buffer_async_asp E comp [] fd1 = (cst, fd2) ->
        child_of_spawn cst = true ->
        match partner_cert_copy E (st_scen s) with
        | None =>
            spawn_args "create_measurement_contract_asp" tr =
              [sign_argv (st_glob s) w "0"] /\
            signing_flags tr = [Some "0"]
        | Some pc =>
            spawn_args "encrypt_asp" tr = [[Some pc]] /\
            In (EvForkAsp "encrypt_asp" 1 [Some pc] fd2) tr /\
            forall est fde,
              fork_and_buffer_async_asp E enc [Some pc] fd2 = (est, fde) ->
              if child_of_spawn est then
                spawn_args "create_measurement_contract_asp" tr =
                  [sign_argv (st_glob s) w "1"] /\
                signing_flags tr = [Some "1"] /\
                In (EvForkAsp "create_measurement_contract_asp" 10
                      (sign_argv (st_glob s) w "1") fde) tr
              else signing_flags tr = []
        end).
Proof.
  intros H.
  destruct (encryption_branch_every_run _ _ _ _ H) as (tr & Htr & HA).
  exists tr. split; [exact Htr|]. split; [exact HA|].
  intros w ser comp enc cc snd g p fd1 cst fd2
    Hw Ha Hser Hcomp Henc Hcc Hsnd Hg Hp Hf1 Hf2 Hchild.
  destruct (pipeline_at_branch _ _ _ _ _ _ _ _ _ _ _ _ _ _ _
              Hw Ha Hser Hcomp Henc Hcc Hsnd Hg Hp Hf1 Hf2 Hchild H)
    as (tr' & Htr' & HB).
  assert (tr' = tr) as ->
    by (rewrite Htr in Htr'; by apply app_inv_head in Htr').
  clear HA.
  destruct (partner_cert_copy E (st_scen s)) as [pc|].
  - destruct (fork_and_buffer_async_asp E enc [Some pc] fd2) as [est0 fde0] eqn:Hfe.
    pose proof (HB est0 fde0 eq_refl) as HB0.
    assert (Hinv : exists l,
               worker_invocations tr =
                 [ EvForkAsp "serialize_graph_asp" 1 [Some p] STDIN_FILENO;
                   EvForkAsp "compress_asp" 0 [] fd1;
                   EvForkAsp "encrypt_asp" 1 [Some pc] fd2 ] ++ l /\
               spawn_args "encrypt_asp" l = []).
    { destruct (child_of_spawn est0).
      - destruct (fork_and_buffer_async_asp E cc (sign_argv (st_glob s) w "1") fde0)
          as [sst fd3] eqn:Hfs.
        destruct (HB0 sst fd3 eq_refl) as [Hwk _]. rewrite Hwk.
        eexists. split; [reflexivity|]. by destruct (child_of_spawn sst).
      - destruct HB0 as [Hwk _]. rewrite Hwk. by exists []. }
    destruct Hinv as (l & Hwk & Hl).
    split; [|split].
    + rewrite spawn_args_workers, Hwk. unfold spawn_args in *.
      rewrite flat_map_app, Hl. reflexivity.
    + assert (Hin : In (EvForkAsp "encrypt_asp" 1 [Some pc] fd2)
                      (worker_invocations tr))
        by (rewrite Hwk; cbn; auto).
      unfold worker_invocations in Hin. by apply List.filter_In in Hin as [Hin _].
    + intros est fde Heq. inversion Heq; subst est0 fde0; clear Heq.
      destruct (child_of_spawn est).
      * destruct (fork_and_buffer_async_asp E cc (sign_argv (st_glob s) w "1") fde)
          as [sst fd3] eqn:Hfs.
        destruct (HB0 sst fd3 eq_refl) as [Hwk' _].
        rewrite spawn_args_workers, signing_flags_workers, Hwk'.
        split; [by destruct (child_of_spawn sst)|].
        split; [by destruct (child_of_spawn sst)|].
        assert (Hin : In (EvForkAsp "create_measurement_contract_asp" 10
                            (sign_argv (st_glob s) w "1") fde)
                        (worker_invocations tr))
          by (rewrite Hwk'; cbn; auto 10).
        unfold worker_invocations in Hin.
        by apply List.filter_In in Hin as [Hin _].
      * destruct HB0 as [Hwk' _].
        by rewrite signing_flags_workers, Hwk'.
  - destruct (fork_and_buffer_async_asp E cc (sign_argv (st_glob s) w "0") fd2)
      as [sst fd3] eqn:Hfs.
    destruct (HB sst fd3 eq_refl) as [Hwk _].
    rewrite spawn_args_workers, signing_flags_workers, Hwk.
    by destruct (child_of_spawn sst).
Qed.

(** C3, as the code has it: the copy of the working directory is the string
    copy whose failure ends the pipeline, with -1 and before any worker is
    resolved or spawned.  A partner certificate that is unset, or whose copy
    fails, ends nothing: a run that gets to the encryption branch (the
    serialize spawn returned 0, the compress spawn left this process as the
    child) spawns the signing stage on the output of the compress stage,
    with the flag ["0"] and without an encryption stage, and ends as the
    signing spawn and the send worker decide. *)
Theorem pipeline_string_copies peerchan (s : state G) :
  (forall w,
      workdir (st_scen s) = Some w ->
      alloc_ok E "workdir" = false ->
      execute_sign_send_pipeline E peerchan s =
        (Val (-1), record (EvLog 0 "Error: failed to copy workdir") s)) /\
  (forall w ser comp enc cc snd g p fd1 cst fd2 sst fd3,
      partner_cert (st_scen s) = None \/ alloc_ok E "partner_cert" = false ->
      workdir (st_scen s) = Some w ->
      alloc_ok E "workdir" = true ->
      find_asp (apb_asps (st_glob s)) "serialize_graph_asp" = Some ser ->
      find_asp (apb_asps (st_glob s)) "compress_asp" = Some comp ->
      find_asp (apb_asps (st_glob s)) "encrypt_asp" = Some enc ->
      find_asp (apb_asps (st_glob s)) "create_measurement_contract_asp" =
        Some cc ->
      find_asp (apb_asps (st_glob s)) "send_asp" = Some snd ->
      st_graph s = Some g ->
      measurement_graph_get_path E g = Some p ->
      fork_and_buffer_async_asp E ser [Some p] STDIN_FILENO = (0, fd1) ->
      fork_and_buffer_async_asp E comp [] fd1 = (cst, fd2) ->
      child_of_spawn cst = true ->
      fork_and_buffer_async_asp E cc (sign_argv (st_glob s) w "0") fd2 =
        (sst, fd3) ->
      exists s',
        execute_sign_send_pipeline E peerchan s =
          (Exit (if child_of_spawn sst
                 then send_exit (fst (run_asp E snd fd3 peerchan [] (Some g)))
                 else parent_exit sst), s') /\
        worker_invocations (st_trace s') =
          worker_invocations (st_trace s) ++
          [ EvForkAsp "serialize_graph_asp" 1 [Some p] STDIN_FILENO;
            EvForkAsp "compress_asp" 0 [] fd1;
            EvForkAsp "create_measurement_contract_asp" 10
              (sign_argv (st_glob s) w "0") fd2 ] ++
          (if child_of_spawn sst
           then [EvRunAsp "send_asp" fd3 peerchan 0 []] else [])).
Proof.
  split.
  - intros w Hw Ha. unfold execute_sign_send_pipeline.
    rewrite bind_get_scen, Hw. unfold strdup. rewrite Ha. by prog_run.
  - intros w ser comp enc cc snd g p fd1 cst fd2 sst fd3
      Hc Hw Ha Hser Hcomp Henc Hcc Hsnd Hg Hp Hf1 Hf2 Hchild Hf3.
    assert (Hpc : partner_cert_copy E (st_scen s) = None).
    { unfold partner_cert_copy, strdup.
      destruct Hc as [-> | ->]; [done|]. by destruct (partner_cert (st_scen s)). }
    destruct (execute_sign_send_pipeline E peerchan s) as [r s'] eqn:H.
    destruct (pipeline_at_branch _ _ _ _ _ _ _ _ _ _ _ _ _ _ _
                Hw Ha Hser Hcomp Henc Hcc Hsnd Hg Hp Hf1 Hf2 Hchild H)
      as (tr & Htr & HB).
    rewrite Hpc in HB. destruct (HB sst fd3 Hf3) as [Hwk ->].
    eexists. split; [reflexivity|].
    by rewrite Htr, worker_invocations_app, Hwk.
Qed.

End PipelineBranch.

(** ** The orchestrator entry point *)

Ltac quiet :=
  let Hin := fresh "Hin" in
  intros Hin; cbn [In app] in Hin; unfold measuring_log in *;
  repeat match goal with
         | Hd : _ \/ _ |- _ => destruct Hd
         | He : @eq event _ _ |- _ => discriminate He
         | Hf : False |- _ => destruct Hf
         | Ha : In _ (_ ++ _) |- _ => apply in_app_or in Ha
         | Ha : In _ (_ :: _) |- _ => cbn [In] in Ha
         | Ha : In _ [] |- _ => destruct Ha
         end;
  auto.

Section EntryPoint.
Context (E : Externals).
Local Abbreviation G := (graph E).

(** The loop on an argument whose key names neither place: one log line,
    and on to the next argument. *)
Lemma parse_place_args_unknown kv rest ret_val (s : state G) :
  key kv <> "@_0" -> key kv <> "@_t" ->
  parse_place_args E (kv :: rest) ret_val s =
    parse_place_args E rest ret_val
      (record (EvLog 2 "Received unknown argument with key %s") s).
Proof.
  intros Hz Ht. apply String.eqb_neq in Hz, Ht.
  cbn [parse_place_args]. rewrite Hz, Ht. by prog_run.
Qed.

(** The loop never writes the line that opens the Measuring stage. *)
Lemma parse_place_args_quiet arg_list :
  forall ret_val (s : state G) r s',
    parse_place_args E arg_list ret_val s = (r, s') ->
    exists tr, st_trace s' = st_trace s ++ tr /\ ~ In measuring_log tr.
Proof.
  induction arg_list as [|kv rest IH]; intros rv s r s' H.
  - inversion H. exists []. split; [symmetry; apply app_nil_r | by intros []].
  - cbn [parse_place_args] in H.
    run_in H.
    all: first
      [ apply IH in H as (tr & Htr & Hq); prog_proj_in Htr;
        rewrite Htr, <- ?app_assoc; cbn [app]; eexists; split; [reflexivity|]
      | inversion H; subst r s'; clear H; trace_delta ].
    all: quiet.
Qed.

(** The cleanup from [str_alloc_err] on returns the value it is given. *)
Lemma str_alloc_err_returns ret_val (s : state G) :
  fst (str_alloc_err E ret_val s) = Val ret_val.
Proof. reflexivity. Qed.

(** C8, as the code has it: a call with a number of arguments other than two
    returns -1 at once, so a third argument fails the run whatever its key;
    within the loop, an argument whose key names neither place costs one log
    line and is skipped. *)
Theorem unknown_argument_handling apb meas_spec_uuid peerchan (s : state G) :
  (forall arg_list,
      List.length arg_list <> 2%nat ->
      apb_execute E apb meas_spec_uuid peerchan arg_list s =
        (Val (-1),
         record (EvLog 1 "USAGE: APB_NAME <@_0> <@_T>")
           (record (EvLog 4 "Hello from the LAYERED_ATTESTATION_APB") s))) /\
  (forall kv rest ret_val,
      key kv <> "@_0" -> key kv <> "@_t" ->
      parse_place_args E (kv :: rest) ret_val s =
        parse_place_args E rest ret_val
          (record (EvLog 2 "Received unknown argument with key %s") s)).
Proof.
  split.
  - intros l Hl. unfold apb_execute. prog_run.
    destruct (Z.of_nat (List.length l) =? 2) eqn:Hc; [lia|].
    cbn [negb]. by prog_run.
  - intros. by apply parse_place_args_unknown.
Qed.

(** C9, as the code has it: with the place slots empty, as they are at
    process start, two arguments with the same place key lead to one place
    lookup, that of the first value; the second argument is logged and
    skipped, and the place slot holds the resolution of the first value.
    The entry point takes two arguments only, so the other place is
    missing: the run ends at the completeness check, which releases the
    place slots and returns the status of the lookup.  No worker is invoked
    and the channel client is not called: the resolution is never used. *)
Theorem duplicate_place_argument apb meas_spec_uuid peerchan v1 v2
    (s : state G) rc info :
  0 <= register_types E ->
  g_dom_z_info (st_glob s) = None ->
  g_dom_t_info (st_glob s) = None ->
  get_place_information E (st_scen s) v1 = (rc, Some info) ->
  0 <= rc ->
  (exists s',
      apb_execute E apb meas_spec_uuid peerchan
        [mk_kv "@_0" v1; mk_kv "@_0" v2] s = (Val rc, s') /\
      g_dom_z_info (st_glob s') = Some info /\
      g_dom_t_info (st_glob s') = None /\
      st_graph s' = st_graph s /\
      st_trace s' = st_trace s ++
        [ EvLog 4 "Hello from the LAYERED_ATTESTATION_APB";
          EvPlaceLookup v1;
          EvLog 2 "Multiple copies of @_0 arg, ignoring second";
          EvLog 1 "APB not given complete set of place information";
          EvFree "g_dom_z_info"; EvFree "g_dom_t_info" ] /\
      worker_invocations (st_trace s') = worker_invocations (st_trace s) /\
      List.filter is_channel_client_call (st_trace s') =
        List.filter is_channel_client_call (st_trace s)) /\
  (exists s',
      apb_execute E apb meas_spec_uuid peerchan
        [mk_kv "@_t" v1; mk_kv "@_t" v2] s = (Val rc, s') /\
      g_dom_t_info (st_glob s') = Some info /\
      g_dom_z_info (st_glob s') = None /\
      st_graph s' = st_graph s /\
      st_trace s' = st_trace s ++
        [ EvLog 4 "Hello from the LAYERED_ATTESTATION_APB";
          EvPlaceLookup v1;
          EvLog 2 "Multiple copies of @_t arg, ignoring second";
          EvLog 1 "APB not given complete set of place information";
          EvFree "g_dom_z_info"; EvFree "g_dom_t_info" ] /\
      worker_invocations (st_trace s') = worker_invocations (st_trace s) /\
      List.filter is_channel_client_call (st_trace s') =
        List.filter is_channel_client_call (st_trace s)).
Proof.
  intros Hreg Hz Ht Hplace Hrc.
  assert (Hregb : (register_types E <? 0) = false) by lia.
  assert (Hrcb : (rc <? 0) = false) by lia.
  split.
  - destruct (apb_execute E apb meas_spec_uuid peerchan
                [mk_kv "@_0" v1; mk_kv "@_0" v2] s) as [r s'] eqn:H.
    unfold apb_execute in H.
    change (negb (Z.of_nat (List.length [mk_kv "@_0" v1; mk_kv "@_0" v2]) =? 2))
      with false in H.
    cbn [parse_place_args key value] in H.
    run_with H ltac:(rewrite ?Hplace, ?Hregb, ?Hrcb, ?Hz, ?Ht, ?String.eqb_refl in H).
    inversion H; subst r s'; clear H.
    eexists. split; [reflexivity|]. prog_proj. split; [done|].
    split; [done|]. split; [done|].
    rewrite <- !app_assoc. split; [done|].
    split; [ rewrite worker_invocations_app | rewrite List.filter_app ];
      apply app_nil_r.
  - destruct (apb_execute E apb meas_spec_uuid peerchan
                [mk_kv "@_t" v1; mk_kv "@_t" v2] s) as [r s'] eqn:H.
    unfold apb_execute in H.
    change (negb (Z.of_nat (List.length [mk_kv "@_t" v1; mk_kv "@_t" v2]) =? 2))
      with false in H.
    cbn [parse_place_args key value] in H.
    change (String.eqb "@_t" "@_0") with false in H.
    run_with H ltac:(rewrite ?Hplace, ?Hregb, ?Hrcb, ?Hz, ?Ht, ?String.eqb_refl in H).
    inversion H; subst r s'; clear H.
    eexists. split; [reflexivity|]. prog_proj. split; [done|].
    split; [done|]. split; [done|].
    rewrite <- !app_assoc. split; [done|].
    split; [ rewrite worker_invocations_app | rewrite List.filter_app ];
      apply app_nil_r.
Qed.

(** C10: a run of the entry point that gets to the Measuring stage hands
    the dispatcher to the evaluation engine and, whatever status the engine
    returns, goes on to the sign-send pipeline; the value the pipeline
    returns is the value the entry point returns, after the cleanup.  (When
    the engine or the pipeline ends the process instead of returning, that
    is how the run ends.) *)
Theorem evaluation_status_ignored apb meas_spec_uuid peerchan arg_list
    (s : state G) r s' :
  ~ In measuring_log (st_trace s) ->
  apb_execute E apb meas_spec_uuid peerchan arg_list s = (r, s') ->
  In measuring_log (st_trace s') ->
  exists mspec s_m,
    last (st_trace s_m) = Some measuring_log /\
    match evaluate_measurement_spec E mspec (measure_variable_shim E) s_m with
    | (Val _, s_e) =>
        match execute_sign_send_pipeline E peerchan
                (record (EvLog 4 "Entering execute_measurement_and_asp_pipeline") s_e)
        with
        | (Val ret_val, s_p) =>
            r = Val ret_val /\ s' = snd (str_alloc_err E ret_val s_p)
        | (Exit c, s_p) => r = Exit c /\ s' = s_p
        | (Fault, s_p) => r = Fault /\ s' = s_p
        end
    | (Exit c, s_e) => r = Exit c /\ s' = s_e
    | (Fault, s_e) => r = Fault /\ s' = s_e
    end.
Proof.
  intros Hq H Hin. unfold apb_execute in H.
  run_in H.
  all: try (inversion H; subst r s'; clear H; prog_proj_in Hin;
            exfalso; revert Hin; quiet; fail).
  all: unfold bind at 1 in H.
  all: destruct (parse_place_args E arg_list (register_types E) _)
         as [[[rv fin]|c|] s2] eqn:Hp;
       apply parse_place_args_quiet in Hp as (tr & Htr & Hq');
       prog_proj_in Htr.
  all: run_in H.
  all: try (inversion H; subst r s'; clear H; prog_proj_in Hin;
            rewrite Htr in Hin; exfalso; revert Hin; quiet; fail).
  all: match type of H with
       | bind (evaluate_measurement_spec _ ?m _) _ ?sm = _ => exists m, sm
       end.
  all: split; [ prog_proj; apply last_snoc | ].
  all: unfold bind at 1 in H.
  all: destruct (evaluate_measurement_spec E _ _ _) as [[rc|c|] s_e];
         [ | by inversion H | by inversion H ].
  all: rewrite bind_dlog in H; unfold bind at 1 in H.
  all: destruct (execute_sign_send_pipeline E _ _) as [[ret_val|c|] s_p];
         [ | by inversion H | by inversion H ].
  all: pose proof (str_alloc_err_returns ret_val s_p) as Hr.
  all: rewrite H in *; cbn [fst snd] in *; by inversion Hr.
Qed.

End EntryPoint.

(** ** The theorems on concrete runs *)

(** C1 on a run whose verification fails after the verifier has overwritten
    the scenario's contract fields. *)
Lemma scenario_contract_restored_witness :
  remote_layered W_verify_fails (Mock.measuring None [])
    (Mock.remote_var "@_t") (user_measurement_type 7) /\
  fst (measure_variable_shim W_verify_fails (Mock.remote_var "@_t")
         (user_measurement_type 7) (Mock.measuring None [])) = Val (-1) /\
  contract (st_scen (snd (measure_variable_shim W_verify_fails
     (Mock.remote_var "@_t") (user_measurement_type 7)
     (Mock.measuring None [])))) = 1000 /\
  size (st_scen (snd (measure_variable_shim W_verify_fails
     (Mock.remote_var "@_t") (user_measurement_type 7)
     (Mock.measuring None [])))) = 64.
Proof.
  assert (Hr : remote_layered W_verify_fails (Mock.measuring None [])
                 (Mock.remote_var "@_t") (user_measurement_type 7)).
  { exists (mk_asp "send_execute_tcp_asp"). split; vm_compute; reflexivity. }
  split; [exact Hr|]. split; [vm_compute; reflexivity|].
  apply (scenario_contract_restored W_verify_fails (Mock.remote_var "@_t")
           (user_measurement_type 7) (Mock.measuring None []) (-1) _ Hr).
  vm_compute. reflexivity.
Defined.

(** C2 at a run that reaches the signing stage: the stores of the
    encryption flag (index 9) and of the serialize/compress flag (index 8)
    fall outside the eight declared elements of [create_con_args], and the
    worker is handed ten arguments. *)
Lemma create_con_args_overflow :
  out_of_bounds_stores
    (st_trace (snd (execute_sign_send_pipeline W_ok 5 (Mock.measuring None [])))) =
    [ EvStore "create_con_args" 8 9; EvStore "create_con_args" 8 8 ] /\
  signing_argcs
    (st_trace (snd (execute_sign_send_pipeline W_ok 5 (Mock.measuring None [])))) =
    [10] /\
  Z.of_nat create_con_args_len < 10.
Proof. vm_compute. auto. Qed.

(** C3 fails as stated: with the copy of the certificate path succeeding
    and the copy of the working directory failing the pipeline returns -1
    without a single worker; with the copy of the certificate path failing
    the pipeline runs to the send stage and ends with its status. *)
Lemma certificate_copy_not_the_fatal_one :
  (alloc_ok W_no_workdir_copy "partner_cert" = true /\
   fst (execute_sign_send_pipeline W_no_workdir_copy 5
          (Mock.measuring (Some "partner.pem") [])) = Val (-1) /\
   worker_invocations
     (st_trace (snd (execute_sign_send_pipeline W_no_workdir_copy 5
                       (Mock.measuring (Some "partner.pem") [])))) = []) /\
  (alloc_ok W_no_cert_copy "partner_cert" = false /\
   fst (execute_sign_send_pipeline W_no_cert_copy 5
          (Mock.measuring (Some "partner.pem") [])) = Exit 0 /\
   List.map (fun e => match e with
                      | EvRunAsp n _ _ _ _ | EvForkAsp n _ _ _ => n
                      | _ => ""
                      end)
     (worker_invocations
        (st_trace (snd (execute_sign_send_pipeline W_no_cert_copy 5
                          (Mock.measuring (Some "partner.pem") []))))) =
     [ "serialize_graph_asp"; "compress_asp";
       "create_measurement_contract_asp"; "send_asp" ]).
Proof. vm_compute. auto 10. Qed.

(** C3 on two runs: the world in which no copy succeeds, and the world in
    which only the certificate copy fails, with a certificate set. *)
Lemma pipeline_string_copies_witness :
  execute_sign_send_pipeline (Mock.world (Mock.always false) 0 0 Mock.child [])
      5 (Mock.measuring (Some "partner.pem") []) =
    (Val (-1),
     record (EvLog 0 "Error: failed to copy workdir")
       (Mock.measuring (Some "partner.pem") [])) /\
  exists s',
    execute_sign_send_pipeline W_no_cert_copy 5
        (Mock.measuring (Some "partner.pem") []) = (Exit 0, s') /\
    worker_invocations (st_trace s') =
      [ EvForkAsp "serialize_graph_asp" 1 [Some "/tmp/graph"] STDIN_FILENO;
        EvForkAsp "compress_asp" 0 [] 1;
        EvForkAsp "create_measurement_contract_asp" 10
          (sign_argv Mock.measuring_globals "/tmp/work" "0") 2;
        EvRunAsp "send_asp" 3 5 0 [] ].
Proof.
  split.
  - apply (proj1 (pipeline_string_copies
                    (Mock.world (Mock.always false) 0 0 Mock.child []) 5
                    (Mock.measuring (Some "partner.pem") []))
             "/tmp/work"); reflexivity.
  - apply (proj2 (pipeline_string_copies W_no_cert_copy 5
                    (Mock.measuring (Some "partner.pem") []))
             "/tmp/work"
             (mk_asp "serialize_graph_asp") (mk_asp "compress_asp")
             (mk_asp "encrypt_asp") (mk_asp "create_measurement_contract_asp")
             (mk_asp "send_asp") [] "/tmp/graph" 1 0 2 0 3);
      first [ reflexivity | right; reflexivity ].
Defined.

(** C4 fails as stated: the partner certificate is set, its copy fails, and
    the run spawns no encryption stage and signs with the flag ["0"]. *)
Lemma certificate_set_but_not_encrypted :
  partner_cert (st_scen (Mock.measuring (Some "partner.pem") [])) =
    Some "partner.pem" /\
  spawn_args "encrypt_asp"
    (st_trace (snd (execute_sign_send_pipeline W_no_cert_copy 5
                      (Mock.measuring (Some "partner.pem") [])))) = [] /\
  signing_flags
    (st_trace (snd (execute_sign_send_pipeline W_no_cert_copy 5
                      (Mock.measuring (Some "partner.pem") [])))) = [Some "0"].
Proof. vm_compute. auto. Qed.

(** C4 on the end-to-end scenario with a certificate: the run gets to the
    branch, spawns the encryption stage on the certificate path and the
    signing stage, on the output of the encryption stage, with the flag
    ["1"]. *)
Lemma encryption_flag_follows_branch_witness :
  exists tr,
    st_trace (snd (execute_sign_send_pipeline W_ok 5
                     (Mock.measuring (Some "partner.pem") []))) =
      st_trace (Mock.measuring (Some "partner.pem") []) ++ tr /\
    spawn_args "encrypt_asp" tr = [[Some "partner.pem"]] /\
    In (EvForkAsp "encrypt_asp" 1 [Some "partner.pem"] 2) tr /\
    spawn_args "create_measurement_contract_asp" tr =
      [sign_argv Mock.measuring_globals "/tmp/work" "1"] /\
    signing_flags tr = [Some "1"] /\
    In (EvForkAsp "create_measurement_contract_asp" 10
          (sign_argv Mock.measuring_globals "/tmp/work" "1") 3) tr.
Proof.
  destruct (encryption_flag_follows_branch W_ok 5
              (Mock.measuring (Some "partner.pem") []) _ _ eq_refl)
    as (tr & Htr & _ & Hbranch).
  exists tr. split; [exact Htr|].
  specialize (Hbranch "/tmp/work"
                (mk_asp "serialize_graph_asp") (mk_asp "compress_asp")
                (mk_asp "encrypt_asp") (mk_asp "create_measurement_contract_asp")
                (mk_asp "send_asp") [] "/tmp/graph" 1 0 2
                eq_refl eq_refl eq_refl eq_refl eq_refl eq_refl eq_refl
                eq_refl eq_refl eq_refl eq_refl eq_refl).
  change (partner_cert_copy W_ok
            (st_scen (Mock.measuring (Some "partner.pem") [])))
    with (Some "partner.pem") in Hbranch.
  destruct Hbranch as (Henc & Hin & Hsign).
  specialize (Hsign 0 3 eq_refl).
  change (child_of_spawn 0) with true in Hsign. cbv iota in Hsign.
  destruct Hsign as (Hargs & Hflag & Hin').
  repeat split; assumption.
Defined.

(** C5 on the kernel-direct strategy: the node of the kernel variable holds
    kernel data already. *)
Lemma dispatch_idempotent_witness :
  kernel_direct W_ok
    (Mock.measuring None [Mock.mk_node Mock.kernel_var [kernel_measurement_type]])
    Mock.kernel_var kernel_measurement_type /\
  exists s',
    measure_variable_shim W_ok Mock.kernel_var kernel_measurement_type
      (Mock.measuring None [Mock.mk_node Mock.kernel_var [kernel_measurement_type]])
      = (Val 0, s') /\
    worker_invocations (st_trace s') = [] /\
    st_graph s' = Some [Mock.mk_node Mock.kernel_var [kernel_measurement_type]].
Proof.
  assert (Hk : kernel_direct W_ok
    (Mock.measuring None [Mock.mk_node Mock.kernel_var [kernel_measurement_type]])
    Mock.kernel_var kernel_measurement_type).
  { exists (mk_asp "kernel_msmt_asp"). split; vm_compute; reflexivity. }
  split; [exact Hk|].
  apply (dispatch_idempotent W_ok Mock.kernel_var kernel_measurement_type
           (Mock.measuring None [Mock.mk_node Mock.kernel_var [kernel_measurement_type]])
           [Mock.mk_node Mock.kernel_var [kernel_measurement_type]] 1 0
           [Mock.mk_node Mock.kernel_var [kernel_measurement_type]]).
  - left. exact Hk.
  - reflexivity.
  - reflexivity.
  - right. reflexivity.
  - vm_compute. reflexivity.
Defined.

(** C6 on a request addressed to a place that is not configured. *)
Lemma unknown_attester_fails_witness :
  exists s',
    measure_variable_shim W_ok (Mock.remote_var "@_x") (user_measurement_type 7)
      (Mock.measuring None []) = (Val (-1), s') /\
    st_trace s' =
      [ EvLog 6 "Added node";
        EvLog 4 "Get target channel information for place : %s";
        EvLog 1 "Unhandled attester: %s specified in measurement contract";
        EvLog 2 "Unable to retrieve place information for the address space" ] /\
    List.filter is_channel_client_call (st_trace s') = [].
Proof.
  apply (unknown_attester_fails W_ok (Mock.remote_var "@_x")
           (user_measurement_type 7) (Mock.measuring None []) [] 0 0
           [Mock.mk_node (Mock.remote_var "@_x") []]
           (mk_dmra "@_x" "app-list")).
  - exists (mk_asp "send_execute_tcp_asp"). split; vm_compute; reflexivity.
  - reflexivity.
  - reflexivity.
  - left. reflexivity.
  - reflexivity.
  - reflexivity.
  - discriminate.
  - discriminate.
Defined.



(** C8 fails as stated: the two place arguments alone give a run that ends
    with the status of the send stage; with a third argument after them the
    run returns -1 before any place is looked up. *)
Lemma third_argument_fails_the_run :
  fst (apb_execute W_ok Mock.the_apb "spec" 5 two_places (Mock.start None)) =
    Exit 0 /\
  fst (apb_execute W_ok Mock.the_apb "spec" 5
         (two_places ++ [mk_kv "@_x" "elsewhere"]) (Mock.start None)) = Val (-1) /\
  st_trace (snd (apb_execute W_ok Mock.the_apb "spec" 5
         (two_places ++ [mk_kv "@_x" "elsewhere"]) (Mock.start None))) =
    [ EvLog 4 "Hello from the LAYERED_ATTESTATION_APB";
      EvLog 1 "USAGE: APB_NAME <@_0> <@_T>" ].
Proof. vm_compute. auto. Qed.

(** The amended C8: three arguments, and an argument of unknown key inside
    the loop. *)
Lemma unknown_argument_handling_witness :
  apb_execute W_ok Mock.the_apb "spec" 5
    (two_places ++ [mk_kv "@_x" "elsewhere"]) (Mock.start None) =
    (Val (-1),
     record (EvLog 1 "USAGE: APB_NAME <@_0> <@_T>")
       (record (EvLog 4 "Hello from the LAYERED_ATTESTATION_APB")
          (Mock.start None))) /\
  parse_place_args W_ok [mk_kv "@_x" "elsewhere"; mk_kv "@_t" "target"] 0
    (Mock.start None) =
  parse_place_args W_ok [mk_kv "@_t" "target"] 0
    (record (EvLog 2 "Received unknown argument with key %s") (Mock.start None)).
Proof.
  split.
  - apply (proj1 (unknown_argument_handling W_ok Mock.the_apb "spec" 5
                    (Mock.start None))).
    simpl. lia.
  - apply (proj2 (unknown_argument_handling W_ok Mock.the_apb "spec" 5
                    (Mock.start None))
             (mk_kv "@_x" "elsewhere") [mk_kv "@_t" "target"] 0);
      discriminate.
Defined.

(** C9 fails as stated: in a world whose engine measures a variable at the
    place of ["@_0"], the run on the two place arguments calls the channel
    client at the resolution of ["@_0"]; the run on ["@_0"] given twice
    returns 0 from the completeness check, and neither the Measuring stage
    nor the channel client is reached. *)
Lemma duplicate_key_resolution_unused :
  List.filter is_channel_client_call
    (st_trace (snd (apb_execute W_measures_dom0 Mock.the_apb "spec" 5
                      two_places (Mock.start None)))) =
    [EvRunAspBuffers "send_execute_tcp_asp" 10
       (send_execute_argv Mock.measuring_globals
          (mk_place "127.0.0.1" "9000") "app-list")] /\
  fst (apb_execute W_measures_dom0 Mock.the_apb "spec" 5
         [mk_kv "@_0" "dom0"; mk_kv "@_0" "dom0-alt"] (Mock.start None)) =
    Val 0 /\
  st_trace (snd (apb_execute W_measures_dom0 Mock.the_apb "spec" 5
                   [mk_kv "@_0" "dom0"; mk_kv "@_0" "dom0-alt"]
                   (Mock.start None))) =
    [ EvLog 4 "Hello from the LAYERED_ATTESTATION_APB";
      EvPlaceLookup "dom0";
      EvLog 2 "Multiple copies of @_0 arg, ignoring second";
      EvLog 1 "APB not given complete set of place information";
      EvFree "g_dom_z_info"; EvFree "g_dom_t_info" ].
Proof. vm_compute. repeat split. Qed.

(** The amended C9 in that world: ["@_0"] given twice, with different
    values. *)
Lemma duplicate_place_argument_witness :
  exists s',
    apb_execute W_measures_dom0 Mock.the_apb "spec" 5
      [mk_kv "@_0" "dom0"; mk_kv "@_0" "dom0-alt"] (Mock.start None) =
      (Val 0, s') /\
    g_dom_z_info (st_glob s') = Some (mk_place "127.0.0.1" "9000") /\
    g_dom_t_info (st_glob s') = None /\
    st_graph s' = None /\
    st_trace s' =
      [ EvLog 4 "Hello from the LAYERED_ATTESTATION_APB";
        EvPlaceLookup "dom0";
        EvLog 2 "Multiple copies of @_0 arg, ignoring second";
        EvLog 1 "APB not given complete set of place information";
        EvFree "g_dom_z_info"; EvFree "g_dom_t_info" ] /\
    worker_invocations (st_trace s') = [] /\
    List.filter is_channel_client_call (st_trace s') = [].
Proof.
  refine (proj1 (duplicate_place_argument W_measures_dom0 Mock.the_apb "spec" 5
                   "dom0" "dom0-alt" (Mock.start None) 0
                   (mk_place "127.0.0.1" "9000") _ _ _ _ _)).
  - simpl. lia.
  - reflexivity.
  - reflexivity.
  - reflexivity.
  - lia.
Defined.

(** C10 on a run whose evaluation engine returns -1: the run goes on to the
    pipeline. *)
Lemma evaluation_status_ignored_witness :
  exists mspec s_m,
    last (st_trace s_m) = Some measuring_log /\
    match evaluate_measurement_spec W_engine_fails mspec
            (measure_variable_shim W_engine_fails) s_m with
    | (Val _, s_e) =>
        match execute_sign_send_pipeline W_engine_fails 5
                (record (EvLog 4 "Entering execute_measurement_and_asp_pipeline") s_e)
        with
        | (Val ret_val, s_p) =>
            fst (apb_execute W_engine_fails Mock.the_apb "spec" 5 two_places
                   (Mock.start None)) = Val ret_val /\
            snd (apb_execute W_engine_fails Mock.the_apb "spec" 5 two_places
                   (Mock.start None)) = snd (str_alloc_err W_engine_fails ret_val s_p)
        | (Exit c, s_p) =>
            fst (apb_execute W_engine_fails Mock.the_apb "spec" 5 two_places
                   (Mock.start None)) = Exit c /\
            snd (apb_execute W_engine_fails Mock.the_apb "spec" 5 two_places
                   (Mock.start None)) = s_p
        | (Fault, s_p) =>
            fst (apb_execute W_engine_fails Mock.the_apb "spec" 5 two_places
                   (Mock.start None)) = Fault /\
            snd (apb_execute W_engine_fails Mock.the_apb "spec" 5 two_places
                   (Mock.start None)) = s_p
        end
    | (Exit c, s_e) =>
        fst (apb_execute W_engine_fails Mock.the_apb "spec" 5 two_places
               (Mock.start None)) = Exit c /\
        snd (apb_execute W_engine_fails Mock.the_apb "spec" 5 two_places
               (Mock.start None)) = s_e
    | (Fault, s_e) =>
        fst (apb_execute W_engine_fails Mock.the_apb "spec" 5 two_places
               (Mock.start None)) = Fault /\
        snd (apb_execute W_engine_fails Mock.the_apb "spec" 5 two_places
               (Mock.start None)) = s_e
    end.
Proof.
  apply (evaluation_status_ignored W_engine_fails Mock.the_apb "spec" 5
           two_places (Mock.start None)).
  - intros [].
  - apply surjective_pairing.
  - vm_compute. do 3 right. left. reflexivity.
Defined.

(** * Further properties *)

(** ** More on the measurement dispatcher *)

Section DispatcherMore.
Context (E : Externals).
Local Abbreviation G := (graph E).

Lemma measure_variable_shim_none (s : state G) var mtype :
  is_Some (st_graph s) ->
  selected_asp E s var mtype = None ->
  exists mc,
    measure_variable_shim E var mtype s =
      (Val (- ENOENT),
       record (EvLog 0 "Failed to find satisfactory ASP")
         (with_glob (set_mcount (st_glob s) mc) s)).
Proof.
  intros [g Hg] Hsel. unfold selected_asp in Hsel. rewrite Hg in Hsel.
  destruct (select_asp_shim_run E g mtype var (apb_asps (st_glob s)) s)
    as [o [mc Hrun]].
  rewrite Hrun in Hsel. cbn [fst] in Hsel. subst o.
  exists mc. unfold measure_variable_shim.
  erewrite bind_get_graph by eassumption. rewrite bind_get_glob.
  unfold bind at 1. rewrite Hrun. by prog_run.
Qed.

(** X1: when the selector returns no worker the dispatcher returns -ENOENT;
    it logs one line and leaves the graph and the scenario as they were. *)
Theorem no_capable_asp var mtype (s : state G) :
  is_Some (st_graph s) ->
  selected_asp E s var mtype = None ->
  exists s',
    measure_variable_shim E var mtype s = (Val (- ENOENT), s') /\
    st_graph s' = st_graph s /\
    st_scen s' = st_scen s /\
    st_trace s' = st_trace s ++ [EvLog 0 "Failed to find satisfactory ASP"].
Proof.
  intros Hg Hsel.
  destruct (measure_variable_shim_none s var mtype Hg Hsel) as [mc ->].
  eexists. split; [reflexivity|]. by prog_proj.
Qed.

Lemma measure_variable_shim_kernel_at (s : state G) var mtype a :
  selected_asp E s var mtype = Some a ->
  asp_name a = "kernel_msmt_asp" ->
  exists mc,
    measure_variable_shim E var mtype s =
      measure_kernel_direct E a var mtype (with_glob (set_mcount (st_glob s) mc) s).
Proof.
  intros Hsel Hname.
  destruct (selected_asp_run E _ _ _ _ Hsel) as [g [mc [Hg Hs]]].
  exists mc. unfold measure_variable_shim.
  erewrite bind_get_graph by eassumption. rewrite bind_get_glob.
  unfold bind at 1. rewrite Hs.
  by rewrite Hname, String.eqb_refl.
Qed.

Lemma measure_variable_shim_remote_at (s : state G) var mtype a :
  selected_asp E s var mtype = Some a ->
  asp_name a = "send_execute_tcp_asp" ->
  exists mc,
    measure_variable_shim E var mtype s =
      measure_remote_layered E a var mtype (with_glob (set_mcount (st_glob s) mc) s).
Proof.
  intros Hsel Hname.
  destruct (selected_asp_run E _ _ _ _ Hsel) as [g [mc [Hg Hs]]].
  exists mc. unfold measure_variable_shim.
  erewrite bind_get_graph by eassumption. rewrite bind_get_glob.
  unfold bind at 1. rewrite Hs. rewrite Hname.
  change (String.eqb "send_execute_tcp_asp" "kernel_msmt_asp") with false.
  by rewrite String.eqb_refl.
Qed.

(** X2: on the kernel-direct strategy a node without data of the requested
    type is measured by one blocking run of the kernel worker, with no pipes
    (-1, -1) and the two arguments graph path and node id; the status of
    that run is the dispatcher's status, unchanged. *)
Theorem kernel_direct_runs_worker var mtype (s : state G) a g rc n g' status og :
  selected_asp E s var mtype = Some a ->
  asp_name a = "kernel_msmt_asp" ->
  st_graph s = Some g ->
  measurement_graph_add_node E g var = (rc, n, g') ->
  rc = 0 \/ rc = 1 ->
  measurement_node_has_data E g' n mtype = false ->
  run_asp E a (-1) (-1)
    [measurement_graph_get_path E g'; Some (str_of_node_id E n)] (Some g') =
    (status, og) ->
  exists s',
    measure_variable_shim E var mtype s = (Val status, s') /\
    st_graph s' = og /\
    worker_invocations (st_trace s') =
      worker_invocations (st_trace s) ++
      [EvRunAsp "kernel_msmt_asp" (-1) (-1) 2
         [measurement_graph_get_path E g'; Some (str_of_node_id E n)]].
Proof.
  intros Hsel Hname Hg Hadd Hrc Hdata Hrun.
  assert (Hrcb : (rc =? 0) || (rc =? 1) = true)
    by (destruct Hrc; subst; reflexivity).
  destruct (measure_variable_shim_kernel_at _ _ _ _ Hsel Hname) as [mc ->].
  unfold measure_kernel_direct.
  erewrite add_node_run by (prog_proj; eassumption).
  rewrite Hrcb. prog_run. prog_proj. rewrite Hdata.
  unfold do_run_asp. prog_run. unfold bind at 1. prog_proj.
  rewrite Hrun. prog_run.
  eexists. split; [reflexivity|]. prog_proj. split; [done|].
  rewrite !worker_invocations_app. cbn. rewrite Hname.
  by rewrite !app_nil_r.
Qed.

(** X3: on both graph strategies a status of the node add-or-find step
    other than 0 and 1 ends the dispatch with -1 after one log line, before
    any worker runs; the scenario is untouched. *)
Theorem add_node_failure var mtype (s : state G) g rc n g' :
  kernel_direct E s var mtype \/ remote_layered E s var mtype ->
  st_graph s = Some g ->
  measurement_graph_add_node E g var = (rc, n, g') ->
  rc <> 0 -> rc <> 1 ->
  exists s',
    measure_variable_shim E var mtype s = (Val (-1), s') /\
    st_trace s' = st_trace s ++ [EvLog 1 "Error adding node"] /\
    st_scen s' = st_scen s.
Proof.
  intros Hpath Hg Hadd H0 H1.
  assert (Hrcb : (rc =? 0) || (rc =? 1) = false).
  { apply orb_false_iff. split; by apply Z.eqb_neq. }
  destruct Hpath as [Hk | Hr].
  - destruct (measure_variable_shim_kernel _ _ _ _ Hk) as (a & mc & _ & ->).
    unfold measure_kernel_direct.
    erewrite add_node_run by (prog_proj; eassumption).
    rewrite Hrcb. prog_run. eexists. split; [reflexivity|]. by prog_proj.
  - destruct (measure_variable_shim_remote _ _ _ _ Hr) as (a & mc & _ & ->).
    unfold measure_remote_layered.
    erewrite add_node_run by (prog_proj; eassumption).
    rewrite Hrcb. prog_run. eexists. split; [reflexivity|]. by prog_proj.
Qed.

(** X4: the remote-layered strategy end to end.  With the place of the
    request's attester configured, the channel client returning 0 with a
    buffer and the verifier accepting it, the dispatcher runs the execute
    worker once with the ten arguments place address, place port, resource
    and the seven staged credentials, hands the verifier exactly the buffer
    and length the worker returned, attaches the marshalled blob to the
    node and returns the status of that last step; the scenario's contract
    fields are the caller's again. *)
Theorem remote_layered_measures var mtype (s : state G) a g rc n g' va info
    buf len vrc blob sc' md arc g'' :
  selected_asp E s var mtype = Some a ->
  asp_name a = "send_execute_tcp_asp" ->
  st_graph s = Some g ->
  measurement_graph_add_node E g var = (rc, n, g') ->
  rc = 0 \/ rc = 1 ->
  measurement_node_has_data E g' n mtype = false ->
  measurement_node_get_address E g' n = Some (request_address va) ->
  place_of (st_glob s) (attester va) = Some info ->
  g_scen (st_glob s) = true ->
  alloc_ok E "blob_data" = true ->
  run_asp_buffers E a (send_execute_argv (st_glob s) info (resource va)) TIMEOUT =
    (0, buf, len) ->
  process_contract E (apb_asps (st_glob s)) (set_contract (st_scen s) buf len) =
    (vrc, blob, sc') ->
  0 <= vrc ->
  marshall_measurement_data E blob = Some md ->
  measurement_node_add_data E g' n md = (arc, g'') ->
  exists s',
    measure_variable_shim E var mtype s = (Val arc, s') /\
    st_graph s' = Some g'' /\
    st_scen s' = set_contract sc' (contract (st_scen s)) (size (st_scen s)) /\
    worker_invocations (st_trace s') =
      worker_invocations (st_trace s) ++
      [EvRunAspBuffers "send_execute_tcp_asp" 10
         (send_execute_argv (st_glob s) info (resource va))] /\
    List.filter (fun e => match e with EvProcessContract _ _ => true | _ => false end)
      (st_trace s') =
    List.filter (fun e => match e with EvProcessContract _ _ => true | _ => false end)
      (st_trace s) ++ [EvProcessContract buf len].
Proof.
  intros Hsel Hname Hg Hadd Hrc Hdata Haddr Hplace Hscen Hblob Hcli Hver Hvrc
    Hmd Hadddata.
  assert (Hrcb : (rc =? 0) || (rc =? 1) = true)
    by (destruct Hrc; subst; reflexivity).
  assert (Hvrcb : (vrc <? 0) = false) by lia.
  destruct (measure_variable_shim_remote_at _ _ _ _ Hsel Hname) as [mc ->].
  destruct (measure_remote_layered E a var mtype _) as [r s'] eqn:H.
  unfold measure_remote_layered in H.
  unfold send_execute_argv in *.
  unfold place_of in Hplace.
  destruct (String.eqb (attester va) "@_0") eqn:Hz;
    [|destruct (String.eqb (attester va) "@_t") eqn:Ht; [|discriminate]].
  all: run_with H ltac:(cbn [container_of space] in H;
                        rewrite ?Hg, ?Hadd, ?Hrcb, ?Hdata, ?Haddr, ?Hz, ?Ht, ?Hplace,
                          ?Hscen, ?Hblob, ?Hcli, ?Hver, ?Hvrcb, ?Hmd, ?Hadddata,
                          ?Z.ltb_irrefl, ?Z.eqb_refl in H).
  all: inversion H; subst r s'; clear H.
  all: eexists; split; [reflexivity|]; prog_proj; cbn [contract size set_contract].
  all: rewrite <- ?app_assoc; cbn [app].
  all: rewrite ?worker_invocations_app, ?List.filter_app, Hname; cbn.
  all: by rewrite ?app_nil_r.
Qed.

(** X5: a negative status of the channel client ends the remote-layered
    dispatch with -1: the verifier is not called, the scenario is not
    touched, and the graph is the one the add-or-find step left. *)
Theorem channel_failure var mtype (s : state G) a g rc n g' va info crc buf len :
  selected_asp E s var mtype = Some a ->
  asp_name a = "send_execute_tcp_asp" ->
  st_graph s = Some g ->
  measurement_graph_add_node E g var = (rc, n, g') ->
  rc = 0 \/ rc = 1 ->
  measurement_node_has_data E g' n mtype = false ->
  measurement_node_get_address E g' n = Some (request_address va) ->
  place_of (st_glob s) (attester va) = Some info ->
  run_asp_buffers E a (send_execute_argv (st_glob s) info (resource va)) TIMEOUT =
    (crc, buf, len) ->
  crc < 0 ->
  exists s',
    measure_variable_shim E var mtype s = (Val (-1), s') /\
    st_graph s' = Some g' /\
    st_scen s' = st_scen s /\
    st_trace s' = st_trace s ++
      [ EvLog 6 "Added node";
        EvLog 4 "Get target channel information for place : %s";
        EvLog 4 "Invoking %s for attester %s";
        EvRunAspBuffers "send_execute_tcp_asp" 10
          (send_execute_argv (st_glob s) info (resource va));
        EvLog 0 "Failed to invoke %s for attester %s";
        EvFree "contract" ].
Proof.
  intros Hsel Hname Hg Hadd Hrc Hdata Haddr Hplace Hcli Hcrc.
  assert (Hrcb : (rc =? 0) || (rc =? 1) = true)
    by (destruct Hrc; subst; reflexivity).
  assert (Hcrcb : (crc <? 0) = true) by lia.
  assert (Hcrc0 : (crc =? 0) = false) by lia.
  destruct (measure_variable_shim_remote_at _ _ _ _ Hsel Hname) as [mc ->].
  destruct (measure_remote_layered E a var mtype _) as [r s'] eqn:H.
  unfold measure_remote_layered in H.
  unfold send_execute_argv in *.
  unfold place_of in Hplace.
  destruct (String.eqb (attester va) "@_0") eqn:Hz;
    [|destruct (String.eqb (attester va) "@_t") eqn:Ht; [|discriminate]].
  all: run_with H ltac:(cbn [container_of space] in H;
                        rewrite ?Hg, ?Hadd, ?Hrcb, ?Hdata, ?Haddr, ?Hz, ?Ht, ?Hplace,
                          ?Hcli, ?Hcrcb, ?Hcrc0, ?Z.ltb_irrefl, ?Z.eqb_refl in H).
  all: inversion H; subst r s'; clear H.
  all: eexists; split; [reflexivity|]; prog_proj.
  all: rewrite <- ?app_assoc; cbn [app]; by rewrite Hname.
Qed.

(** X6: only a negative status of the channel client is an error.  A
    positive one leaves the contract buffer unset, and the dispatcher goes
    on to call the verifier once, on the null buffer with length 0. *)
Theorem positive_client_status_is_verified var mtype (s : state G) a g rc n g' va
    info crc buf len r s' :
  selected_asp E s var mtype = Some a ->
  asp_name a = "send_execute_tcp_asp" ->
  st_graph s = Some g ->
  measurement_graph_add_node E g var = (rc, n, g') ->
  rc = 0 \/ rc = 1 ->
  measurement_node_has_data E g' n mtype = false ->
  measurement_node_get_address E g' n = Some (request_address va) ->
  place_of (st_glob s) (attester va) = Some info ->
  g_scen (st_glob s) = true ->
  alloc_ok E "blob_data" = true ->
  run_asp_buffers E a (send_execute_argv (st_glob s) info (resource va)) TIMEOUT =
    (crc, buf, len) ->
  0 < crc ->
  measure_variable_shim E var mtype s = (r, s') ->
  exists tr,
    st_trace s' = st_trace s ++ tr /\
    List.filter (fun e => match e with EvProcessContract _ _ => true | _ => false end)
      tr = [EvProcessContract NULL 0].
Proof.
  intros Hsel Hname Hg Hadd Hrc Hdata Haddr Hplace Hscen Hblob Hcli Hcrc H.
  assert (Hrcb : (rc =? 0) || (rc =? 1) = true)
    by (destruct Hrc; subst; reflexivity).
  assert (Hcrcb : (crc <? 0) = false) by lia.
  assert (Hcrc0 : (crc =? 0) = false) by lia.
  destruct (measure_variable_shim_remote_at _ _ _ _ Hsel Hname) as [mc Heq].
  rewrite Heq in H. clear Heq.
  unfold measure_remote_layered in H.
  unfold send_execute_argv in *.
  unfold place_of in Hplace.
  destruct (String.eqb (attester va) "@_0") eqn:Hz;
    [|destruct (String.eqb (attester va) "@_t") eqn:Ht; [|discriminate]].
  all: run_with H ltac:(cbn [container_of space] in H;
                        rewrite ?Hg, ?Hadd, ?Hrcb, ?Hdata, ?Haddr, ?Hz, ?Ht, ?Hplace,
                          ?Hscen, ?Hblob, ?Hcli, ?Hcrcb, ?Hcrc0, ?Z.ltb_irrefl,
                          ?Z.eqb_refl in H).
  all: inversion H; subst r s'; clear H.
  all: trace_delta; reflexivity.
Qed.

(** X7: when the verifier rejects the contract the dispatcher returns -1
    without marshalling or attaching anything: the graph is the one the
    add-or-find step left, and the scenario's contract fields are the
    caller's again whatever the verifier wrote. *)
Theorem verification_failure var mtype (s : state G) a g rc n g' va info
    buf len vrc blob sc' :
  selected_asp E s var mtype = Some a ->
  asp_name a = "send_execute_tcp_asp" ->
  st_graph s = Some g ->
  measurement_graph_add_node E g var = (rc, n, g') ->
  rc = 0 \/ rc = 1 ->
  measurement_node_has_data E g' n mtype = false ->
  measurement_node_get_address E g' n = Some (request_address va) ->
  place_of (st_glob s) (attester va) = Some info ->
  g_scen (st_glob s) = true ->
  alloc_ok E "blob_data" = true ->
  run_asp_buffers E a (send_execute_argv (st_glob s) info (resource va)) TIMEOUT =
    (0, buf, len) ->
  process_contract E (apb_asps (st_glob s)) (set_contract (st_scen s) buf len) =
    (vrc, blob, sc') ->
  vrc < 0 ->
  exists s',
    measure_variable_shim E var mtype s = (Val (-1), s') /\
    st_graph s' = Some g' /\
    st_scen s' = set_contract sc' (contract (st_scen s)) (size (st_scen s)) /\
    st_trace s' = st_trace s ++
      [ EvLog 6 "Added node";
        EvLog 4 "Get target channel information for place : %s";
        EvLog 4 "Invoking %s for attester %s";
        EvRunAspBuffers "send_execute_tcp_asp" 10
          (send_execute_argv (st_glob s) info (resource va));
        EvProcessContract buf len;
        EvFree "contract";
        EvLog 1 "Error processing contract from attester %s";
        EvFree "blob->buffer" ].
Proof.
  intros Hsel Hname Hg Hadd Hrc Hdata Haddr Hplace Hscen Hblob Hcli Hver Hvrc.
  assert (Hrcb : (rc =? 0) || (rc =? 1) = true)
    by (destruct Hrc; subst; reflexivity).
  assert (Hvrcb : (vrc <? 0) = true) by lia.
  destruct (measure_variable_shim_remote_at _ _ _ _ Hsel Hname) as [mc ->].
  destruct (measure_remote_layered E a var mtype _) as [r s'] eqn:H.
  unfold measure_remote_layered in H.
  unfold send_execute_argv in *.
  unfold place_of in Hplace.
  destruct (String.eqb (attester va) "@_0") eqn:Hz;
    [|destruct (String.eqb (attester va) "@_t") eqn:Ht; [|discriminate]].
  all: run_with H ltac:(cbn [container_of space] in H;
                        rewrite ?Hg, ?Hadd, ?Hrcb, ?Hdata, ?Haddr, ?Hz, ?Ht, ?Hplace,
                          ?Hscen, ?Hblob, ?Hcli, ?Hver, ?Hvrcb,
                          ?Z.ltb_irrefl, ?Z.eqb_refl in H).
  all: inversion H; subst r s'; clear H.
  all: eexists; split; [reflexivity|]; prog_proj; cbn [contract size set_contract].
  all: rewrite <- ?app_assoc; cbn [app]; by rewrite Hname.
Qed.

(** X8: a node for which the graph has no address ends the remote-layered
    dispatch with -1: the resolver logs the failure and releases nothing,
    the place lookup and the channel client are not reached, and the
    scenario is untouched. *)
Theorem missing_address var mtype (s : state G) a g rc n g' :
  selected_asp E s var mtype = Some a ->
  asp_name a = "send_execute_tcp_asp" ->
  st_graph s = Some g ->
  measurement_graph_add_node E g var = (rc, n, g') ->
  rc = 0 \/ rc = 1 ->
  measurement_node_has_data E g' n mtype = false ->
  measurement_node_get_address E g' n = None ->
  exists s',
    measure_variable_shim E var mtype s = (Val (-1), s') /\
    st_graph s' = Some g' /\
    st_scen s' = st_scen s /\
    st_trace s' = st_trace s ++
      [ EvLog 6 "Added node";
        EvLog 1 "Failed to get measurement request details: %s";
        EvLog 1 "Unable to get measurement address from the address space" ].
Proof.
  intros Hsel Hname Hg Hadd Hrc Hdata Haddr.
  assert (Hrcb : (rc =? 0) || (rc =? 1) = true)
    by (destruct Hrc; subst; reflexivity).
  destruct (measure_variable_shim_remote_at _ _ _ _ Hsel Hname) as [mc ->].
  destruct (measure_remote_layered E a var mtype _) as [r s'] eqn:H.
  unfold measure_remote_layered, get_measurement_request_addr_from_node in H.
  run_with H ltac:(rewrite ?Hg, ?Hadd, ?Hrcb, ?Hdata, ?Haddr in H).
  all: try (exfalso; cbv in Heqb; discriminate Heqb).
  all: inversion H; subst r s'; clear H.
  all: eexists; split; [reflexivity|]; prog_proj.
  all: by rewrite <- ?app_assoc.
Qed.

(** X9: the place lookup does not test the place it finds.  When the
    request names ["@_0"] or ["@_t"] and that place is not configured, the
    dispatcher reads the address and port through a null pointer; no worker
    has run by then. *)
Theorem unconfigured_place var mtype (s : state G) a g rc n g' va :
  selected_asp E s var mtype = Some a ->
  asp_name a = "send_execute_tcp_asp" ->
  st_graph s = Some g ->
  measurement_graph_add_node E g var = (rc, n, g') ->
  rc = 0 \/ rc = 1 ->
  measurement_node_has_data E g' n mtype = false ->
  measurement_node_get_address E g' n = Some (request_address va) ->
  attester va = "@_0" \/ attester va = "@_t" ->
  place_of (st_glob s) (attester va) = None ->
  exists s',
    measure_variable_shim E var mtype s = (Fault, s') /\
    worker_invocations (st_trace s') = worker_invocations (st_trace s).
Proof.
  intros Hsel Hname Hg Hadd Hrc Hdata Haddr Hatt Hplace.
  assert (Hrcb : (rc =? 0) || (rc =? 1) = true)
    by (destruct Hrc; subst; reflexivity).
  destruct (measure_variable_shim_remote_at _ _ _ _ Hsel Hname) as [mc ->].
  destruct (measure_remote_layered E a var mtype _) as [r s'] eqn:H.
  unfold measure_remote_layered, get_target_channel_info in H.
  unfold place_of in Hplace.
  destruct Hatt as [Hatt|Hatt]; rewrite Hatt in Hplace.
  2: change (String.eqb "@_t" "@_0") with false in Hplace.
  all: rewrite String.eqb_refl in Hplace.
  all: run_with H ltac:(cbn [container_of space] in H;
                        rewrite ?Hg, ?Hadd, ?Hrcb, ?Hdata, ?Haddr, ?Hatt in H;
                        try change (String.eqb "@_t" "@_0") with false in H;
                        rewrite ?Hplace,
                          ?String.eqb_refl, ?Z.ltb_irrefl, ?Z.eqb_refl in H).
  all: inversion H; subst r s'; clear H.
  all: eexists; split; [reflexivity|]; prog_proj.
  all: by rewrite !worker_invocations_app, !app_nil_r.
Qed.

(** X10: a worker that is neither the kernel worker nor the execute worker
    sends the dispatcher to the standard userspace procedure: it receives
    the measurement counter as the selector left it, and its status, graph
    and counter are the dispatcher's result; the dispatcher itself records
    nothing and leaves the scenario alone. *)
Theorem userspace_delegates var mtype (s : state G) a g mc rc g' mc' :
  st_graph s = Some g ->
  select_asp_shim E g mtype var (apb_asps (st_glob s)) s =
    (Val (Some a), with_glob (set_mcount (st_glob s) mc) s) ->
  asp_name a <> "kernel_msmt_asp" ->
  asp_name a <> "send_execute_tcp_asp" ->
  measure_variable_internal E g var mtype
    (g_certfile (st_glob s)) (g_keyfile (st_glob s)) mc (apb_asps (st_glob s)) =
    (rc, g', mc') ->
  measure_variable_shim E var mtype s =
    (Val rc, with_glob (set_mcount (st_glob s) mc') (with_graph (Some g') s)).
Proof.
  intros Hg Hs Hk Hr Hint.
  unfold measure_variable_shim.
  erewrite bind_get_graph by eassumption. rewrite bind_get_glob.
  unfold bind at 1. rewrite Hs.
  apply String.eqb_neq in Hk, Hr. rewrite Hk, Hr.
  unfold measure_userspace.
  erewrite bind_get_graph by (prog_proj; eassumption).
  rewrite bind_get_glob. prog_proj. rewrite Hint.
  rewrite bind_put_graph, bind_put_glob. prog_proj.
  reflexivity.
Qed.

Lemma set_mcount_twice gl a b : set_mcount (set_mcount gl a) b = set_mcount gl b.
Proof. reflexivity. Qed.

(** Every run of the dispatcher: what it leaves of the file-scope variables,
    and when it ends in a null dereference. *)
Lemma measure_variable_shim_runs var mtype (s : state G) r s' :
  measure_variable_shim E var mtype s = (r, s') ->
  (exists mc, st_glob s' = set_mcount (st_glob s) mc) /\
  (ready_for_dispatch E s -> alloc_ok E "blob_data" = true -> exists rc, r = Val rc).
Proof.
  intros H. unfold measure_variable_shim in H.
  run_in H.
  all: cbn [container_of space] in *.
  all: inversion H; subst r s'; clear H.
  all: split;
    [ first [ eexists; reflexivity
            | exists (mcount (st_glob s)); by rewrite set_mcount_same ]
    | intros ([gg Hg] & Hsc & [iz Hz] & [it Ht]) Hb;
      first [ eexists; reflexivity
            | exfalso; prog_proj_in Hsc; congruence
            | exfalso;
              match goal with
              | Hc : container_of ?x = None |- _ => by destruct x
              end
            | exfalso;
              match goal with
              | Hx : (_ <? _) = _ |- _ => cbv in Hx; discriminate Hx
              end ] ].
Qed.

(** X11: from a state with a graph, the scenario pointer set and both
    places configured, and with the blob allocation succeeding, the
    dispatcher returns a status, whatever the collaborators answer: it does
    not end the process, and it reads neither the graph, nor the scenario,
    nor the selected place, nor the blob through a null pointer. *)
Theorem dispatcher_never_faults var mtype (s : state G) :
  ready_for_dispatch E s ->
  alloc_ok E "blob_data" = true ->
  exists rc, fst (measure_variable_shim E var mtype s) = Val rc.
Proof.
  intros Hr Hb.
  destruct (measure_variable_shim E var mtype s) as [r s'] eqn:H.
  by apply (proj2 (measure_variable_shim_runs _ _ _ _ _ H)).
Qed.

(** X12: of the file-scope variables the dispatcher writes the measurement
    counter only: the worker registry, the scenario pointer, the two places
    and the seven credentials come out as they went in. *)
Theorem dispatcher_keeps_globals var mtype (s : state G) r s' :
  measure_variable_shim E var mtype s = (r, s') ->
  apb_asps (st_glob s') = apb_asps (st_glob s) /\
  g_scen (st_glob s') = g_scen (st_glob s) /\
  g_dom_z_info (st_glob s') = g_dom_z_info (st_glob s) /\
  g_dom_t_info (st_glob s') = g_dom_t_info (st_glob s) /\
  ( g_certfile (st_glob s'), g_keyfile (st_glob s'), g_keypass (st_glob s'),
    g_nonce (st_glob s'), g_tpmpass (st_glob s'), g_akctx (st_glob s'),
    g_sign_tpm (st_glob s') ) =
  ( g_certfile (st_glob s), g_keyfile (st_glob s), g_keypass (st_glob s),
    g_nonce (st_glob s), g_tpmpass (st_glob s), g_akctx (st_glob s),
    g_sign_tpm (st_glob s) ).
Proof.
  intros H.
  destruct (proj1 (measure_variable_shim_runs _ _ _ _ _ H)) as [mc ->].
  by repeat split.
Qed.

End DispatcherMore.

(** ** More on the sign-send pipeline *)

Section PipelineMore.
Context (E : Externals).
Local Abbreviation G := (graph E).

(** Every run of the pipeline, by how it ends. *)
Lemma pipeline_runs peerchan (s : state G) r s' :
  execute_sign_send_pipeline E peerchan s = (r, s') ->
  st_scen s' = st_scen s /\ st_glob s' = st_glob s /\
  exists tr,
    st_trace s' = st_trace s ++ tr /\
    match r with
    | Val v =>
        (v = -1 /\ worker_invocations tr = []) \/
        (v <> 0 /\ exists ser g p fd,
            find_asp (apb_asps (st_glob s)) "serialize_graph_asp" = Some ser /\
            st_graph s = Some g /\
            measurement_graph_get_path E g = Some p /\
            fork_and_buffer_async_asp E ser [Some p] STDIN_FILENO = (v, fd) /\
            worker_invocations tr =
              [EvForkAsp "serialize_graph_asp" 1 [Some p] STDIN_FILENO])
    | Exit c =>
        spawn_args "serialize_graph_asp" tr <> [] /\
        spawn_args "compress_asp" tr = [[]] /\
        -1 <= c /\
        (0 < c ->
         ran_send tr = true /\
         exists snd fd og,
           find_asp (apb_asps (st_glob s)) "send_asp" = Some snd /\
           run_asp E snd fd peerchan [] (st_graph s) = (c, og) /\
           In (EvRunAsp "send_asp" fd peerchan 0 []) tr)
    | Fault => st_graph s = None /\ worker_invocations tr = []
    end.
Proof.
  intros H. unfold execute_sign_send_pipeline in H.
  run_in H.
  all: repeat match goal with
              | Hf : find_asp _ _ = Some _ |- _ =>
                  let N := fresh "N" in
                  pose proof (find_asp_name _ _ _ Hf) as N;
                  rewrite ?N in H; revert Hf
              end.
  all: intros.
  all: rewrite ?sign_stage_args, ?flag_slot, ?single_slot in H.
  all: inversion H; subst r s'; clear H.
  all: split; [reflexivity|]; split; [reflexivity|].
  all: trace_delta.
  all: repeat match goal with
              | Hp : context [array_read _ _] |- _ => rewrite single_slot in Hp
              end.
  all: first
    [ left; split; reflexivity
    | right; split; [ lia | ];
      eexists _, _, _, _;
      split; [reflexivity|]; split; [reflexivity|];
      split; [eassumption|]; split; [eassumption|]; reflexivity
    | split; [ by vm_compute | ];
      split; [ reflexivity | ];
      split; [ lia | ];
      first
        [ intros; lia
        | intros _; split; [reflexivity|];
          eexists _, _, _;
          split; [reflexivity|];
          split;
            [ first [ eassumption
                    | match goal with
                      | Hg : st_graph _ = Some _ |- _ => rewrite <- Hg
                      end; eassumption ] | ];
          cbn [In]; auto 40 ]
    | split; [ first [ assumption | reflexivity ] | reflexivity ] ].
Qed.

(** X13: the pipeline needs its inputs.  Without a working directory, or
    with one of its five workers missing from the registry, or without a
    graph path, it returns -1 and invokes no worker. *)
Theorem pipeline_needs_its_inputs peerchan (s : state G) :
  workdir (st_scen s) = None \/
  (exists name,
      In name [ "serialize_graph_asp"; "compress_asp"; "encrypt_asp";
                "create_measurement_contract_asp"; "send_asp" ] /\
      find_asp (apb_asps (st_glob s)) name = None) \/
  (exists g, st_graph s = Some g /\ measurement_graph_get_path E g = None) ->
  exists s',
    execute_sign_send_pipeline E peerchan s = (Val (-1), s') /\
    worker_invocations (st_trace s') = worker_invocations (st_trace s).
Proof.
  intros Hpre.
  destruct (execute_sign_send_pipeline E peerchan s) as [r s'] eqn:H.
  unfold execute_sign_send_pipeline in H.
  destruct Hpre as [Hw | [(name & Hin & Hf) | (g & Hg & Hp)]].
  - run_with H ltac:(rewrite ?Hw in H).
    inversion H; subst. eexists. split; [reflexivity|]. prog_proj.
    rewrite worker_invocations_app. apply app_nil_r.
  - cbn [In] in Hin.
    assert (Hcases :
      find_asp (apb_asps (st_glob s)) "serialize_graph_asp" = None \/
      find_asp (apb_asps (st_glob s)) "compress_asp" = None \/
      find_asp (apb_asps (st_glob s)) "encrypt_asp" = None \/
      find_asp (apb_asps (st_glob s)) "create_measurement_contract_asp" = None \/
      find_asp (apb_asps (st_glob s)) "send_asp" = None).
    { intuition (subst; auto). }
    clear Hin Hf.
    destruct (workdir (st_scen s)) as [w|] eqn:Hw.
    2:{ run_with H ltac:(rewrite ?Hw in H).
        inversion H; subst. eexists. split; [reflexivity|]. prog_proj.
        rewrite worker_invocations_app. apply app_nil_r. }
    run_with H ltac:(rewrite ?Hw in H);
      try (exfalso; intuition congruence).
    all: inversion H; subst; eexists; (split; [reflexivity|]); prog_proj.
    all: rewrite <- ?app_assoc; rewrite worker_invocations_app; apply app_nil_r.
  - run_with H ltac:(rewrite ?Hg, ?Hp in H).
    all: inversion H; subst; eexists; (split; [reflexivity|]); prog_proj.
    all: rewrite <- ?app_assoc; rewrite worker_invocations_app; apply app_nil_r.
Qed.

(** X14: the pipeline returns to its caller only from before the compress
    stage: either with -1 and no worker invoked, or with the non-zero status
    of the serialize spawn (this process being the parent of that spawn, or
    the spawn having failed) and that spawn as the only invocation. *)
Theorem pipeline_returns_only_before_compress peerchan (s : state G) v s' :
  execute_sign_send_pipeline E peerchan s = (Val v, s') ->
  exists tr,
    st_trace s' = st_trace s ++ tr /\
    ((v = -1 /\ worker_invocations tr = []) \/
     (v <> 0 /\ exists ser g p fd,
         find_asp (apb_asps (st_glob s)) "serialize_graph_asp" = Some ser /\
         st_graph s = Some g /\
         measurement_graph_get_path E g = Some p /\
         fork_and_buffer_async_asp E ser [Some p] STDIN_FILENO = (v, fd) /\
         worker_invocations tr =
           [EvForkAsp "serialize_graph_asp" 1 [Some p] STDIN_FILENO])).
Proof.
  intros H. by destruct (pipeline_runs _ _ _ _ H) as (_ & _ & Hr).
Qed.

(** X15: a run of the pipeline that ends the process has spawned the
    serialize stage and the compress stage, the latter once and without
    arguments; the exit status is at least -1, and a positive one is the
    status the send worker returned, the send worker having run on the peer
    channel. *)
Theorem pipeline_exit_status peerchan (s : state G) c s' :
  execute_sign_send_pipeline E peerchan s = (Exit c, s') ->
  exists tr,
    st_trace s' = st_trace s ++ tr /\
    spawn_args "serialize_graph_asp" tr <> [] /\
    spawn_args "compress_asp" tr = [[]] /\
    -1 <= c /\
    (0 < c ->
     ran_send tr = true /\
     exists snd fd og,
       find_asp (apb_asps (st_glob s)) "send_asp" = Some snd /\
       run_asp E snd fd peerchan [] (st_graph s) = (c, og) /\
       In (EvRunAsp "send_asp" fd peerchan 0 []) tr).
Proof.
  intros H. by destruct (pipeline_runs _ _ _ _ H) as (_ & _ & Hr).
Qed.

(** X16: the pipeline writes neither the scenario nor a file-scope
    variable, however it ends. *)
Theorem pipeline_keeps_scenario_and_globals peerchan (s : state G) r s' :
  execute_sign_send_pipeline E peerchan s = (r, s') ->
  st_scen s' = st_scen s /\ st_glob s' = st_glob s.
Proof.
  intros H. destruct (pipeline_runs _ _ _ _ H) as (? & ? & _). by split.
Qed.

(** X17: the chain without encryption.  When every spawn returns 0 (this
    process continuing as the child each time) the stages are serialize,
    compress, sign and send, each reading from the descriptor the stage
    before it handed back; the sign stage gets the flag ["0"], the send
    worker writes to the peer channel, its input descriptor is closed after
    it, and the process exits with its status, a negative one as -1. *)
Theorem pipeline_chain_plain peerchan (s : state G) w ser comp enc cc snd g p
    fd1 fd2 fd3 st og :
  workdir (st_scen s) = Some w ->
  alloc_ok E "workdir" = true ->
  find_asp (apb_asps (st_glob s)) "serialize_graph_asp" = Some ser ->
  find_asp (apb_asps (st_glob s)) "compress_asp" = Some comp ->
  find_asp (apb_asps (st_glob s)) "encrypt_asp" = Some enc ->
  find_asp (apb_asps (st_glob s)) "create_measurement_contract_asp" = Some cc ->
  find_asp (apb_asps (st_glob s)) "send_asp" = Some snd ->
  st_graph s = Some g ->
  measurement_graph_get_path E g = Some p ->
  fork_and_buffer_async_asp E ser [Some p] STDIN_FILENO = (0, fd1) ->
  fork_and_buffer_async_asp E comp [] fd1 = (0, fd2) ->
  partner_cert_copy E (st_scen s) = None ->
  fork_and_buffer_async_asp E cc (sign_argv (st_glob s) w "0") fd2 = (0, fd3) ->
  run_asp E snd fd3 peerchan [] (Some g) = (st, og) ->
  exists s',
    execute_sign_send_pipeline E peerchan s =
      (Exit (if st <? 0 then -1 else st), s') /\
    worker_invocations (st_trace s') =
      worker_invocations (st_trace s) ++
      [ EvForkAsp "serialize_graph_asp" 1 [Some p] STDIN_FILENO;
        EvForkAsp "compress_asp" 0 [] fd1;
        EvForkAsp "create_measurement_contract_asp" 10
          (sign_argv (st_glob s) w "0") fd2;
        EvRunAsp "send_asp" fd3 peerchan 0 [] ] /\
    List.filter (fun e => match e with EvClose _ => true | _ => false end)
      (st_trace s') =
    List.filter (fun e => match e with EvClose _ => true | _ => false end)
      (st_trace s) ++ [EvClose fd3].
Proof.
  intros Hw Ha Hser Hcomp Henc Hcc Hsnd Hg Hp Hf1 Hf2 Hpc Hf3 Hrun.
  pose proof (find_asp_name _ _ _ Hser) as Nser.
  pose proof (find_asp_name _ _ _ Hcomp) as Ncomp.
  pose proof (find_asp_name _ _ _ Hcc) as Ncc.
  pose proof (find_asp_name _ _ _ Hsnd) as Nsnd.
  destruct (execute_sign_send_pipeline E peerchan s) as [r s'] eqn:H.
  unfold execute_sign_send_pipeline in H.
  unfold sign_argv in *.
  run_with H ltac:(unfold strdup in H;
                   rewrite ?sign_stage_args, ?flag_slot, ?single_slot in H;
                   rewrite ?Hw, ?Ha, ?Hser, ?Hcomp, ?Henc, ?Hcc, ?Hsnd, ?Hg, ?Hp,
                     ?Hf1, ?Hf2, ?Hpc, ?Hf3, ?Hrun in H;
                   change (0 =? -2) with false in H;
                   change (0 =? -1) with false in H;
                   change (0 >? 0) with false in H;
                   rewrite ?Z.eqb_refl in H).
  all: inversion H; subst r s'; clear H.
  all: eexists; split; [reflexivity|]; prog_proj.
  all: rewrite <- ?app_assoc; cbn [app].
  all: rewrite ?worker_invocations_app, ?List.filter_app, ?Nser, ?Ncomp, ?Ncc, ?Nsnd;
       cbn.
  all: by rewrite ?app_nil_r.
Qed.

(** X18: the chain with encryption.  With the partner certificate copied,
    the encrypt stage is spawned between compress and sign with the
    certificate path as its one argument, the sign stage reads from the
    encrypt stage's descriptor and gets the flag ["1"]; the rest is as in
    the plain chain. *)
Theorem pipeline_chain_encrypted peerchan (s : state G) w ser comp enc cc snd g p
    pc fd1 fd2 fde fd3 st og :
  workdir (st_scen s) = Some w ->
  alloc_ok E "workdir" = true ->
  find_asp (apb_asps (st_glob s)) "serialize_graph_asp" = Some ser ->
  find_asp (apb_asps (st_glob s)) "compress_asp" = Some comp ->
  find_asp (apb_asps (st_glob s)) "encrypt_asp" = Some enc ->
  find_asp (apb_asps (st_glob s)) "create_measurement_contract_asp" = Some cc ->
  find_asp (apb_asps (st_glob s)) "send_asp" = Some snd ->
  st_graph s = Some g ->
  measurement_graph_get_path E g = Some p ->
  fork_and_buffer_async_asp E ser [Some p] STDIN_FILENO = (0, fd1) ->
  fork_and_buffer_async_asp E comp [] fd1 = (0, fd2) ->
  partner_cert_copy E (st_scen s) = Some pc ->
  fork_and_buffer_async_asp E enc [Some pc] fd2 = (0, fde) ->
  fork_and_buffer_async_asp E cc (sign_argv (st_glob s) w "1") fde = (0, fd3) ->
  run_asp E snd fd3 peerchan [] (Some g) = (st, og) ->
  exists s',
    execute_sign_send_pipeline E peerchan s =
      (Exit (if st <? 0 then -1 else st), s') /\
    worker_invocations (st_trace s') =
      worker_invocations (st_trace s) ++
      [ EvForkAsp "serialize_graph_asp" 1 [Some p] STDIN_FILENO;
        EvForkAsp "compress_asp" 0 [] fd1;
        EvForkAsp "encrypt_asp" 1 [Some pc] fd2;
        EvForkAsp "create_measurement_contract_asp" 10
          (sign_argv (st_glob s) w "1") fde;
        EvRunAsp "send_asp" fd3 peerchan 0 [] ] /\
    List.filter (fun e => match e with EvClose _ => true | _ => false end)
      (st_trace s') =
    List.filter (fun e => match e with EvClose _ => true | _ => false end)
      (st_trace s) ++ [EvClose fd3].
Proof.
  intros Hw Ha Hser Hcomp Henc Hcc Hsnd Hg Hp Hf1 Hf2 Hpc Hfe Hf3 Hrun.
  pose proof (find_asp_name _ _ _ Hser) as Nser.
  pose proof (find_asp_name _ _ _ Hcomp) as Ncomp.
  pose proof (find_asp_name _ _ _ Henc) as Nenc.
  pose proof (find_asp_name _ _ _ Hcc) as Ncc.
  pose proof (find_asp_name _ _ _ Hsnd) as Nsnd.
  destruct (execute_sign_send_pipeline E peerchan s) as [r s'] eqn:H.
  unfold execute_sign_send_pipeline in H.
  unfold sign_argv in *.
  run_with H ltac:(unfold strdup in H;
                   rewrite ?sign_stage_args, ?flag_slot, ?single_slot in H;
                   rewrite ?Hw, ?Ha, ?Hser, ?Hcomp, ?Henc, ?Hcc, ?Hsnd, ?Hg, ?Hp,
                     ?Hf1, ?Hf2, ?Hpc, ?Hfe, ?Hf3, ?Hrun in H;
                   change (0 =? -2) with false in H;
                   change (0 =? -1) with false in H;
                   change (0 >? 0) with false in H;
                   rewrite ?Z.eqb_refl in H).
  all: inversion H; subst r s'; clear H.
  all: eexists; split; [reflexivity|]; prog_proj.
  all: rewrite <- ?app_assoc; cbn [app].
  all: rewrite ?worker_invocations_app, ?List.filter_app, ?Nser, ?Ncomp, ?Nenc,
         ?Ncc, ?Nsnd; cbn.
  all: by rewrite ?app_nil_r.
Qed.

End PipelineMore.

(** ** More on the orchestrator entry point *)

Section EntryPointMore.
Context (E : Externals).
Local Abbreviation G := (graph E).

Lemma staged_eq g (s : state G) :
  staged E g s =
  with_glob (set_credentials (st_glob s)
    (strdup E "g_certfile" (default "" (certfile (st_scen s))))
    (strdup E "g_keyfile"  (default "" (keyfile (st_scen s))))
    (strdup E "g_keypass"  (default "" (keypass (st_scen s))))
    (strdup E "g_nonce"    (default "" (nonce (st_scen s))))
    (strdup E "g_tpmpass"  (default "" (tpmpass (st_scen s))))
    (strdup E "g_akctx"    (default "" (akctx (st_scen s))))
    (strdup E "g_sign_tpm" (if sign_tpm (st_scen s) =? 0 then "0" else "1")))
    (with_graph (Some g) s).
Proof. reflexivity. Qed.

Lemma is_null_strdup site str : is_null (strdup E site str) = negb (alloc_ok E site).
Proof. unfold strdup. by destruct (alloc_ok E site). Qed.

(** The loop: its status, and the events it produces. *)
Lemma parse_place_args_status arg_list :
  forall ret_val (s : state G) r s',
    0 <= ret_val ->
    parse_place_args E arg_list ret_val s = (r, s') ->
    exists rv fin tr,
      r = Val (rv, fin) /\
      st_trace s' = st_trace s ++ tr /\
      forallb is_parse_event tr = true /\
      (if fin then 0 <= rv /\ ~ In unable_log tr else rv < 0 /\ In unable_log tr).
Proof.
  induction arg_list as [|kv rest IH]; intros rv s r s' Hrv H.
  - inversion H. exists rv, true, []. rewrite app_nil_r.
    repeat split; auto.
  - cbn [parse_place_args] in H.
    run_in H.
    all: first
      [ apply IH in H as (rv' & fin & tr & -> & Htr & Hev & Hfin);
        [ prog_proj_in Htr; exists rv', fin; rewrite Htr, <- ?app_assoc; cbn [app];
          eexists; split; [reflexivity|]; split; [reflexivity|];
          split; [exact Hev|]
        | lia ]
      | inversion H; subst r s'; clear H; eexists _, _, _;
        split; [reflexivity|];
        split; [prog_proj; rewrite <- ?app_assoc; cbn [app]; reflexivity|];
        split; [reflexivity|] ].
    all: unfold unable_log in *; cbn [In].
    all: try (destruct fin; destruct Hfin).
    all: repeat split; try lia; intuition (try discriminate).
Qed.
Lemma set_places_same gl :
  set_g_dom_t_info (set_g_dom_z_info gl (g_dom_z_info gl)) (g_dom_t_info gl) = gl.
Proof. by destruct gl. Qed.

(** The loop writes nothing but the two place slots, and never a slot that
    is set. *)
Lemma parse_place_args_frame arg_list :
  forall ret_val (s : state G) r s',
    parse_place_args E arg_list ret_val s = (r, s') ->
    st_scen s' = st_scen s /\ st_graph s' = st_graph s /\
    (exists z t, st_glob s' = set_g_dom_t_info (set_g_dom_z_info (st_glob s) z) t) /\
    (forall i, g_dom_z_info (st_glob s) = Some i ->
               g_dom_z_info (st_glob s') = Some i) /\
    (forall i, g_dom_t_info (st_glob s) = Some i ->
               g_dom_t_info (st_glob s') = Some i).
Proof.
  induction arg_list as [|kv rest IH]; intros rv s r s' H.
  - inversion H; subst. repeat split; auto.
    eexists _, _. symmetry. apply set_places_same.
  - cbn [parse_place_args] in H.
    run_in H.
    all: first
      [ apply IH in H as (Hsc & Hgr & (z' & t' & Hgl) & Hz & Ht);
        prog_proj_in Hsc; prog_proj_in Hgr; prog_proj_in Hgl;
        prog_proj_in Hz; prog_proj_in Ht
      | inversion H; subst r s'; clear H; prog_proj ].
    all: split; [ first [ assumption | reflexivity ] | ].
    all: split; [ first [ assumption | reflexivity ] | ].
    all: split;
      [ first [ rewrite Hgl; by eexists _, _
              | by eexists _, _
              | eexists _, _; symmetry; apply set_places_same ] | ].
    all: split; intros i Hi.
    all: first [ by apply Hz | by apply Ht | congruence
               | apply Hz; congruence | apply Ht; congruence ].
Qed.

(** Without an argument of its key a place slot stays as it is, and so does
    every slot when both are set. *)
Lemma parse_place_args_keys arg_list :
  forall ret_val (s : state G) r s',
    parse_place_args E arg_list ret_val s = (r, s') ->
    ((forall kv, In kv arg_list -> key kv <> "@_0") ->
     g_dom_z_info (st_glob s') = g_dom_z_info (st_glob s)) /\
    ((forall kv, In kv arg_list -> key kv <> "@_t") ->
     g_dom_t_info (st_glob s') = g_dom_t_info (st_glob s)) /\
    (is_Some (g_dom_z_info (st_glob s)) -> is_Some (g_dom_t_info (st_glob s)) ->
     r = Val (ret_val, true) /\ st_glob s' = st_glob s /\
     place_lookups (st_trace s') = place_lookups (st_trace s)).
Proof.
  induction arg_list as [|kv rest IH]; intros rv s r s' H.
  - inversion H; subst. repeat split; auto.
  - cbn [parse_place_args] in H.
    run_in H.
    all: first
      [ apply IH in H as (Hz & Ht & Hb);
        prog_proj_in Hz; prog_proj_in Ht; prog_proj_in Hb
      | inversion H; subst r s'; clear H; prog_proj ].
    all: split; [ intros Hk | split; [ intros Hk | intros [iz Hiz] [it Hit] ] ].
    all: try reflexivity.
    all: try (exfalso; congruence).
    all: try (exfalso; apply (Hk kv); [ by left | by apply String.eqb_eq ]).
    all: try (apply Hz || apply Ht; intros kv' Hin; apply Hk; by right).
    all: try (destruct Hb as (Hb1 & Hb2 & Hb3); [ by eexists | by eexists | ];
              split; [ exact Hb1 | ]; split; [ exact Hb2 | ];
              rewrite Hb3; unfold place_lookups; rewrite flat_map_app; cbn;
              by rewrite app_nil_r).
Qed.

(** X19: the argument loop never overwrites a place slot that is set: a
    set slot comes out with the same resolution, and with both slots set
    the loop runs to its end without a single lookup, leaving the
    file-scope variables and the status as they were. *)
Theorem place_slots_are_written_once arg_list ret_val (s : state G) r s' :
  parse_place_args E arg_list ret_val s = (r, s') ->
  (forall i, g_dom_z_info (st_glob s) = Some i ->
             g_dom_z_info (st_glob s') = Some i) /\
  (forall i, g_dom_t_info (st_glob s) = Some i ->
             g_dom_t_info (st_glob s') = Some i) /\
  (is_Some (g_dom_z_info (st_glob s)) -> is_Some (g_dom_t_info (st_glob s)) ->
   r = Val (ret_val, true) /\ st_glob s' = st_glob s /\
   place_lookups (st_trace s') = place_lookups (st_trace s)).
Proof.
  intros H.
  destruct (parse_place_args_frame _ _ _ _ _ H) as (_ & _ & _ & Hz & Ht).
  destruct (parse_place_args_keys _ _ _ _ _ H) as (_ & _ & Hb).
  auto.
Qed.

(** The entry point up to the end of the argument loop. *)
Lemma apb_execute_after_loop apb meas_spec_uuid peerchan arg_list (s : state G) r s' :
  List.length arg_list = 2%nat ->
  0 <= register_types E ->
  apb_execute E apb meas_spec_uuid peerchan arg_list s = (r, s') ->
  exists rv fin s2,
    parse_place_args E arg_list (register_types E)
      (with_glob (set_apb_asps (st_glob s) (asps apb))
         (record (EvLog 4 "Hello from the LAYERED_ATTESTATION_APB") s)) =
      (Val (rv, fin), s2) /\
    ((fin = false /\ (r, s') = place_arg_err E rv s2) \/
     (fin = true /\
      (is_null (g_dom_z_info (st_glob s2)) || is_null (g_dom_t_info (st_glob s2)) = true) /\
      (r, s') = place_arg_err E rv (record incomplete_log s2)) \/
     (fin = true /\
      is_Some (g_dom_z_info (st_glob s2)) /\ is_Some (g_dom_t_info (st_glob s2)))).
Proof.
  intros Hlen Hreg H. unfold apb_execute in H.
  rewrite bind_dlog in H. rewrite Hlen in H.
  change (negb (Z.of_nat 2 =? 2)) with false in H. cbv iota in H.
  assert (Hregb : (register_types E <? 0) = false) by lia.
  rewrite Hregb in H. rewrite bind_get_glob, bind_put_glob in H. prog_proj_in H.
  unfold bind at 1 in H.
  destruct (parse_place_args E arg_list (register_types E) _)
    as [[[rv fin]|c|] s2] eqn:Hp.
  2,3: destruct (parse_place_args_status _ _ _ _ _ Hreg Hp)
         as (? & ? & ? & ? & _); discriminate.
  exists rv, fin, s2. split; [reflexivity|].
  destruct fin; cbn [negb] in H.
  - rewrite bind_get_glob in H.
    destruct (is_null (g_dom_z_info (st_glob s2)) || is_null (g_dom_t_info (st_glob s2)))
      eqn:Hn.
    + right; left. rewrite bind_dlog in H. by repeat split.
    + right; right. apply orb_false_iff in Hn as [Hz Ht].
      split; [reflexivity|].
      destruct (g_dom_z_info (st_glob s2)), (g_dom_t_info (st_glob s2));
        try discriminate. by split; eexists.
  - left. by split.
Qed.

Lemma parse_events_are_quiet tr :
  forallb is_parse_event tr = true ->
  worker_invocations tr = [] /\ ~ In measuring_log tr /\
  ~ In incomplete_log tr /\ ~ In alloc_log tr.
Proof.
  induction tr as [|e tr IH]; cbn [forallb]; intros H.
  - repeat split; by intros [].
  - apply andb_true_iff in H as [He Htr].
    destruct (IH Htr) as (Hw & Hm & Hi & Ha).
    assert (is_worker_invocation e = false) as Hnw.
    { destruct e; try discriminate He; reflexivity. }
    unfold worker_invocations in *. cbn [List.filter]. rewrite Hnw.
    split; [exact Hw|].
    repeat split; intros [Heq|Hin]; auto; subst e; discriminate He.
Qed.

(** X20: a call with two arguments none of which names one of the places
    (that place not being set yet) never gets to the Measuring stage and
    invokes no worker: it returns either the negative status of a failed
    lookup, or the non-negative status it had at the end of the loop after
    logging that the place information is incomplete. *)
Theorem missing_place_ends_the_run apb meas_spec_uuid peerchan arg_list
    (s : state G) r s' :
  List.length arg_list = 2%nat ->
  0 <= register_types E ->
  (g_dom_z_info (st_glob s) = None /\
   forall kv, In kv arg_list -> key kv <> "@_0") \/
  (g_dom_t_info (st_glob s) = None /\
   forall kv, In kv arg_list -> key kv <> "@_t") ->
  apb_execute E apb meas_spec_uuid peerchan arg_list s = (r, s') ->
  exists v tr,
    r = Val v /\
    st_trace s' = st_trace s ++ tr /\
    worker_invocations tr = [] /\
    ~ In measuring_log tr /\
    ((v < 0 /\ In unable_log tr) \/ (0 <= v /\ In incomplete_log tr)).
Proof.
  intros Hlen Hreg Hmiss H.
  destruct (apb_execute_after_loop _ _ _ _ _ _ _ Hlen Hreg H)
    as (rv & fin & s2 & Hp & Hcases).
  destruct (parse_place_args_status _ _ _ _ _ Hreg Hp)
    as (rv' & fin' & tr & Hv & Htr & Hev & Hfin).
  inversion Hv; subst rv' fin'; clear Hv.
  destruct (parse_events_are_quiet _ Hev) as (Hw & Hm & Hi & _).
  destruct (parse_place_args_keys _ _ _ _ _ Hp) as (Hkz & Hkt & _).
  prog_proj_in Htr. prog_proj_in Hkz. prog_proj_in Hkt.
  destruct Hcases as [(-> & Hr) | [(-> & Hn & Hr) | (-> & [iz Hz] & [it Ht])]].
  - unfold place_arg_err in Hr. inversion Hr; subst r s'; clear Hr.
    destruct Hfin as [Hlt Hin].
    eexists _, _. split; [reflexivity|]. prog_proj. rewrite Htr.
    rewrite <- !app_assoc. split; [reflexivity|]. cbn [app].
    split.
    { change (EvLog 4 "Hello from the LAYERED_ATTESTATION_APB" :: ?l)
        with ([EvLog 4 "Hello from the LAYERED_ATTESTATION_APB"] ++ l).
      rewrite !worker_invocations_app, Hw. reflexivity. }
    split.
    { intros [Hd|Hd]; [discriminate|].
      apply in_app_or in Hd as [Hd|Hd]; [auto|].
      cbn [In] in Hd. unfold measuring_log in Hd. intuition discriminate. }
    left. split; [exact Hlt|]. right. apply in_or_app. by left.
  - unfold place_arg_err in Hr. inversion Hr; subst r s'; clear Hr.
    destruct Hfin as [Hge Hnin].
    eexists _, _. split; [reflexivity|]. prog_proj. rewrite Htr.
    rewrite <- !app_assoc. split; [reflexivity|]. cbn [app].
    split.
    { change (EvLog 4 "Hello from the LAYERED_ATTESTATION_APB" :: ?l)
        with ([EvLog 4 "Hello from the LAYERED_ATTESTATION_APB"] ++ l).
      rewrite !worker_invocations_app, Hw. reflexivity. }
    split.
    { intros [Hd|Hd]; [discriminate|].
      apply in_app_or in Hd as [Hd|Hd]; [auto|].
      cbn [In] in Hd. unfold measuring_log, incomplete_log in Hd.
      intuition discriminate. }
    right. split; [exact Hge|]. right. apply in_or_app. right. by left.
  - exfalso. destruct Hmiss as [[Hz0 Hk] | [Ht0 Hk]].
    + rewrite (Hkz Hk) in Hz. congruence.
    + rewrite (Hkt Hk) in Ht. congruence.
Qed.

(** X21: when the lookup of the first argument's place fails, the run
    returns the lookup's status at once: the second argument is not looked
    at, and the only cleanup is the release of the two place slots. *)
Theorem lookup_failure_ends_the_run apb meas_spec_uuid peerchan kv1 kv2
    (s : state G) rc info :
  0 <= register_types E ->
  (key kv1 = "@_0" /\ g_dom_z_info (st_glob s) = None) \/
  (key kv1 = "@_t" /\ g_dom_t_info (st_glob s) = None) ->
  get_place_information E (st_scen s) (value kv1) = (rc, info) ->
  rc < 0 ->
  exists s',
    apb_execute E apb meas_spec_uuid peerchan [kv1; kv2] s = (Val rc, s') /\
    st_trace s' = st_trace s ++
      [ EvLog 4 "Hello from the LAYERED_ATTESTATION_APB";
        EvPlaceLookup (value kv1);
        EvLog 1 "Unable to get place information for id: %s";
        EvFree "g_dom_z_info"; EvFree "g_dom_t_info" ].
Proof.
  intros Hreg Hkey Hplace Hrc.
  assert (Hregb : (register_types E <? 0) = false) by lia.
  assert (Hrcb : (rc <? 0) = true) by lia.
  destruct (apb_execute E apb meas_spec_uuid peerchan [kv1; kv2] s)
    as [r s'] eqn:H.
  unfold apb_execute in H.
  change (negb (Z.of_nat (List.length [kv1; kv2]) =? 2)) with false in H.
  cbn [parse_place_args] in H.
  destruct Hkey as [[Hk Hz] | [Hk Ht]]; rewrite Hk in H.
  - run_with H ltac:(rewrite ?Hplace, ?Hregb, ?Hrcb, ?Hz, ?String.eqb_refl in H).
    inversion H; subst r s'; clear H.
    eexists. split; [reflexivity|]. prog_proj. by rewrite <- !app_assoc.
  - change (String.eqb "@_t" "@_0") with false in H.
    run_with H ltac:(rewrite ?Hplace, ?Hregb, ?Hrcb, ?Ht, ?String.eqb_refl in H).
    inversion H; subst r s'; clear H.
    eexists. split; [reflexivity|]. prog_proj. by rewrite <- !app_assoc.
Qed.

(** The entry point from the end of the argument loop to the Measuring
    stage. *)
Lemma apb_execute_staging apb meas_spec_uuid peerchan arg_list (s : state G) r s'
    rv s2 :
  List.length arg_list = 2%nat ->
  0 <= register_types E ->
  apb_execute E apb meas_spec_uuid peerchan arg_list s = (r, s') ->
  parse_place_args E arg_list (register_types E)
    (with_glob (set_apb_asps (st_glob s) (asps apb))
       (record (EvLog 4 "Hello from the LAYERED_ATTESTATION_APB") s)) =
    (Val (rv, true), s2) ->
  is_Some (g_dom_z_info (st_glob s2)) ->
  is_Some (g_dom_t_info (st_glob s2)) ->
  exists mrc mspec,
    get_target_meas_spec E meas_spec_uuid = (mrc, mspec) /\
    ((mrc <> 0 /\ (r, s') = place_arg_err E mrc s2) \/
     (mrc = 0 /\ create_measurement_graph E = None /\
      (r, s') = graph_err E (- EIO)
                  (record (EvLog 0 "Failed to create measurement graph") s2)) \/
     (mrc = 0 /\ exists g, create_measurement_graph E = Some g /\
        ((staging_ok E = false /\
          (r, s') = str_alloc_err E 0 (record alloc_log (staged E g s2))) \/
         (staging_ok E = true /\
          (r, s') =
            (evaluate_measurement_spec E mspec (measure_variable_shim E);;
             dlog 4 "Entering execute_measurement_and_asp_pipeline";;
             ret_val <- execute_sign_send_pipeline E peerchan;;
             str_alloc_err E ret_val)
              (record measuring_log
                 (with_glob (set_g_scen (st_glob (staged E g s2)) true)
                    (staged E g s2))))))).
Proof.
  intros Hlen Hreg H Hp [iz Hz] [it Ht]. unfold apb_execute in H.
  rewrite bind_dlog in H. rewrite Hlen in H.
  change (negb (Z.of_nat 2 =? 2)) with false in H. cbv iota in H.
  assert (Hregb : (register_types E <? 0) = false) by lia.
  rewrite Hregb in H. rewrite bind_get_glob, bind_put_glob in H. prog_proj_in H.
  unfold bind at 1 in H. rewrite Hp in H. cbn [negb] in H.
  rewrite bind_get_glob in H. rewrite Hz, Ht in H. cbn [is_null orb] in H.
  destruct (get_target_meas_spec E meas_spec_uuid) as [mrc mspec].
  exists mrc, mspec. split; [reflexivity|].
  destruct (mrc =? 0) eqn:Hm; cbn [negb] in H.
  2: { left. split; [lia | by symmetry]. }
  apply Z.eqb_eq in Hm; subst mrc. right.
  destruct (create_measurement_graph E) as [g|].
  2: { left. rewrite bind_dlog in H. by repeat split. }
  right. split; [reflexivity|]. exists g. split; [reflexivity|].
  rewrite bind_put_graph in H.
  unfold stage_credentials in H.
  rewrite bind_assoc, bind_get_scen in H.
  rewrite bind_assoc, bind_get_glob in H. prog_proj_in H.
  rewrite bind_put_glob, bind_get_glob in H. prog_proj_in H.
  rewrite !is_null_strdup in H.
  rewrite <- !negb_andb in H.
  fold (staging_ok E) in H.
  destruct (staging_ok E); cbn [negb] in H.
  - right. split; [reflexivity|].
    rewrite bind_put_glob, bind_dlog in H. symmetry. exact H.
  - left. split; [reflexivity|].
    rewrite bind_dlog in H. symmetry. exact H.
Qed.

(** X22: when one of the seven credential copies fails, a run that got as
    far as staging logs the allocation failure, releases everything it
    staged, the graph and the measurement specification, and returns 0, the
    status left by the specification lookup: the failure is not reported to
    the caller. *)
Theorem staging_failure_reports_success apb meas_spec_uuid peerchan v0 vt
    (s : state G) rc0 i0 rct it mspec g site :
  0 <= register_types E ->
  g_dom_z_info (st_glob s) = None ->
  g_dom_t_info (st_glob s) = None ->
  get_place_information E (st_scen s) v0 = (rc0, Some i0) -> 0 <= rc0 ->
  get_place_information E (st_scen s) vt = (rct, Some it) -> 0 <= rct ->
  get_target_meas_spec E meas_spec_uuid = (0, mspec) ->
  create_measurement_graph E = Some g ->
  In site ["g_certfile"; "g_keyfile"; "g_keypass"; "g_nonce"; "g_sign_tpm";
           "g_tpmpass"; "g_akctx"] ->
  alloc_ok E site = false ->
  exists s',
    apb_execute E apb meas_spec_uuid peerchan [mk_kv "@_0" v0; mk_kv "@_t" vt] s =
      (Val 0, s') /\
    st_graph s' = None /\
    st_trace s' = st_trace s ++
      [ EvLog 4 "Hello from the LAYERED_ATTESTATION_APB";
        EvPlaceLookup v0; EvPlaceLookup vt;
        EvLog 0 "Unable to allocate buffer(s) for scenario information";
        EvFree "g_certfile"; EvFree "g_keyfile"; EvFree "g_keypass";
        EvFree "g_nonce"; EvFree "g_tpmpass"; EvFree "g_akctx";
        EvFree "g_sign_tpm"; EvFree "graph"; EvFree "mspec";
        EvFree "g_dom_z_info"; EvFree "g_dom_t_info" ].
Proof.
  intros Hreg Hz Ht Hp0 Hrc0 Hpt Hrct Hspec Hg Hsite Hfail.
  assert (Hok : staging_ok E = false).
  { unfold staging_ok. cbn [In] in Hsite.
    repeat (destruct Hsite as [<-|Hsite];
            [ rewrite Hfail, ?andb_false_r; reflexivity | ]).
    destruct Hsite. }
  assert (Hrc0b : (rc0 <? 0) = false) by lia.
  assert (Hrctb : (rct <? 0) = false) by lia.
  destruct (parse_place_args E [mk_kv "@_0" v0; mk_kv "@_t" vt] (register_types E)
              (with_glob (set_apb_asps (st_glob s) (asps apb))
                 (record (EvLog 4 "Hello from the LAYERED_ATTESTATION_APB") s)))
    as [rp s2] eqn:Hp.
  pose proof Hp as Hp'.
  cbn [parse_place_args key value] in Hp'.
  change (String.eqb "@_t" "@_0") with false in Hp'.
  run_with Hp' ltac:(rewrite ?Hp0, ?Hpt, ?Hrc0b, ?Hrctb, ?Hz, ?Ht, ?String.eqb_refl in Hp').
  inversion Hp'; subst rp s2; clear Hp'.
  destruct (apb_execute E apb meas_spec_uuid peerchan _ s) as [r s'] eqn:H.
  assert (Hlen : List.length [mk_kv "@_0" v0; mk_kv "@_t" vt] = 2%nat)
    by reflexivity.
  destruct (apb_execute_staging _ _ _ _ _ _ _ _ _ Hlen Hreg H Hp)
    as (mrc & ms & Hms & Hcases); [ prog_proj; by eexists .. | ].
  rewrite Hspec in Hms. inversion Hms; subst mrc ms; clear Hms.
  destruct Hcases as [[Hne _] | [(_ & Hgn & _) | (_ & g' & Hg' & Hcases)]];
    [ by destruct Hne | congruence | ].
  rewrite Hg in Hg'. inversion Hg'; subst g'; clear Hg'.
  destruct Hcases as [[_ Hr] | [Hy _]]; [ | congruence ].
  rewrite staged_eq in Hr.
  unfold str_alloc_err, graph_err, place_arg_err, alloc_log in Hr. run_in Hr.
  all: inversion Hr; subst r s'; clear Hr.
  all: eexists; split; [reflexivity|]; prog_proj; split; [reflexivity|].
  all: by rewrite <- !app_assoc.
Qed.

(** The state in which the engine is started. *)
Lemma staged_ready g (s2 : state G) :
  staging_ok E = true ->
  is_Some (g_dom_z_info (st_glob s2)) ->
  is_Some (g_dom_t_info (st_glob s2)) ->
  forall s_m,
  s_m = record measuring_log
          (with_glob (set_g_scen (st_glob (staged E g s2)) true) (staged E g s2)) ->
  ready_for_dispatch E s_m /\
  apb_asps (st_glob s_m) = apb_asps (st_glob s2) /\
  st_scen s_m = st_scen s2 /\
  g_certfile (st_glob s_m) = Some (default "" (certfile (st_scen s2))) /\
  g_keyfile (st_glob s_m) = Some (default "" (keyfile (st_scen s2))) /\
  g_keypass (st_glob s_m) = Some (default "" (keypass (st_scen s2))) /\
  g_nonce (st_glob s_m) = Some (default "" (nonce (st_scen s2))) /\
  g_tpmpass (st_glob s_m) = Some (default "" (tpmpass (st_scen s2))) /\
  g_akctx (st_glob s_m) = Some (default "" (akctx (st_scen s2))) /\
  g_sign_tpm (st_glob s_m) =
    Some (if sign_tpm (st_scen s2) =? 0 then "0" else "1").
Proof.
  intros Hok Hz Ht s_m ->. unfold staging_ok in Hok.
  repeat (apply andb_true_iff in Hok as [Hok ?]).
  rewrite staged_eq. unfold ready_for_dispatch, strdup. prog_proj.
  repeat match goal with Hx : alloc_ok E _ = true |- _ => rewrite Hx; clear Hx end.
  repeat split; try reflexivity; try assumption; by eexists.
Qed.

(** X23: when the evaluation engine is started, the state is ready for the
    dispatcher: a graph is in place, the scenario pointer is set, both
    places are resolved, the worker registry is the caller's, and each of
    the seven credentials holds a copy of the scenario's field (the empty
    string for an unset field, ["0"] or ["1"] for the TPM flag). *)
Theorem engine_starts_ready apb meas_spec_uuid peerchan arg_list
    (s : state G) r s' :
  ~ In measuring_log (st_trace s) ->
  apb_execute E apb meas_spec_uuid peerchan arg_list s = (r, s') ->
  In measuring_log (st_trace s') ->
  exists mspec s_m,
    (r, s') =
      (evaluate_measurement_spec E mspec (measure_variable_shim E);;
       dlog 4 "Entering execute_measurement_and_asp_pipeline";;
       ret_val <- execute_sign_send_pipeline E peerchan;;
       str_alloc_err E ret_val) s_m /\
    ready_for_dispatch E s_m /\
    apb_asps (st_glob s_m) = asps apb /\
    st_scen s_m = st_scen s /\
    g_certfile (st_glob s_m) = Some (default "" (certfile (st_scen s))) /\
    g_keyfile (st_glob s_m) = Some (default "" (keyfile (st_scen s))) /\
    g_keypass (st_glob s_m) = Some (default "" (keypass (st_scen s))) /\
    g_nonce (st_glob s_m) = Some (default "" (nonce (st_scen s))) /\
    g_tpmpass (st_glob s_m) = Some (default "" (tpmpass (st_scen s))) /\
    g_akctx (st_glob s_m) = Some (default "" (akctx (st_scen s))) /\
    g_sign_tpm (st_glob s_m) =
      Some (if sign_tpm (st_scen s) =? 0 then "0" else "1").
Proof.
  intros Hq H Hin.
  destruct (Nat.eq_dec (List.length arg_list) 2%nat) as [Hlen|Hlen].
  2: { exfalso. unfold apb_execute in H. rewrite bind_dlog in H.
       assert (negb (Z.of_nat (List.length arg_list) =? 2) = true) as Hb
         by (apply negb_true_iff, Z.eqb_neq; lia).
       rewrite Hb in H. rewrite bind_dlog in H. inversion H; subst r s'; clear H.
       prog_proj_in Hin. revert Hin. quiet. }
  destruct (Z.ltb_spec (register_types E) 0) as [Hreg|Hreg].
  { exfalso. unfold apb_execute in H. rewrite bind_dlog in H.
    rewrite Hlen in H. change (negb (Z.of_nat 2 =? 2)) with false in H.
    cbv iota in H.
    assert ((register_types E <? 0) = true) as Hb by lia. rewrite Hb in H.
    inversion H; subst r s'; clear H. prog_proj_in Hin. revert Hin. quiet. }
  destruct (apb_execute_after_loop _ _ _ _ _ _ _ Hlen Hreg H)
    as (rv & fin & s2 & Hp & Hcases).
  destruct (parse_place_args_status _ _ _ _ _ Hreg Hp)
    as (rv' & fin' & tr & Hv & Htr & Hev & Hfin).
  inversion Hv; subst rv' fin'; clear Hv.
  destruct (parse_events_are_quiet _ Hev) as (Hw & Hm & Hi & Ha).
  destruct (parse_place_args_frame _ _ _ _ _ Hp) as (Hsc & Hgr & (z' & t' & Hgl) & _).
  prog_proj_in Htr. prog_proj_in Hsc. prog_proj_in Hgl.
  destruct Hcases as [(-> & Hr) | [(-> & Hn & Hr) | (-> & Hz & Ht)]].
  1,2: exfalso; unfold place_arg_err, incomplete_log in Hr; run_in Hr;
       inversion Hr; subst r s'; clear Hr;
       prog_proj_in Hin; rewrite Htr in Hin; revert Hin; quiet.
  destruct (apb_execute_staging _ _ _ _ _ _ _ _ _ Hlen Hreg H Hp Hz Ht)
    as (mrc & mspec & Hms & Hcases).
  destruct Hcases as [[_ Hr] | [(_ & _ & Hr) | (_ & g & Hg & [[_ Hr] | [Hok Hr]])]].
  1,2,3: exfalso;
       rewrite ?staged_eq in Hr;
       unfold str_alloc_err, graph_err, place_arg_err, alloc_log in Hr;
       run_in Hr;
       inversion Hr; subst r s'; clear Hr;
       prog_proj_in Hin; rewrite Htr in Hin; revert Hin; quiet.
  destruct (staged_ready g s2 Hok Hz Ht _ eq_refl)
    as (Hrd & Hasps & Hscen & Hc1 & Hc2 & Hc3 & Hc4 & Hc5 & Hc6 & Hc7).
  eexists mspec, _. split; [exact Hr|].
  split; [exact Hrd|].
  rewrite Hasps, Hscen, Hc1, Hc2, Hc3, Hc4, Hc5, Hc6, Hc7, Hsc, Hgl.
  by repeat split.
Qed.

Lemma snoc_two {A} (l : list A) a b : (l ++ [a]) ++ [b] = l ++ [a; b].
Proof. by rewrite <- app_assoc. Qed.

(** X24: every return of the entry point past the argument count and type
    registration checks ends with the release of the two place slots, and
    leaves no graph behind when it started without one: a graph that was
    created is destroyed before the return. *)
Theorem returns_release_places_and_graph apb meas_spec_uuid peerchan arg_list
    (s : state G) v s' :
  List.length arg_list = 2%nat ->
  0 <= register_types E ->
  apb_execute E apb meas_spec_uuid peerchan arg_list s = (Val v, s') ->
  (exists tr, st_trace s' = tr ++ [EvFree "g_dom_z_info"; EvFree "g_dom_t_info"]) /\
  (st_graph s = None -> st_graph s' = None).
Proof.
  intros Hlen Hreg H.
  destruct (apb_execute_after_loop _ _ _ _ _ _ _ Hlen Hreg H)
    as (rv & fin & s2 & Hp & Hcases).
  destruct (parse_place_args_frame _ _ _ _ _ Hp) as (_ & Hgr & _).
  prog_proj_in Hgr.
  destruct Hcases as [(-> & Hr) | [(-> & Hn & Hr) | (-> & Hz & Ht)]].
  1,2: unfold place_arg_err, incomplete_log in Hr; run_in Hr;
       inversion Hr; subst; clear Hr; prog_proj;
       (split; [ eexists; apply snoc_two
               | by rewrite Hgr ]).
  destruct (apb_execute_staging _ _ _ _ _ _ _ _ _ Hlen Hreg H Hp Hz Ht)
    as (mrc & mspec & Hms & Hcases).
  destruct Hcases as [[_ Hr] | [(_ & _ & Hr) | (_ & g & Hg & [[_ Hr] | [Hok Hr]])]].
  1,2: unfold graph_err, place_arg_err in Hr; run_in Hr;
       inversion Hr; subst; clear Hr; prog_proj;
       (split; [ eexists; apply snoc_two
               | by rewrite Hgr ]).
  - rewrite ?staged_eq in Hr;
    unfold str_alloc_err, graph_err, place_arg_err in Hr; run_in Hr.
    all: inversion Hr; subst; clear Hr; prog_proj.
    all: split; [ | reflexivity ].
    all: eexists; apply snoc_two.
  - unfold bind at 1 in Hr.
    destruct (evaluate_measurement_spec E _ _ _) as [[rc|c|] s_e];
      [ | by inversion Hr | by inversion Hr ].
    rewrite bind_dlog in Hr. unfold bind at 1 in Hr.
    destruct (execute_sign_send_pipeline E _ _) as [[ret_val|c|] s_p];
      [ | by inversion Hr | by inversion Hr ].
    unfold str_alloc_err, graph_err, place_arg_err in Hr; run_in Hr.
    all: inversion Hr; subst; clear Hr; prog_proj.
    all: split; [ | reflexivity ].
    all: eexists; apply snoc_two.
Qed.

End EntryPointMore.

(** ** The further properties on concrete runs *)

(** X1 with an empty worker registry. *)
Lemma no_capable_asp_witness :
  exists s',
    measure_variable_shim W_ok Mock.file_var (user_measurement_type 7)
      (no_registry []) = (Val (- ENOENT), s') /\
    st_graph s' = st_graph (no_registry []) /\
    st_scen s' = st_scen (no_registry []) /\
    st_trace s' = st_trace (no_registry []) ++
                  [EvLog 0 "Failed to find satisfactory ASP"].
Proof.
  apply (no_capable_asp W_ok Mock.file_var (user_measurement_type 7)
           (no_registry [])).
  - by eexists.
  - reflexivity.
Defined.

(** X2 on a fresh kernel variable. *)
Lemma kernel_direct_runs_worker_witness :
  exists s',
    measure_variable_shim W_ok Mock.kernel_var kernel_measurement_type
      (Mock.measuring None []) = (Val 0, s') /\
    st_graph s' = Some kernel_node /\
    worker_invocations (st_trace s') =
      worker_invocations (st_trace (Mock.measuring None [])) ++
      [EvRunAsp "kernel_msmt_asp" (-1) (-1) 2
         [measurement_graph_get_path W_ok kernel_node;
          Some (str_of_node_id W_ok 0)]].
Proof.
  apply (kernel_direct_runs_worker W_ok Mock.kernel_var kernel_measurement_type
           (Mock.measuring None []) (mk_asp "kernel_msmt_asp") [] 0 0
           kernel_node 0 (Some kernel_node)).
  - reflexivity.
  - reflexivity.
  - reflexivity.
  - reflexivity.
  - by left.
  - reflexivity.
  - reflexivity.
Defined.

(** X3 with an add-or-find step that fails with -1. *)
Lemma add_node_failure_witness :
  exists s',
    measure_variable_shim (W_variant (Some (-1)) 0 0) (Mock.remote_var "@_t")
      (user_measurement_type 7) (Mock.measuring None []) = (Val (-1), s') /\
    st_trace s' = st_trace (Mock.measuring None []) ++
                  [EvLog 1 "Error adding node"] /\
    st_scen s' = st_scen (Mock.measuring None []).
Proof.
  apply (add_node_failure (W_variant (Some (-1)) 0 0) (Mock.remote_var "@_t")
           (user_measurement_type 7) (Mock.measuring None []) [] (-1) 0 []).
  - right. exists (mk_asp "send_execute_tcp_asp"). split; reflexivity.
  - reflexivity.
  - reflexivity.
  - lia.
  - lia.
Defined.

(** X4 on the target's place. *)
Lemma remote_layered_measures_witness :
  exists s',
    measure_variable_shim W_ok (Mock.remote_var "@_t") (user_measurement_type 7)
      (Mock.measuring None []) = (Val 0, s') /\
    st_graph s' = Some remote_node_measured /\
    st_scen s' =
      set_contract (set_contract (Mock.scen0 None) 57005 48879)
        (contract (st_scen (Mock.measuring None [])))
        (size (st_scen (Mock.measuring None []))) /\
    worker_invocations (st_trace s') =
      worker_invocations (st_trace (Mock.measuring None [])) ++
      [EvRunAspBuffers "send_execute_tcp_asp" 10
         (send_execute_argv (st_glob (Mock.measuring None [])) target_place
            (resource (mk_dmra "@_t" "app-list")))] /\
    List.filter (fun e => match e with EvProcessContract _ _ => true | _ => false end)
      (st_trace s') =
    List.filter (fun e => match e with EvProcessContract _ _ => true | _ => false end)
      (st_trace (Mock.measuring None [])) ++ [EvProcessContract 4096 3].
Proof.
  apply (remote_layered_measures W_ok (Mock.remote_var "@_t")
           (user_measurement_type 7) (Mock.measuring None [])
           (mk_asp "send_execute_tcp_asp") [] 0 0 remote_node
           (mk_dmra "@_t" "app-list") target_place 4096 3 0 (mk_blob 8192 2)
           (set_contract (Mock.scen0 None) 57005 48879) (mk_md 8192) 0
           remote_node_measured).
  - reflexivity.
  - reflexivity.
  - reflexivity.
  - reflexivity.
  - by left.
  - reflexivity.
  - reflexivity.
  - reflexivity.
  - reflexivity.
  - reflexivity.
  - reflexivity.
  - reflexivity.
  - lia.
  - reflexivity.
  - reflexivity.
Defined.

(** X5 with a channel client that fails with -1. *)
Lemma channel_failure_witness :
  exists s',
    measure_variable_shim (W_variant None (-1) 0) (Mock.remote_var "@_t")
      (user_measurement_type 7) (Mock.measuring None []) = (Val (-1), s') /\
    st_graph s' = Some remote_node /\
    st_scen s' = st_scen (Mock.measuring None []) /\
    st_trace s' = st_trace (Mock.measuring None []) ++
      [ EvLog 6 "Added node";
        EvLog 4 "Get target channel information for place : %s";
        EvLog 4 "Invoking %s for attester %s";
        EvRunAspBuffers "send_execute_tcp_asp" 10
          (send_execute_argv (st_glob (Mock.measuring None [])) target_place
             (resource (mk_dmra "@_t" "app-list")));
        EvLog 0 "Failed to invoke %s for attester %s";
        EvFree "contract" ].
Proof.
  apply (channel_failure (W_variant None (-1) 0) (Mock.remote_var "@_t")
           (user_measurement_type 7) (Mock.measuring None [])
           (mk_asp "send_execute_tcp_asp") [] 0 0 remote_node
           (mk_dmra "@_t" "app-list") target_place (-1) 4096 3).
  - reflexivity.
  - reflexivity.
  - reflexivity.
  - reflexivity.
  - by left.
  - reflexivity.
  - reflexivity.
  - reflexivity.
  - reflexivity.
  - lia.
Defined.

(** X6 with a channel client that returns 1. *)
Lemma positive_client_status_is_verified_witness :
  exists tr,
    st_trace (snd (measure_variable_shim (W_variant None 1 0) (Mock.remote_var "@_t")
                     (user_measurement_type 7) (Mock.measuring None []))) =
      st_trace (Mock.measuring None []) ++ tr /\
    List.filter (fun e => match e with EvProcessContract _ _ => true | _ => false end)
      tr = [EvProcessContract NULL 0].
Proof.
  apply (positive_client_status_is_verified (W_variant None 1 0)
           (Mock.remote_var "@_t") (user_measurement_type 7)
           (Mock.measuring None []) (mk_asp "send_execute_tcp_asp") [] 0 0
           remote_node (mk_dmra "@_t" "app-list") target_place 1 4096 3
           (fst (measure_variable_shim (W_variant None 1 0) (Mock.remote_var "@_t")
                   (user_measurement_type 7) (Mock.measuring None [])))).
  - reflexivity.
  - reflexivity.
  - reflexivity.
  - reflexivity.
  - by left.
  - reflexivity.
  - reflexivity.
  - reflexivity.
  - reflexivity.
  - reflexivity.
  - reflexivity.
  - lia.
  - apply surjective_pairing.
Defined.

(** X7 with a verifier that fails with -1 after overwriting the scenario's
    contract fields. *)
Lemma verification_failure_witness :
  exists s',
    measure_variable_shim W_verify_fails (Mock.remote_var "@_t")
      (user_measurement_type 7) (Mock.measuring None []) = (Val (-1), s') /\
    st_graph s' = Some remote_node /\
    st_scen s' =
      set_contract (set_contract (Mock.scen0 None) 57005 48879)
        (contract (st_scen (Mock.measuring None [])))
        (size (st_scen (Mock.measuring None []))) /\
    st_trace s' = st_trace (Mock.measuring None []) ++
      [ EvLog 6 "Added node";
        EvLog 4 "Get target channel information for place : %s";
        EvLog 4 "Invoking %s for attester %s";
        EvRunAspBuffers "send_execute_tcp_asp" 10
          (send_execute_argv (st_glob (Mock.measuring None [])) target_place
             (resource (mk_dmra "@_t" "app-list")));
        EvProcessContract 4096 3;
        EvFree "contract";
        EvLog 1 "Error processing contract from attester %s";
        EvFree "blob->buffer" ].
Proof.
  apply (verification_failure W_verify_fails (Mock.remote_var "@_t")
           (user_measurement_type 7) (Mock.measuring None [])
           (mk_asp "send_execute_tcp_asp") [] 0 0 remote_node
           (mk_dmra "@_t" "app-list") target_place 4096 3 (-1) (mk_blob 8192 2)
           (set_contract (Mock.scen0 None) 57005 48879)).
  - reflexivity.
  - reflexivity.
  - reflexivity.
  - reflexivity.
  - by left.
  - reflexivity.
  - reflexivity.
  - reflexivity.
  - reflexivity.
  - reflexivity.
  - reflexivity.
  - reflexivity.
  - lia.
Defined.

(** X8 with an add-or-find step that reports a node the graph does not
    hold. *)
Lemma missing_address_witness :
  exists s',
    measure_variable_shim (W_variant (Some 1) 0 0) (Mock.remote_var "@_t")
      (user_measurement_type 7) (Mock.measuring None []) = (Val (-1), s') /\
    st_graph s' = Some [] /\
    st_scen s' = st_scen (Mock.measuring None []) /\
    st_trace s' = st_trace (Mock.measuring None []) ++
      [ EvLog 6 "Added node";
        EvLog 1 "Failed to get measurement request details: %s";
        EvLog 1 "Unable to get measurement address from the address space" ].
Proof.
  apply (missing_address (W_variant (Some 1) 0 0) (Mock.remote_var "@_t")
           (user_measurement_type 7) (Mock.measuring None [])
           (mk_asp "send_execute_tcp_asp") [] 1 0 []).
  - reflexivity.
  - reflexivity.
  - reflexivity.
  - reflexivity.
  - by right.
  - reflexivity.
  - reflexivity.
Defined.

(** X9 on a request for the target while the target's place is unset. *)
Lemma unconfigured_place_witness :
  exists s',
    measure_variable_shim W_ok (Mock.remote_var "@_t") (user_measurement_type 7)
      (no_target_place []) = (Fault, s') /\
    worker_invocations (st_trace s') =
      worker_invocations (st_trace (no_target_place [])).
Proof.
  apply (unconfigured_place W_ok (Mock.remote_var "@_t") (user_measurement_type 7)
           (no_target_place []) (mk_asp "send_execute_tcp_asp") [] 0 0
           remote_node (mk_dmra "@_t" "app-list")).
  - reflexivity.
  - reflexivity.
  - reflexivity.
  - reflexivity.
  - by left.
  - reflexivity.
  - reflexivity.
  - by right.
  - reflexivity.
Defined.

(** X10 on a file variable, which the selector gives to a userspace
    worker. *)
Lemma userspace_delegates_witness :
  measure_variable_shim W_ok Mock.file_var (user_measurement_type 7)
    (Mock.measuring None []) =
    (Val 0,
     with_glob (set_mcount (st_glob (Mock.measuring None [])) 1)
       (with_graph (Some []) (Mock.measuring None []))).
Proof.
  apply (userspace_delegates W_ok Mock.file_var (user_measurement_type 7)
           (Mock.measuring None []) (mk_asp "procopenfiles") [] 1 0 [] 1).
  - reflexivity.
  - reflexivity.
  - discriminate.
  - discriminate.
  - reflexivity.
Defined.

(** X11 on the remote variable. *)
Lemma dispatcher_never_faults_witness :
  exists rc,
    fst (measure_variable_shim W_ok (Mock.remote_var "@_t")
           (user_measurement_type 7) (Mock.measuring None [])) = Val rc.
Proof.
  apply (dispatcher_never_faults W_ok (Mock.remote_var "@_t")
           (user_measurement_type 7) (Mock.measuring None [])).
  - repeat split; by eexists.
  - reflexivity.
Defined.

(** X12 on the remote variable. *)
Lemma dispatcher_keeps_globals_witness :
  apb_asps (st_glob (snd (measure_variable_shim W_ok (Mock.remote_var "@_t")
     (user_measurement_type 7) (Mock.measuring None [])))) = Mock.all_asps.
Proof.
  exact (proj1 (dispatcher_keeps_globals W_ok (Mock.remote_var "@_t")
                  (user_measurement_type 7) (Mock.measuring None []) _ _
                  (surjective_pairing _))).
Defined.

(** X13 with an empty worker registry. *)
Lemma pipeline_needs_its_inputs_witness :
  exists s',
    execute_sign_send_pipeline W_ok 5 (no_registry []) = (Val (-1), s') /\
    worker_invocations (st_trace s') =
      worker_invocations (st_trace (no_registry [])).
Proof.
  apply (pipeline_needs_its_inputs W_ok 5 (no_registry [])).
  right. left. exists "compress_asp". split.
  - right. by left.
  - reflexivity.
Defined.

(** X14 on a run whose serialize spawn returns 4321: the pipeline returns
    4321, and that spawn is the only invocation. *)
Lemma pipeline_returns_only_before_compress_witness :
  fst (execute_sign_send_pipeline (W_serialize_status 4321) 5
         (Mock.measuring None [])) = Val 4321 /\
  exists tr,
    st_trace (snd (execute_sign_send_pipeline (W_serialize_status 4321) 5
                     (Mock.measuring None []))) =
      st_trace (Mock.measuring None []) ++ tr /\
    exists ser g p fd,
      find_asp (apb_asps (st_glob (Mock.measuring None [])))
        "serialize_graph_asp" = Some ser /\
      st_graph (Mock.measuring None []) = Some g /\
      measurement_graph_get_path (W_serialize_status 4321) g = Some p /\
      fork_and_buffer_async_asp (W_serialize_status 4321) ser [Some p]
        STDIN_FILENO = (4321, fd) /\
      worker_invocations tr =
        [EvForkAsp "serialize_graph_asp" 1 [Some p] STDIN_FILENO].
Proof.
  split; [reflexivity|].
  destruct (pipeline_returns_only_before_compress (W_serialize_status 4321) 5
              (Mock.measuring None []) 4321 _ eq_refl)
    as (tr & Htr & [[Hv _] | [_ Hspawn]]).
  - discriminate Hv.
  - exists tr. split; [exact Htr | exact Hspawn].
Defined.

(** X15 on a run whose send worker returns 3: the process ends with 3. *)
Lemma pipeline_exit_status_witness :
  fst (execute_sign_send_pipeline (W_send_status 3) 5
         (Mock.measuring None [])) = Exit 3 /\
  exists tr,
    st_trace (snd (execute_sign_send_pipeline (W_send_status 3) 5
                     (Mock.measuring None []))) =
      st_trace (Mock.measuring None []) ++ tr /\
    spawn_args "serialize_graph_asp" tr <> [] /\
    spawn_args "compress_asp" tr = [[]] /\
    ran_send tr = true /\
    exists snd fd og,
      find_asp (apb_asps (st_glob (Mock.measuring None []))) "send_asp" =
        Some snd /\
      run_asp (W_send_status 3) snd fd 5 []
        (st_graph (Mock.measuring None [])) = (3, og) /\
      In (EvRunAsp "send_asp" fd 5 0 []) tr.
Proof.
  split; [reflexivity|].
  destruct (pipeline_exit_status (W_send_status 3) 5
              (Mock.measuring None []) 3 _ eq_refl)
    as (tr & Htr & Hser & Hcomp & _ & Hsend).
  destruct (Hsend ltac:(lia)) as [Hran Hrun].
  exists tr. repeat split; assumption.
Defined.

(** X16 on the end-to-end scenario. *)
Lemma pipeline_keeps_scenario_and_globals_witness :
  st_scen (snd (execute_sign_send_pipeline W_ok 5 (Mock.measuring None []))) =
    st_scen (Mock.measuring None []) /\
  st_glob (snd (execute_sign_send_pipeline W_ok 5 (Mock.measuring None []))) =
    st_glob (Mock.measuring None []).
Proof.
  exact (pipeline_keeps_scenario_and_globals W_ok 5 (Mock.measuring None []) _ _
           (surjective_pairing _)).
Defined.

(** X17 on the end-to-end scenario without a partner certificate. *)
Lemma pipeline_chain_plain_witness :
  exists s',
    execute_sign_send_pipeline W_ok 5 (Mock.measuring None []) =
      (Exit (if 0 <? 0 then -1 else 0), s') /\
    worker_invocations (st_trace s') =
      worker_invocations (st_trace (Mock.measuring None [])) ++
      [ EvForkAsp "serialize_graph_asp" 1 [Some "/tmp/graph"] STDIN_FILENO;
        EvForkAsp "compress_asp" 0 [] 1;
        EvForkAsp "create_measurement_contract_asp" 10
          (sign_argv (st_glob (Mock.measuring None [])) "/tmp/work" "0") 2;
        EvRunAsp "send_asp" 3 5 0 [] ] /\
    List.filter (fun e => match e with EvClose _ => true | _ => false end)
      (st_trace s') =
    List.filter (fun e => match e with EvClose _ => true | _ => false end)
      (st_trace (Mock.measuring None [])) ++ [EvClose 3].
Proof.
  apply (pipeline_chain_plain W_ok 5 (Mock.measuring None []) "/tmp/work"
           (mk_asp "serialize_graph_asp") (mk_asp "compress_asp")
           (mk_asp "encrypt_asp") (mk_asp "create_measurement_contract_asp")
           (mk_asp "send_asp") [] "/tmp/graph" 1 2 3 0 (Some [])).
  all: reflexivity.
Defined.

(** X18 on the end-to-end scenario with a partner certificate. *)
Lemma pipeline_chain_encrypted_witness :
  exists s',
    execute_sign_send_pipeline W_ok 5 (Mock.measuring (Some "partner.pem") []) =
      (Exit (if 0 <? 0 then -1 else 0), s') /\
    worker_invocations (st_trace s') =
      worker_invocations (st_trace (Mock.measuring (Some "partner.pem") [])) ++
      [ EvForkAsp "serialize_graph_asp" 1 [Some "/tmp/graph"] STDIN_FILENO;
        EvForkAsp "compress_asp" 0 [] 1;
        EvForkAsp "encrypt_asp" 1 [Some "partner.pem"] 2;
        EvForkAsp "create_measurement_contract_asp" 10
          (sign_argv (st_glob (Mock.measuring (Some "partner.pem") []))
             "/tmp/work" "1") 3;
        EvRunAsp "send_asp" 4 5 0 [] ] /\
    List.filter (fun e => match e with EvClose _ => true | _ => false end)
      (st_trace s') =
    List.filter (fun e => match e with EvClose _ => true | _ => false end)
      (st_trace (Mock.measuring (Some "partner.pem") [])) ++ [EvClose 4].
Proof.
  apply (pipeline_chain_encrypted W_ok 5 (Mock.measuring (Some "partner.pem") [])
           "/tmp/work"
           (mk_asp "serialize_graph_asp") (mk_asp "compress_asp")
           (mk_asp "encrypt_asp") (mk_asp "create_measurement_contract_asp")
           (mk_asp "send_asp") [] "/tmp/graph" "partner.pem" 1 2 3 4 0 (Some [])).
  all: reflexivity.
Defined.

(** X19 on the Measuring-stage globals, where both places are set. *)
Lemma place_slots_are_written_once_witness :
  fst (parse_place_args W_ok two_places 0 (Mock.measuring None [])) =
    Val (0, true) /\
  st_glob (snd (parse_place_args W_ok two_places 0 (Mock.measuring None []))) =
    st_glob (Mock.measuring None []) /\
  place_lookups
    (st_trace (snd (parse_place_args W_ok two_places 0 (Mock.measuring None [])))) =
    place_lookups (st_trace (Mock.measuring None [])).
Proof.
  apply (proj2 (proj2 (place_slots_are_written_once W_ok two_places 0
                         (Mock.measuring None []) _ _ (surjective_pairing _)))).
  - by eexists.
  - by eexists.
Defined.

(** X20 on a call that names the first place and a stranger. *)
Lemma missing_place_ends_the_run_witness :
  exists v tr,
    fst (apb_execute W_ok Mock.the_apb "spec" 5
           [mk_kv "@_0" "dom0"; mk_kv "@_x" "target"] (Mock.start None)) = Val v /\
    st_trace (snd (apb_execute W_ok Mock.the_apb "spec" 5
           [mk_kv "@_0" "dom0"; mk_kv "@_x" "target"] (Mock.start None))) =
      st_trace (Mock.start None) ++ tr /\
    worker_invocations tr = [] /\
    ~ In measuring_log tr /\
    ((v < 0 /\ In unable_log tr) \/ (0 <= v /\ In incomplete_log tr)).
Proof.
  apply (missing_place_ends_the_run W_ok Mock.the_apb "spec" 5
           [mk_kv "@_0" "dom0"; mk_kv "@_x" "target"] (Mock.start None)).
  - reflexivity.
  - simpl. lia.
  - right. split; [reflexivity|].
    intros kv [<-|[<-|[]]]; discriminate.
  - apply surjective_pairing.
Defined.

(** X21 on a first argument that names an unknown place. *)
Lemma lookup_failure_ends_the_run_witness :
  exists s',
    apb_execute W_ok Mock.the_apb "spec" 5
      [mk_kv "@_0" "nowhere"; mk_kv "@_t" "target"] (Mock.start None) =
      (Val (-1), s') /\
    st_trace s' = st_trace (Mock.start None) ++
      [ EvLog 4 "Hello from the LAYERED_ATTESTATION_APB";
        EvPlaceLookup (value (mk_kv "@_0" "nowhere"));
        EvLog 1 "Unable to get place information for id: %s";
        EvFree "g_dom_z_info"; EvFree "g_dom_t_info" ].
Proof.
  apply (lookup_failure_ends_the_run W_ok Mock.the_apb "spec" 5
           (mk_kv "@_0" "nowhere") (mk_kv "@_t" "target") (Mock.start None)
           (-1) None).
  - simpl. lia.
  - left. split; reflexivity.
  - reflexivity.
  - lia.
Defined.

(** X22 on a run in which the copy of the nonce fails. *)
Lemma staging_failure_reports_success_witness :
  exists s',
    apb_execute W_no_nonce_copy Mock.the_apb "spec" 5
      [mk_kv "@_0" "dom0"; mk_kv "@_t" "target"] (Mock.start None) =
      (Val 0, s') /\
    st_graph s' = None /\
    st_trace s' = st_trace (Mock.start None) ++
      [ EvLog 4 "Hello from the LAYERED_ATTESTATION_APB";
        EvPlaceLookup "dom0"; EvPlaceLookup "target";
        EvLog 0 "Unable to allocate buffer(s) for scenario information";
        EvFree "g_certfile"; EvFree "g_keyfile"; EvFree "g_keypass";
        EvFree "g_nonce"; EvFree "g_tpmpass"; EvFree "g_akctx";
        EvFree "g_sign_tpm"; EvFree "graph"; EvFree "mspec";
        EvFree "g_dom_z_info"; EvFree "g_dom_t_info" ].
Proof.
  apply (staging_failure_reports_success W_no_nonce_copy Mock.the_apb "spec" 5
           "dom0" "target" (Mock.start None) 0 (mk_place "127.0.0.1" "9000")
           0 target_place (Some (mk_mspec 1)) [] "g_nonce").
  - simpl. lia.
  - reflexivity.
  - reflexivity.
  - reflexivity.
  - lia.
  - reflexivity.
  - lia.
  - reflexivity.
  - reflexivity.
  - simpl. auto.
  - reflexivity.
Defined.

(** X23 on the end-to-end scenario. *)
Lemma engine_starts_ready_witness :
  exists mspec s_m,
    (fst (apb_execute W_ok Mock.the_apb "spec" 5 two_places (Mock.start None)),
     snd (apb_execute W_ok Mock.the_apb "spec" 5 two_places (Mock.start None))) =
      (evaluate_measurement_spec W_ok mspec (measure_variable_shim W_ok);;
       dlog 4 "Entering execute_measurement_and_asp_pipeline";;
       ret_val <- execute_sign_send_pipeline W_ok 5;;
       str_alloc_err W_ok ret_val) s_m /\
    ready_for_dispatch W_ok s_m /\
    apb_asps (st_glob s_m) = asps Mock.the_apb /\
    st_scen s_m = st_scen (Mock.start None) /\
    g_certfile (st_glob s_m) =
      Some (default "" (certfile (st_scen (Mock.start None)))) /\
    g_keyfile (st_glob s_m) =
      Some (default "" (keyfile (st_scen (Mock.start None)))) /\
    g_keypass (st_glob s_m) =
      Some (default "" (keypass (st_scen (Mock.start None)))) /\
    g_nonce (st_glob s_m) =
      Some (default "" (nonce (st_scen (Mock.start None)))) /\
    g_tpmpass (st_glob s_m) =
      Some (default "" (tpmpass (st_scen (Mock.start None)))) /\
    g_akctx (st_glob s_m) =
      Some (default "" (akctx (st_scen (Mock.start None)))) /\
    g_sign_tpm (st_glob s_m) =
      Some (if sign_tpm (st_scen (Mock.start None)) =? 0 then "0" else "1").
Proof.
  apply (engine_starts_ready W_ok Mock.the_apb "spec" 5 two_places
           (Mock.start None)).
  - simpl. tauto.
  - apply surjective_pairing.
  - vm_compute. unfold measuring_log. tauto.
Defined.

(** X24 on a call that gives the first place twice. *)
Lemma returns_release_places_and_graph_witness :
  (exists tr,
      st_trace (snd (apb_execute W_ok Mock.the_apb "spec" 5
                       [mk_kv "@_0" "dom0"; mk_kv "@_0" "dom0-alt"]
                       (Mock.start None))) =
      tr ++ [EvFree "g_dom_z_info"; EvFree "g_dom_t_info"]) /\
  (st_graph (Mock.start None) = None ->
   st_graph (snd (apb_execute W_ok Mock.the_apb "spec" 5
                    [mk_kv "@_0" "dom0"; mk_kv "@_0" "dom0-alt"]
                    (Mock.start None))) = None).
Proof.
  apply (returns_release_places_and_graph W_ok Mock.the_apb "spec" 5
           [mk_kv "@_0" "dom0"; mk_kv "@_0" "dom0-alt"] (Mock.start None) 0).
  - reflexivity.
  - simpl. lia.
  - reflexivity.
Defined.

(** ** The raw6 netstat collector *)

Section NetstatWorker.
Import Netstat.
Context (W : World).

(** *** [strtok] *)

Lemma append_cons c (s t : string) :
  String.append (String c s) t = String c (String.append s t).
Proof. reflexivity. Qed.
Lemma append_nil (s : string) : String.append "" s = s.
Proof. reflexivity. Qed.

Lemma is_delim_space_colon c :
  is_delim " :" c = is_delim " " c || is_delim ":" c.
Proof. unfold is_delim. cbn. by rewrite !orb_false_r. Qed.

Lemma no_delims_space s : no_delims " :" s = true -> no_delims " " s = true.
Proof.
  unfold no_delims. induction s as [|c s IH]; cbn [list_ascii_of_string forallb];
    [done|].
  rewrite is_delim_space_colon. intros H. apply andb_true_iff in H as [Hc Hs].
  apply negb_true_iff, orb_false_iff in Hc as [Hc _]. rewrite Hc. by apply IH.
Qed.

Lemma is_field_inv s :
  is_field s = true ->
  s <> "" /\ no_delims " :" s = true /\ no_delims " " s = true.
Proof.
  unfold is_field. intros H. apply andb_true_iff in H as [Hne Hno].
  split; [|split; [done | by apply no_delims_space]].
  intros ->. discriminate Hne.
Qed.

Lemma take_token_field d f c rest :
  no_delims d f = true -> is_delim d c = true ->
  take_token d (f ++ String c rest) = (f, rest).
Proof.
  intros Hf Hc. unfold no_delims in Hf.
  induction f as [|a f IH]; rewrite ?append_cons, ?append_nil;
    cbn [take_token].
  - by rewrite Hc.
  - cbn [list_ascii_of_string forallb] in Hf.
    apply andb_true_iff in Hf as [Ha Hf]. apply negb_true_iff in Ha.
    rewrite Ha. by rewrite (IH Hf).
Qed.

(** A token followed by a delimiter. *)
Lemma strtok_tok d f c rest :
  f <> "" -> no_delims d f = true -> is_delim d c = true ->
  strtok d (f ++ String c rest) = (Some f, rest).
Proof.
  intros Hne Hf Hc. destruct f as [|a f]; [done|].
  pose proof (take_token_field d (String a f) c rest Hf Hc) as Ht.
  unfold no_delims in Hf. cbn [list_ascii_of_string forallb] in Hf.
  apply andb_true_iff in Hf as [Ha _]. apply negb_true_iff in Ha.
  unfold strtok. rewrite append_cons in *. cbn [skip_delims]. rewrite Ha.
  by rewrite Ht.
Qed.

(** Delimiters in front of a token are skipped. *)
Lemma strtok_skip d c s :
  is_delim d c = true -> strtok d (String c s) = strtok d s.
Proof. intros Hc. unfold strtok. cbn [skip_delims]. by rewrite Hc. Qed.

Lemma strtok_pad d p s :
  only_delims d p = true -> strtok d (p ++ s) = strtok d s.
Proof.
  unfold only_delims.
  induction p as [|c p IH]; rewrite ?append_cons, ?append_nil; [done|].
  cbn [list_ascii_of_string forallb]. intros H.
  apply andb_true_iff in H as [Hc Hp]. rewrite strtok_skip by done. by apply IH.
Qed.

Lemma skip_delims_keeps d0 d s :
  no_delims d0 s = true -> no_delims d0 (skip_delims d s) = true.
Proof.
  unfold no_delims. induction s as [|c s IH]; cbn [skip_delims]; [done|].
  intros H. destruct (is_delim d c); [|done].
  cbn [list_ascii_of_string forallb] in H.
  apply andb_true_iff in H as [_ H]. by apply IH.
Qed.

Lemma take_token_keeps d0 d s :
  no_delims d0 s = true -> no_delims d0 (snd (take_token d s)) = true.
Proof.
  unfold no_delims. induction s as [|c s IH]; cbn [take_token]; [done|].
  cbn [list_ascii_of_string forallb]. intros H.
  apply andb_true_iff in H as [_ H].
  destruct (is_delim d c); [done|].
  specialize (IH H). by destruct (take_token d s).
Qed.

(** What [strtok] leaves for the next call has no space when the string
    had none. *)
Lemma strtok_keeps d0 d s :
  no_delims d0 s = true -> no_delims d0 (snd (strtok d s)) = true.
Proof.
  intros H. unfold strtok.
  pose proof (skip_delims_keeps d0 d s H) as Hs.
  destruct (skip_delims d s) as [|c r]; [done|].
  pose proof (take_token_keeps d0 d _ Hs) as Ht.
  by destruct (take_token d (String c r)).
Qed.

Lemma take_token_all d s :
  no_delims d s = true -> take_token d s = (s, "").
Proof.
  unfold no_delims. induction s as [|c s IH]; cbn [take_token]; [done|].
  cbn [list_ascii_of_string forallb]. intros H.
  apply andb_true_iff in H as [Hc H]. apply negb_true_iff in Hc.
  rewrite Hc. by rewrite (IH H).
Qed.

(** Without a delimiter in it the whole string is the one token. *)
Lemma strtok_all d s :
  no_delims d s = true ->
  strtok d s = (if String.eqb s "" then None else Some s, "").
Proof.
  intros H. unfold strtok. destruct s as [|c s]; [done|].
  pose proof (take_token_all d _ H) as Ht.
  unfold no_delims in H. cbn [list_ascii_of_string forallb] in H.
  apply andb_true_iff in H as [Hc _]. apply negb_true_iff in Hc.
  cbn [skip_delims]. rewrite Hc. by rewrite Ht.
Qed.

(** *** [chunk_line_data] *)

Lemma string_take_length n s : (String.length (string_take n s) <= n)%nat.
Proof.
  revert s. induction n as [|n IH]; intros [|c s]; cbn; try lia.
  specialize (IH s). lia.
Qed.

(** What a returned line is made of. *)
Lemma chunk_line_data_shape line l :
  chunk_line_data W line = Val (Some l) ->
  exists a1 p1 a2 p2 t,
    local_addr l = print_endpoint a1 p1 /\
    rem_addr l = print_endpoint a2 p2 /\
    State l = string_take 16 t.
Proof.
  unfold chunk_line_data. intros H.
  destruct (alloc_ok W "ret"); cbn [negb] in H; [|discriminate].
  repeat match type of H with
         | context [strtok ?d ?s] =>
             let t := fresh "t" in let sv := fresh "sv" in
             destruct (strtok d s) as [t sv]
         | context [used ?t _] => destruct t; cbn [used] in H; [|discriminate]
         | context [address_text ?t ?ip] =>
             let a := fresh "a" in let ip' := fresh "ip" in
             destruct (address_text t ip) as [[a ip']|]; [|discriminate]
         end.
  inversion H; subst l; clear H. cbn [local_addr rem_addr State].
  by eexists _, _, _, _, _.
Qed.

Lemma chunk_line_data_no_exit line c : chunk_line_data W line <> Exit c.
Proof.
  unfold chunk_line_data.
  destruct (alloc_ok W "ret"); cbn [negb]; [|discriminate].
  repeat match goal with
         | |- context [strtok ?d ?s] =>
             let t := fresh "t" in let sv := fresh "sv" in
             destruct (strtok d s) as [t sv]
         | |- context [used ?t _] => destruct t; cbn [used]; [|discriminate]
         | |- context [address_text ?t ?ip] =>
             let a := fresh "a" in let ip' := fresh "ip" in
             destruct (address_text t ip) as [[a ip']|]; [|discriminate]
         end.
  discriminate.
Qed.

(** X25: the fields a line is cut into.  For a line as the kernel prints
    it (slot, local address and port, remote address and port, state, the
    two queues, timer and expiry, retransmits, uid, timeout, inode, each a
    non-empty word, uid and timeout padded with spaces), the local endpoint
    is printed from the second and third word, the remote endpoint from the
    fourth and fifth, the state is the sixth word cut to 16 bytes, the uid
    is the number in the twelfth word and the inode the number in the
    fourteenth; the words between them are skipped. *)
Theorem chunk_line_data_fields (f : raw6_fields) a1 ip1 a2 ip2 :
  well_formed f = true ->
  alloc_ok W "ret" = true ->
  address_text W (f_local f)
    (if alloc_ok W "ip" then Some [None; None; None; None] else None) =
    Some (a1, ip1) ->
  address_text W (f_rem f) ip1 = Some (a2, ip2) ->
  chunk_line_data W (render f) =
    Val (Some {| local_addr := print_endpoint a1 (strtol16 W (f_lport f));
                 rem_addr := print_endpoint a2 (strtol16 W (f_rport f));
                 State := string_take 16 (f_state f);
                 uid := atoi W (f_uid f);
                 inode := atoi W (f_inode f) |}).
Proof.
  intros Hwf Hret Ha1 Ha2. unfold well_formed in Hwf.
  repeat match type of Hwf with
         | _ && _ = true => apply andb_true_iff in Hwf as [Hwf ?]
         end.
  repeat match goal with
         | H : is_field _ = true |- _ =>
             apply is_field_inv in H as (? & ? & ?)
         end.
  assert (f_sl f <> "") by (intros Heq; rewrite Heq in Hwf; discriminate Hwf).
  unfold chunk_line_data, render. rewrite Hret. cbn [negb].
  rewrite ?append_cons, ?append_nil.
  rewrite strtok_tok by done.
  rewrite strtok_skip by done. rewrite strtok_tok by done.
  cbn [used]. rewrite Ha1.
  rewrite strtok_tok by done. cbn [used].
  rewrite strtok_tok by done. cbn [used]. rewrite Ha2.
  rewrite strtok_tok by done. cbn [used].
  rewrite strtok_tok by done. cbn [used].
  rewrite strtok_tok by done.
  rewrite strtok_tok by done.
  rewrite strtok_tok by done.
  rewrite strtok_tok by done.
  rewrite strtok_tok by done.
  rewrite strtok_pad by done. rewrite strtok_tok by done. cbn [used].
  rewrite strtok_pad by done. rewrite strtok_tok by done.
  rewrite strtok_tok by done. cbn [used].
  reflexivity.
Qed.

(** X26: whatever the line, a record that is returned holds endpoint texts
    of at most 51 bytes and a state of at most 16 bytes. *)
Theorem chunk_line_data_bounds line l :
  chunk_line_data W line = Val (Some l) ->
  (String.length (local_addr l) <= 51)%nat /\
  (String.length (rem_addr l) <= 51)%nat /\
  (String.length (State l) <= 16)%nat.
Proof.
  intros H.
  destruct (chunk_line_data_shape _ _ H) as (a1 & p1 & a2 & p2 & t & -> & -> & ->).
  unfold print_endpoint. repeat split; apply string_take_length.
Qed.

(** X27: no token is tested before it is used.  On a line without a space
    (an empty line, a line of one word) the function runs out of tokens
    before the remote address and reads through a null pointer. *)
Theorem line_without_space_faults line :
  alloc_ok W "ret" = true ->
  no_delims " " line = true ->
  chunk_line_data W line = Fault.
Proof.
  intros Hret Hline. unfold chunk_line_data. rewrite Hret. cbn [negb].
  pose proof (strtok_keeps " " ":" line Hline) as H1.
  destruct (strtok ":" line) as [t1 sv1]. cbn [snd] in H1.
  pose proof (strtok_keeps " " " :" sv1 H1) as H2.
  destruct (strtok " :" sv1) as [[t2|] sv2]; cbn [used snd] in *; [|done].
  destruct (address_text W t2 _) as [[a1 ip1]|]; [|done].
  rewrite (strtok_all " " sv2 H2).
  destruct (String.eqb sv2 ""); cbn [used]; [done|].
  reflexivity.
Qed.

(** *** [asp_measure] *)

Lemma read_lines_trace data_ok lines :
  forall acc tr r,
    read_lines W data_ok lines acc = (tr, r) ->
    Forall (eq AFreeLine) tr /\ (forall c, r <> Exit c).
Proof.
  induction lines as [|line rest IH]; intros acc tr r H; cbn [read_lines] in H.
  - inversion H. split; [constructor | discriminate].
  - pose proof (chunk_line_data_no_exit line) as Hne.
    destruct (chunk_line_data W line) as [nl|c|].
    + destruct data_ok.
      * unfold say in H.
        destruct (read_lines W true rest (nl :: acc)) as [tr' r'] eqn:Hr.
        cbn [fst snd] in H. inversion H; subst tr r; clear H.
        destruct (IH _ _ _ Hr) as [Hf Hx]. split; [by constructor | done].
      * inversion H. split; [constructor | discriminate].
    + by destruct (Hne c).
    + inversion H. split; [constructor | discriminate].
Qed.

Lemma read_lines_ok lines :
  forall parsed acc,
    List.map (chunk_line_data W) lines = List.map Val parsed ->
    read_lines W true lines acc =
      (repeat AFreeLine (List.length lines), Val (rev parsed ++ acc)).
Proof.
  induction lines as [|line rest IH]; intros parsed acc H;
    destruct parsed as [|nl parsed]; try discriminate H; cbn [read_lines].
  - reflexivity.
  - cbn [List.map] in H. inversion H as [[Hl Hrest]]. rewrite Hl.
    unfold say. rewrite (IH parsed (nl :: acc) Hrest).
    cbn [fst snd List.length repeat rev]. by rewrite <- app_assoc.
Qed.

Lemma count_event_app p (a b : list aevent) :
  count_event p (a ++ b) = (count_event p a + count_event p b)%nat.
Proof. unfold count_event. by rewrite List.filter_app, List.length_app. Qed.

Lemma count_event_free_lines p tr :
  p AFreeLine = false ->
  Forall (eq AFreeLine) tr ->
  count_event p tr = 0%nat.
Proof.
  intros Hp Hf. unfold count_event.
  induction Hf as [|e tr <- _ IH]; [done|].
  cbn [List.filter]. by rewrite Hp.
Qed.

Lemma last_snoc_event (tr : list aevent) e : last (tr ++ [e]) = Some e.
Proof. apply last_snoc. Qed.

(** Every run of the worker, by its result. *)
Lemma asp_measure_runs argv tr r :
  asp_measure W argv = (tr, r) ->
  match r with
  | Val v =>
      (v = - EINVAL /\ count_event is_unmap tr = 0%nat /\
       last tr = Some usage_log /\
       ((List.length argv < 3)%nat \/
        exists a0 p n rest, argv = a0 :: p :: n :: rest /\
          (node_id_of_str W n = None \/ map_measurement_graph W p <> 0))) \/
      ((v = -1 \/ v = 0) /\
       (exists a0 p n rest nid, argv = a0 :: p :: n :: rest /\
          node_id_of_str W n = Some nid /\ map_measurement_graph W p = 0) /\
       count_event is_map tr = 1%nat /\
       count_event is_unmap tr = 1%nat /\ last tr = Some AUnmap /\
       count_event is_fclose tr = count_event is_fopen tr /\
       (In AAllocAddress tr ->
        (existsb releases_address tr = true <->
         exists st, stat W proc_file = Some st /\
                    0 <= st_size st <= SIZE_MAX W)))
  | Exit _ => False
  | Fault => count_event is_unmap tr = 0%nat /\
             count_event is_fclose tr = 0%nat
  end.
Proof.
  unfold asp_measure. intros H.
  destruct argv as [|a0 [|p [|n rest]]].
  1,2,3: inversion H; subst; left; cbn; repeat split; auto; left; lia.
  destruct (node_id_of_str W n) as [nid|] eqn:Hn.
  2: { inversion H; subst; left; cbn. repeat split; auto.
       right. eexists _, _, _, _. split; [reflexivity|]. by left. }
  unfold say in H. cbn [fst snd] in H.
  destruct (map_measurement_graph W p =? 0) eqn:Hm; cbn [negb] in H.
  2: { inversion H; subst; left; cbn. repeat split; auto.
       right. eexists _, _, _, _. split; [reflexivity|]. right. lia. }
  apply Z.eqb_eq in Hm.
  assert (Hargs : exists a0' p' n' rest' nid',
             a0 :: p :: n :: rest = a0' :: p' :: n' :: rest' /\
             node_id_of_str W n' = Some nid' /\ map_measurement_graph W p' = 0)
    by (by eexists _, _, _, _, _).
  destruct (alloc_address W); cbn [negb] in H.
  2: { inversion H; subst; right; cbn. repeat split; auto.
       all: intros; exfalso; intuition discriminate. }
  destruct (stat W proc_file) as [st|] eqn:Hst.
  2: { inversion H; subst; right; cbn. repeat split; auto.
       - discriminate.
       - intros (st & Hx & _). discriminate. }
  destruct ((st_size st <? 0) || (SIZE_MAX W <? st_size st)) eqn:Hsz.
  { inversion H; subst; right; cbn. repeat split; auto.
    - discriminate.
    - intros (st' & Hx & Hr). inversion Hx; subst st'.
      apply orb_true_iff in Hsz as [Hsz|Hsz]; lia. }
  apply orb_false_iff in Hsz as [Hsz1 Hsz2].
  assert (Hrange : exists st', Some st = Some st' /\
                     0 <= st_size st' <= SIZE_MAX W)
    by (exists st; split; [done|lia]).
  destruct (alloc_ok W "fullpath_file_name"); cbn [negb] in H.
  2: { inversion H; subst; right; cbn. by repeat split; auto. }
  destruct (new_measurement_variable W _); cbn [negb] in H.
  2: { inversion H; subst; right; cbn. by repeat split; auto. }
  destruct (fopen W proc_file) as [lines|].
  2: { inversion H; subst; right; cbn. by repeat split; auto. }
  destruct lines as [|hdr lines].
  { inversion H; subst; right; cbn. by repeat split; auto. }
  destruct (read_lines W (alloc_ok W "data") lines []) as [trl rl] eqn:Hrl.
  destruct (read_lines_trace _ _ _ _ _ Hrl) as [Hf Hx].
  destruct rl as [l|c|]; [ | by destruct (Hx c) | ].
  - inversion H; subst tr r; clear H. right.
    split; [by right|]. split; [exact Hargs|].
    change (?a :: ?b :: ?c :: ?d :: trl ++ ?l)
      with ([a; b; c; d] ++ trl ++ l).
    rewrite !count_event_app.
    rewrite !(count_event_free_lines _ trl) by done.
    split; [reflexivity|]. split; [reflexivity|].
    split.
    { rewrite !app_assoc.
      change [AAddRawData nid (if alloc_ok W "data" then Some l else None);
              AFreeData; AFreeVariable; AFclose; AUnmap]
        with ([AAddRawData nid (if alloc_ok W "data" then Some l else None);
               AFreeData; AFreeVariable; AFclose] ++ [AUnmap]).
      rewrite app_assoc. apply last_snoc_event. }
    split; [reflexivity|].
    intros _. split; [intros _; exact Hrange|]. intros _.
    rewrite !existsb_app.
    apply orb_true_iff; right. apply orb_true_iff; right. reflexivity.
  - inversion H; subst tr r; clear H.
    rewrite app_nil_r.
    change (?a :: ?b :: ?c :: ?d :: trl) with ([a; b; c; d] ++ trl).
    rewrite !count_event_app.
    rewrite !(count_event_free_lines _ trl) by done. done.
Qed.

(** X28: the worker returns -EINVAL exactly when it has fewer than three
    arguments, or the third is not a node id, or the graph named by the
    second cannot be mapped; it has then logged the usage line last and
    unmapped nothing. *)
Theorem usage_error argv :
  (snd (asp_measure W argv) = Val (- EINVAL) <->
   ((List.length argv < 3)%nat \/
    exists a0 p n rest, argv = a0 :: p :: n :: rest /\
      (node_id_of_str W n = None \/ map_measurement_graph W p <> 0))) /\
  (snd (asp_measure W argv) = Val (- EINVAL) ->
   count_event is_unmap (fst (asp_measure W argv)) = 0%nat /\
   last (fst (asp_measure W argv)) = Some usage_log).
Proof.
  destruct (asp_measure W argv) as [tr r] eqn:H. cbn [fst snd].
  pose proof (asp_measure_runs _ _ _ H) as Hr.
  split; [split|].
  - intros ->. destruct Hr as [(_ & _ & _ & Hu) | ([Hv|Hv] & _)];
      [done | discriminate Hv | discriminate Hv].
  - intros Hu. destruct r as [v|c|].
    + destruct Hr as [(-> & _) | (_ & (a0 & p & n & rest & nid & -> & Hn & Hm) & _)];
        [done|].
      exfalso. destruct Hu as [Hu | (? & ? & ? & ? & Heq & [Hx|Hx])].
      * cbn in Hu. lia.
      * inversion Heq; subst. congruence.
      * inversion Heq; subst. congruence.
    + destruct Hr.
    + exfalso. unfold asp_measure in H.
      destruct Hu as [Hu | (a0 & p & n & rest & -> & [Hx|Hx])].
      * destruct argv as [|? [|? [|? ?]]]; try discriminate H. cbn in Hu. lia.
      * rewrite Hx in H. discriminate H.
      * destruct (node_id_of_str W n); [|discriminate H].
        apply Z.eqb_neq in Hx. unfold say in H. rewrite Hx in H.
        discriminate H.
  - intros ->. destruct Hr as [(_ & Hc & Hl & _) | ([Hv|Hv] & _)];
      [done | discriminate Hv | discriminate Hv].
Qed.

(** X29: cleanup on return.  Every other return is -1 or 0, after exactly
    one map of the graph and exactly one unmap, the unmap being the last
    thing done; the file is closed as often as it was opened; and the file
    address that was allocated is released (by itself or with the variable
    that holds it) exactly when [stat] succeeded with a size that fits: the
    two returns after a failed or unrepresentable [stat] leave it
    allocated. *)
Theorem cleanup_on_return argv tr v :
  asp_measure W argv = (tr, Val v) ->
  v <> - EINVAL ->
  (v = -1 \/ v = 0) /\
  count_event is_map tr = 1%nat /\
  count_event is_unmap tr = 1%nat /\ last tr = Some AUnmap /\
  count_event is_fclose tr = count_event is_fopen tr /\
  (In AAllocAddress tr ->
   (existsb releases_address tr = true <->
    exists st, stat W proc_file = Some st /\ 0 <= st_size st <= SIZE_MAX W)).
Proof.
  intros H Hv. pose proof (asp_measure_runs _ _ _ H) as Hr. cbn in Hr.
  destruct Hr as [(-> & _) | (Hv' & _ & Hrest)]; [done|].
  by split.
Qed.

(** X30: a run in which every step succeeds returns 0 and attaches one
    list to the node named by the third argument: the lines after the
    header, each as [chunk_line_data] cut it, in the reverse of their order
    in the file; each of those lines is freed once. *)
Theorem lines_attached_in_reverse a0 p n rest nid st hdr lines parsed :
  node_id_of_str W n = Some nid ->
  map_measurement_graph W p = 0 ->
  alloc_address W = true ->
  stat W proc_file = Some st ->
  0 <= st_size st <= SIZE_MAX W ->
  alloc_ok W "fullpath_file_name" = true ->
  new_measurement_variable W
    {| device_major := major W (st_dev st);
       device_minor := minor W (st_dev st);
       file_size := st_size st;
       node := st_ino st;
       fullpath_file_name := proc_file |} = true ->
  fopen W proc_file = Some (hdr :: lines) ->
  alloc_ok W "data" = true ->
  List.map (chunk_line_data W) lines = List.map Val parsed ->
  snd (asp_measure W (a0 :: p :: n :: rest)) = Val 0 /\
  attached (fst (asp_measure W (a0 :: p :: n :: rest))) =
    [(nid, Some (rev parsed))] /\
  count_event (fun e => match e with AFreeLine => true | _ => false end)
    (fst (asp_measure W (a0 :: p :: n :: rest))) = List.length lines.
Proof.
  intros Hn Hm Ha Hst Hsz Hdup Hvar Hfo Hdata Hlines.
  unfold asp_measure. rewrite Hn. unfold say. cbn [fst snd].
  rewrite Hm. cbn [Z.eqb negb]. rewrite Ha. cbn [negb]. rewrite Hst.
  assert ((st_size st <? 0) || (SIZE_MAX W <? st_size st) = false) as ->
    by (apply orb_false_iff; lia).
  rewrite Hdup. cbn [negb]. rewrite Hvar. cbn [negb]. rewrite Hfo, Hdata.
  rewrite (read_lines_ok lines parsed [] Hlines). rewrite app_nil_r.
  cbn [fst snd]. split; [reflexivity|].
  unfold attached, count_event. cbn [flat_map List.filter app].
  rewrite flat_map_app, List.filter_app, List.length_app.
  cbn [flat_map List.filter List.length app].
  assert (flat_map (fun e => match e with
                             | AAddRawData n0 l => [(n0, l)]
                             | _ => []
                             end) (repeat AFreeLine (List.length lines)) = [])
    as -> by (induction (List.length lines); cbn; auto).
  split; [reflexivity|].
  assert (List.filter (fun e => match e with AFreeLine => true | _ => false end)
            (repeat AFreeLine (List.length lines)) =
          repeat AFreeLine (List.length lines))
    as -> by (induction (List.length lines); cbn; congruence).
  rewrite repeat_length. lia.
Qed.

End NetstatWorker.

(** ** The collector on concrete runs *)

(** X25 on a line for a socket bound to the unspecified address. *)
Lemma chunk_line_data_fields_witness :
  Netstat.chunk_line_data Netstat.w_ok (Netstat.render Netstat.fields_a) =
    Val (Some Netstat.parsed_a).
Proof.
  exact (chunk_line_data_fields Netstat.w_ok Netstat.fields_a
           "::1" (Some [None; None; None; None])
           "::1" (Some [None; None; None; None])
           eq_refl eq_refl eq_refl eq_refl).
Defined.

(** X26 on a line whose local port is 0x8001. *)
Lemma chunk_line_data_bounds_witness :
  (String.length (Netstat.local_addr Netstat.parsed_b) <= 51)%nat /\
  (String.length (Netstat.rem_addr Netstat.parsed_b) <= 51)%nat /\
  (String.length (Netstat.State Netstat.parsed_b) <= 16)%nat.
Proof.
  exact (chunk_line_data_bounds Netstat.w_ok Netstat.line_b Netstat.parsed_b
           eq_refl).
Defined.

(** X27 on a line that is one word. *)
Lemma line_without_space_faults_witness :
  Netstat.chunk_line_data Netstat.w_ok "58:0000:003A" = Fault.
Proof.
  apply (line_without_space_faults Netstat.w_ok "58:0000:003A").
  - reflexivity.
  - reflexivity.
Defined.

(** X28 on a call without a node id. *)
Lemma usage_error_witness :
  snd (Netstat.asp_measure Netstat.w_ok ["netstatraw6"; "/tmp/graph"]) =
    Val (- EINVAL).
Proof.
  apply (proj1 (usage_error Netstat.w_ok ["netstatraw6"; "/tmp/graph"])).
  left. simpl. lia.
Defined.

(** X29 on a run in which [stat] fails: the address stays allocated. *)
Lemma cleanup_on_return_witness :
  (-1 = -1 \/ -1 = 0) /\
  Netstat.count_event Netstat.is_map
    [ Netstat.AMap "/tmp/graph"; Netstat.AAllocAddress;
      Netstat.ALogError "Failed to stat() /proc/net/raw6"; Netstat.AUnmap ] = 1%nat /\
  Netstat.count_event Netstat.is_unmap
    [ Netstat.AMap "/tmp/graph"; Netstat.AAllocAddress;
      Netstat.ALogError "Failed to stat() /proc/net/raw6"; Netstat.AUnmap ] = 1%nat /\
  last [ Netstat.AMap "/tmp/graph"; Netstat.AAllocAddress;
         Netstat.ALogError "Failed to stat() /proc/net/raw6"; Netstat.AUnmap ] =
    Some Netstat.AUnmap /\
  Netstat.count_event Netstat.is_fclose
    [ Netstat.AMap "/tmp/graph"; Netstat.AAllocAddress;
      Netstat.ALogError "Failed to stat() /proc/net/raw6"; Netstat.AUnmap ] =
  Netstat.count_event Netstat.is_fopen
    [ Netstat.AMap "/tmp/graph"; Netstat.AAllocAddress;
      Netstat.ALogError "Failed to stat() /proc/net/raw6"; Netstat.AUnmap ] /\
  (In Netstat.AAllocAddress
     [ Netstat.AMap "/tmp/graph"; Netstat.AAllocAddress;
       Netstat.ALogError "Failed to stat() /proc/net/raw6"; Netstat.AUnmap ] ->
   (existsb Netstat.releases_address
      [ Netstat.AMap "/tmp/graph"; Netstat.AAllocAddress;
        Netstat.ALogError "Failed to stat() /proc/net/raw6"; Netstat.AUnmap ] = true <->
    exists st, Netstat.stat Netstat.w_no_stat Netstat.proc_file = Some st /\
               0 <= Netstat.st_size st <= Netstat.SIZE_MAX Netstat.w_no_stat)).
Proof.
  apply (cleanup_on_return Netstat.w_no_stat ["netstatraw6"; "/tmp/graph"; "7"]
           _ (-1)).
  - reflexivity.
  - discriminate.
Defined.

(** X30 on a file of a header and two lines. *)
Lemma lines_attached_in_reverse_witness :
  snd (Netstat.asp_measure Netstat.w_ok ["netstatraw6"; "/tmp/graph"; "7"]) =
    Val 0 /\
  Netstat.attached
    (fst (Netstat.asp_measure Netstat.w_ok ["netstatraw6"; "/tmp/graph"; "7"])) =
    [(7, Some (rev [Some Netstat.parsed_a; Some Netstat.parsed_b]))] /\
  Netstat.count_event
    (fun e => match e with Netstat.AFreeLine => true | _ => false end)
    (fst (Netstat.asp_measure Netstat.w_ok ["netstatraw6"; "/tmp/graph"; "7"])) =
    List.length [Netstat.line_a; Netstat.line_b].
Proof.
  apply (lines_attached_in_reverse Netstat.w_ok "netstatraw6" "/tmp/graph" "7" []
           7 Netstat.the_stat Netstat.header [Netstat.line_a; Netstat.line_b]
           [Some Netstat.parsed_a; Some Netstat.parsed_b]).
  - reflexivity.
  - reflexivity.
  - reflexivity.
  - reflexivity.
  - simpl. lia.
  - reflexivity.
  - reflexivity.
  - reflexivity.
  - reflexivity.
  - reflexivity.
Defined.
